(** * IHT seller net sheet: the computation engine

    A shallow embedding of the pure functions of the two engine variants

      - [Base]   : iht_seller_net_sheet_generator_indiana_tax_proration.jsx
      - [County] : the county-schedule variant (split commission, fee
                   schedules chosen by county)

    and the properties of the owner's policy premium lookup, the title fee
    aggregator, the Indiana arrears tax proration and the estimated net.

    Modelling conventions.
      - The engine is embedded twice.  In [Base] and [County] a JavaScript
        number that carries money is an exact rational [Q]; binary
        floating point rounding, NaN and the infinities are left out of
        the arithmetic (they only appear as results of [Number], where
        [parseNumber] filters them), and equality of amounts is [==].
        This is the arithmetic the fee sheet means; it agrees with the
        code wherever no amount lies within rounding noise of half a
        cent.
      - In [DblBase] and [DblCounty] the numeric code is repeated on
        binary64 numbers with the operations of the platform, bit for
        bit.  What is stated to the cent about amounts with a fraction of
        a cent is stated there.
      - Day counts and time values are integers [Z].  A [Date] is its time
        value in milliseconds since the epoch; Invalid Date and the range
        limit of the time value are not modelled.
      - A string that the engine inspects is a list of UTF-16 code units;
        labels and other produced text are [string]s. *)

From Stdlib Require Import ZArith QArith Qround Qminmax Qabs Qpower.
From Stdlib Require Import Lia Lqa List Bool String Ascii DecimalString.
From Stdlib Require DecimalPos.
From Stdlib Require SpecFloat.
Import ListNotations.

Local Open Scope Z_scope.

(** ** The JavaScript platform functions the engine calls *)

Module JS.

(** *** Math and Number *)

Definition Math_max (a b : Q) : Q := Qmax a b.
Definition Math_ceil (x : Q) : Z := Qceiling x.
Definition Math_floor (x : Q) : Z := Qfloor x.

(** [Math.round] rounds to the nearest integer, ties towards +infinity. *)
Definition Math_round (x : Q) : Z := Qfloor (x + (1 # 2))%Q.

(** [Number.EPSILON] is 2^-52. *)
Definition Number_EPSILON : Q := 1 # (2 ^ 52).

(** [a || b] on numbers: [b] when [a] is the falsy number 0. *)
Definition or_else (a b : Q) : Q := if Qeq_bool a 0 then b else a.

(** [x || 0] *)
Definition or_zero (x : Q) : Q := or_else x 0.

Definition Qlt_bool (a b : Q) : bool := negb (Qle_bool b a).

(** The result of [Number(string)]. *)
Inductive Number : Type :=
| NaN
| PosInfinity
| NegInfinity
| Finite (q : Q).

Definition Number_isFinite (n : Number) : bool :=
  match n with Finite _ => true | _ => false end.

(** The rational a finite number stands for, where it enters the
    arithmetic of the engine. *)
Definition finiteValue (n : Number) : Q :=
  match n with Finite q => q | _ => 0%Q end.

(** *** Strings as code units *)

Definition jsstring : Type := list N.

Fixpoint str (s : string) : jsstring :=
  match s with
  | EmptyString => []
  | String c r => N_of_ascii c :: str r
  end.

(** White space and line terminators: the class [\s] of regular
    expressions, which is also what [trim] and [Number] strip. *)
Definition isWhiteSpace (c : N) : bool :=
  ((9 <=? c) && (c <=? 13) || (c =? 32) || (c =? 160) || (c =? 5760)
   || (8192 <=? c) && (c <=? 8202) || (c =? 8232) || (c =? 8233)
   || (c =? 8239) || (c =? 8287) || (c =? 12288) || (c =? 65279))%N.

Fixpoint trimStart (s : jsstring) : jsstring :=
  match s with
  | c :: r => if isWhiteSpace c then trimStart r else s
  | [] => []
  end.

Definition trim (s : jsstring) : jsstring :=
  rev (trimStart (rev (trimStart s))).

(** [toLowerCase] on the code units that can matter when the result is
    compared with a Basic Latin text: A-Z, and the Kelvin sign, whose lower
    case is k.  Every other code unit is kept. *)
Definition lowerUnit (c : N) : N :=
  (if (65 <=? c) && (c <=? 90) then c + 32
   else if c =? 8490 then 107 else c)%N.

Definition toLowerCase (s : jsstring) : jsstring := map lowerUnit s.

Definition jsstring_eqb (a b : jsstring) : bool :=
  if list_eq_dec N.eq_dec a b then true else false.

(** *** Number(string): the StringNumericLiteral grammar *)

Definition isDigit (c : N) : bool := ((48 <=? c) && (c <=? 57))%N.

Definition digitValue (c : N) : Z := Z.of_N (c - 48).

(** Value of a hexadecimal digit, if it is one. *)
Definition hexValue (c : N) : option Z :=
  (if (48 <=? c) && (c <=? 57) then Some (Z.of_N (c - 48))
   else if (97 <=? c) && (c <=? 102) then Some (Z.of_N (c - 87))
   else if (65 <=? c) && (c <=? 70) then Some (Z.of_N (c - 55))
   else None)%N.

Fixpoint spanDigits (s : jsstring) : jsstring * jsstring :=
  match s with
  | c :: r =>
      if isDigit c then let (d, t) := spanDigits r in (c :: d, t)
      else ([], s)
  | [] => ([], [])
  end.

Definition digitsValue (ds : jsstring) : Z :=
  fold_left (fun acc c => 10 * acc + digitValue c) ds 0.

(** Digits of a literal in the given radix; [None] when a character is
    not a digit of that radix. *)
Fixpoint radixValue (radix : Z) (acc : Z) (s : jsstring) : option Z :=
  match s with
  | [] => Some acc
  | c :: r =>
      match hexValue c with
      | Some v => if v <? radix then radixValue radix (radix * acc + v) r
                  else None
      | None => None
      end
  end.

(** The largest magnitude that still rounds to a finite double lies just
    below 2^1024 - 2^970. *)
Definition overflowBound : Q := inject_Z (2 ^ 1024 - 2 ^ 970).

Definition roundMagnitude (q : Q) : Number :=
  if Qle_bool overflowBound q then PosInfinity else Finite q.

Definition negate (n : Number) : Number :=
  match n with
  | NaN => NaN
  | PosInfinity => NegInfinity
  | NegInfinity => PosInfinity
  | Finite q => Finite (- q)
  end.

(** ExponentPart: [e] or [E], an optional sign, at least one digit, and
    nothing after it.  [None] when the text is not an exponent part. *)
Definition exponentPart (s : jsstring) : option Z :=
  match s with
  | [] => Some 0
  | c :: r =>
      if ((c =? 101) || (c =? 69))%N then
        let '(neg, body) :=
          match r with
          | sg :: r' =>
              if (sg =? 45)%N then (true, r')
              else if (sg =? 43)%N then (false, r')
              else (false, r)
          | [] => (false, r)
          end in
        match spanDigits body with
        | ((_ :: _) as ds, []) =>
            Some (if neg then - digitsValue ds else digitsValue ds)
        | _ => None
        end
      else None
  end.

(** StrUnsignedDecimalLiteral. *)
Definition unsignedDecimal (s : jsstring) : Number :=
  if jsstring_eqb s (str "Infinity") then PosInfinity
  else
    let (ip, r1) := spanDigits s in
    let '(dot, fp, r2) :=
      match r1 with
      | c :: r =>
          if (c =? 46)%N then let (f, t) := spanDigits r in (true, f, t)
          else (false, [], r1)
      | [] => (false, [], r1)
      end in
    let wellFormed :=
      match ip, fp with
      | [], [] => false
      | _, _ => true
      end in
    if wellFormed then
      match exponentPart r2 with
      | Some e =>
          roundMagnitude
            (inject_Z (digitsValue (ip ++ fp)%list)
             * Qpower 10 (e - Z.of_nat (List.length fp)))%Q
      | None => NaN
      end
    else NaN.

(** NonDecimalIntegerLiteral: 0x, 0o, 0b prefixes, no sign. *)
Definition nonDecimal (s : jsstring) : option Number :=
  match s with
  | z :: p :: ((_ :: _) as ds) =>
      if (z =? 48)%N then
        let radix :=
          if ((p =? 120) || (p =? 88))%N then Some 16
          else if ((p =? 111) || (p =? 79))%N then Some 8
          else if ((p =? 98) || (p =? 66))%N then Some 2
          else None in
        match radix with
        | Some rx =>
            Some match radixValue rx 0 ds with
                 | Some v => roundMagnitude (inject_Z v)
                 | None => NaN
                 end
        | None => None
        end
      else None
  | _ => None
  end.

(** [Number(s)] for a string [s]. *)
Definition StringToNumber (s : jsstring) : Number :=
  match trim s with
  | [] => Finite 0
  | (c :: r) as t =>
      if (c =? 45)%N then negate (unsignedDecimal r)
      else if (c =? 43)%N then unsignedDecimal r
      else match nonDecimal t with
           | Some n => n
           | None => unsignedDecimal t
           end
  end.

(** *** Date: day numbers, years, months and time values *)

Definition msPerDay : Z := 86400000.

Definition Day (t : Z) : Z := t / msPerDay.
Definition TimeWithinDay (t : Z) : Z := t mod msPerDay.

Definition DaysInYear (y : Z) : Z :=
  if (y mod 4 =? 0) && negb (y mod 100 =? 0) || (y mod 400 =? 0)
  then 366 else 365.

(** Day number of January 1 of year [y]. *)
Definition DayFromYear (y : Z) : Z :=
  365 * (y - 1970) + (y - 1969) / 4 - (y - 1901) / 100 + (y - 1601) / 400.

(** The year that contains day number [d]: the largest [y] with
    [DayFromYear y <= d], found from an estimate that is off by at most
    one (see [YearFromDay_spec]). *)
Definition YearFromDay (d : Z) : Z :=
  let y := 1970 + (400 * d) / 146097 in
  if d <? DayFromYear y then y - 1
  else if DayFromYear (y + 1) <=? d then y + 1
  else y.

Definition YearFromTime (t : Z) : Z := YearFromDay (Day t).

Definition InLeapYear (t : Z) : Z :=
  if DaysInYear (YearFromTime t) =? 366 then 1 else 0.

Definition DayWithinYear (t : Z) : Z := Day t - DayFromYear (YearFromTime t).

(** Day within the year on which month [m] (0 = January) starts. *)
Definition monthStart (m leap : Z) : Z :=
  match m with
  | 0 => 0
  | 1 => 31
  | 2 => 59 + leap
  | 3 => 90 + leap
  | 4 => 120 + leap
  | 5 => 151 + leap
  | 6 => 181 + leap
  | 7 => 212 + leap
  | 8 => 243 + leap
  | 9 => 273 + leap
  | 10 => 304 + leap
  | _ => 334 + leap
  end.

Definition MonthFromTime (t : Z) : Z :=
  let d := DayWithinYear t in
  let l := InLeapYear t in
  if d <? 31 then 0
  else if d <? 59 + l then 1
  else if d <? 90 + l then 2
  else if d <? 120 + l then 3
  else if d <? 151 + l then 4
  else if d <? 181 + l then 5
  else if d <? 212 + l then 6
  else if d <? 243 + l then 7
  else if d <? 273 + l then 8
  else if d <? 304 + l then 9
  else if d <? 334 + l then 10
  else 11.

Definition DateFromTime (t : Z) : Z :=
  DayWithinYear t - monthStart (MonthFromTime t) (InLeapYear t) + 1.

(** [MakeDay]: months outside 0..11 carry into the year, the date counts
    on from the first of the month. *)
Definition MakeDay (year month date : Z) : Z :=
  let ym := year + month / 12 in
  let mn := month mod 12 in
  DayFromYear ym
  + monthStart mn (if DaysInYear ym =? 366 then 1 else 0) + date - 1.

Definition MakeDate (day time : Z) : Z := day * msPerDay + time.

(** [Date.UTC(year, month, date)]; a year in 0..99 stands for 1900 + year. *)
Definition Date_UTC (year month date : Z) : Z :=
  let yr := if (0 <=? year) && (year <=? 99) then 1900 + year else year in
  MakeDate (MakeDay yr month date) 0.

Record Date : Type := mkDate { getTime : Z }.

Definition getUTCFullYear (d : Date) : Z := YearFromTime (getTime d).
Definition getUTCMonth (d : Date) : Z := MonthFromTime (getTime d).
Definition getUTCDate (d : Date) : Z := DateFromTime (getTime d).

(** [d.setUTCDate(date)], as the date object it leaves behind. *)
Definition setUTCDate (d : Date) (date : Z) : Date :=
  let t := getTime d in
  mkDate
    (MakeDate (MakeDay (YearFromTime t) (MonthFromTime t) date)
       (TimeWithinDay t)).

(** [String(n)] for an integer, and [padStart(2, "0")]. *)
Definition String_of_Z (n : Z) : string :=
  NilZero.string_of_int (Z.to_int n).

Definition padStart2 (s : string) : string :=
  match s with
  | EmptyString => "00"
  | String c EmptyString => String "0" (String c EmptyString)
  | _ => s
  end.

(** *** What [dateFromInput] needs: split, truthiness, Date.UTC on numbers *)

(** [s.split(sep)] for a separator of one code unit; the result is never
    empty. *)
Fixpoint split (sep : N) (s : jsstring) : list jsstring :=
  match s with
  | [] => [[]]
  | c :: r =>
      if (c =? sep)%N then [] :: split sep r
      else match split sep r with
           | p :: ps => (c :: p) :: ps
           | [] => [[c]]
           end
  end.

(** [!n] for a number: NaN and zero are falsy. *)
Definition falsy (n : Number) : bool :=
  match n with
  | NaN => true
  | Finite q => Qeq_bool q 0
  | _ => false
  end.

(** [n - q] for a finite [q]. *)
Definition Number_minus (n : Number) (q : Q) : Number :=
  match n with
  | Finite a => Finite (a - q)
  | other => other
  end.

(** ToIntegerOrInfinity on a finite number: truncation towards zero. *)
Definition truncate (q : Q) : Z :=
  if Qle_bool 0 q then Qfloor q else Qceiling q.

(** [TimeClip]: a time value beyond 8.64e15 ms is no time value. *)
Definition TimeClip (t : Z) : option Z :=
  if Z.abs t <=? 8640000000000000 then Some t else None.

(** [Date.UTC(year, month, date)] on numbers; [None] stands for NaN. *)
Definition Date_UTC_numbers (year month date : Number) : option Z :=
  match year, month, date with
  | Finite y, Finite m, Finite d =>
      TimeClip (Date_UTC (truncate y) (truncate m) (truncate d))
  | _, _, _ => None
  end.

End JS.

(** ** Types and data shared by the two variants *)

Inductive OwnerPremiumChoice : Type := Mid | Low | High.

Inductive PremiumMode : Type := above_1m | table.

(** [OwnerPolicyRow] *)
Module Row.
Record t : Type := mk { lo : Q; hi : Q; min : Q; max : Q }.
End Row.

(** What [calcOwnersPolicyPremium] returns. *)
Module Premium.
Record t : Type := mk { min : Q; max : Q; chosen : Q; mode : PremiumMode }.
End Premium.

(** The lines [lo,hi,min,max] of the fee sheet chart, the same literal
    [OWNER_POLICY_RANGE_CSV] in both files. *)
Definition OWNER_POLICY_RANGE_CSV : list (Z * Z * Z * Z) :=
  [(0, 50000, 209, 220);
   (50001, 60000, 225, 263);
   (60001, 70000, 268, 306);
   (70001, 80000, 311, 349);
   (80001, 90000, 353, 392);
   (90001, 100000, 396, 435);
   (100001, 110000, 438, 462);
   (110001, 120000, 465, 490);
   (120001, 130000, 493, 517);
   (130001, 140000, 520, 545);
   (140001, 150000, 548, 572);
   (150001, 160000, 575, 600);
   (160001, 170000, 603, 627);
   (170001, 180000, 630, 655);
   (180001, 190000, 658, 682);
   (190001, 200000, 685, 710);
   (200001, 210000, 713, 737);
   (210001, 220000, 740, 765);
   (220001, 230000, 768, 792);
   (230001, 240000, 795, 820);
   (240001, 250000, 823, 847);
   (250001, 260000, 850, 875);
   (260001, 270000, 878, 902);
   (270001, 280000, 905, 930);
   (280001, 290000, 933, 957);
   (290001, 300000, 960, 985);
   (300001, 310000, 988, 1012);
   (310001, 320000, 1015, 1040);
   (320001, 330000, 1043, 1067);
   (330001, 340000, 1070, 1095);
   (340001, 350000, 1098, 1122);
   (350001, 360000, 1125, 1147);
   (360001, 370000, 1150, 1172);
   (370001, 380000, 1174, 1197);
   (380001, 390000, 1199, 1221);
   (390001, 400000, 1224, 1246);
   (400001, 410000, 1249, 1271);
   (410001, 420000, 1273, 1296);
   (420001, 430000, 1298, 1320);
   (430001, 440000, 1323, 1345);
   (440001, 450000, 1348, 1370);
   (450001, 460000, 1372, 1395);
   (460001, 470000, 1397, 1419);
   (470001, 480000, 1422, 1444);
   (480001, 490000, 1447, 1469);
   (490001, 500000, 1471, 1494);
   (500001, 510000, 1496, 1518);
   (510001, 520000, 1521, 1543);
   (520001, 530000, 1546, 1568);
   (530001, 540000, 1570, 1593);
   (540001, 550000, 1595, 1617);
   (550001, 560000, 1620, 1642);
   (560001, 570000, 1645, 1667);
   (570001, 580000, 1669, 1692);
   (580001, 590000, 1694, 1716);
   (590001, 600000, 1719, 1741);
   (600001, 610000, 1743, 1762);
   (610001, 620000, 1764, 1783);
   (620001, 630000, 1785, 1804);
   (630001, 640000, 1806, 1825);
   (640001, 650000, 1827, 1846);
   (650001, 660000, 1848, 1868);
   (660001, 670000, 1869, 1894);
   (670001, 680000, 1890, 1919);
   (680001, 690000, 1911, 1944);
   (690001, 700000, 1931, 1969);
   (700001, 710000, 1952, 1995);
   (710001, 720000, 1973, 2020);
   (720001, 730000, 1994, 2045);
   (730001, 740000, 2015, 2071);
   (740001, 750000, 2036, 2096);
   (750001, 760000, 2057, 2121);
   (760001, 770000, 2078, 2147);
   (770001, 780000, 2099, 2172);
   (780001, 790000, 2120, 2197);
   (790001, 800000, 2140, 2222);
   (800001, 810000, 2161, 2248);
   (810001, 820000, 2182, 2273);
   (820001, 830000, 2203, 2298);
   (830001, 840000, 2224, 2324);
   (840001, 850000, 2245, 2349);
   (850001, 860000, 2266, 2374);
   (860001, 870000, 2287, 2400);
   (870001, 880000, 2308, 2425);
   (880001, 890000, 2329, 2450);
   (890001, 900000, 2349, 2475);
   (900001, 910000, 2370, 2501);
   (910001, 920000, 2391, 2526);
   (920001, 930000, 2412, 2551);
   (930001, 940000, 2433, 2577);
   (940001, 950000, 2454, 2602);
   (950001, 960000, 2475, 2627);
   (960001, 970000, 2496, 2653);
   (970001, 980000, 2517, 2678);
   (980001, 990000, 2538, 2703);
   (990001, 1000000, 2558, 2728)].

Definition rowOfLine (line : Z * Z * Z * Z) : Row.t :=
  let '(lo, hi, min, max) := line in
  Row.mk (inject_Z lo) (inject_Z hi) (inject_Z min) (inject_Z max).

Inductive TransactionType : Type := with_loan | cash.

Record TitleFeeItem : Type := mkItem { label : string; amount : Q }.

Record TitleFees : Type :=
  mkTitleFees { items : list TitleFeeItem; total : Q }.

Inductive ProrateThrough : Type := day_before | closing_date.

Record TaxSettings : Type := mkTaxSettings {
  priorYearTax : Q;
  springPaid : bool;
  springPaidAmount : Q;
  fallPaid : bool;
  fallPaidAmount : Q;
  prorateThrough : ProrateThrough;
  force365 : bool
}.

Record TaxBreakdown : Type := mkTaxBreakdown {
  prorationEndYMD : string;
  daysInYear : Z;
  dailyRate : Q;
  daysAccrued : Z;
  accruedThisYear : Q;
  paidTotal : Q;
  unpaidPriorYear : Q;
  totalDebit : Q
}.

Inductive CommissionType : Type := pct | flat.

Record OtherCost : Type :=
  mkOtherCost { id : string; cost_label : string; amountInput : JS.jsstring }.

(** ** The base variant *)

Module Base.
Import JS.

(** *** Utilities *)

Definition isLeapYear (year : Z) : bool :=
  (Z.rem year 400 =? 0)
  || ((Z.rem year 4 =? 0) && negb (Z.rem year 100 =? 0)).

Definition round2 (n : Q) : Q :=
  (inject_Z (Math_round ((n + Number_EPSILON) * 100)) / 100)%Q.

(** [value.replace(/[$,\s]/g, "")], then [Number], then the finiteness
    guard. *)
Definition parseNumber (value : jsstring) : Number :=
  let cleaned :=
    filter (fun c => negb ((c =? 36) || (c =? 44) || isWhiteSpace c)%N)
      value in
  let n := StringToNumber cleaned in
  if Number_isFinite n then n else Finite 0.

Definition ymd (dt : Date) : string :=
  let y := getUTCFullYear dt in
  let m := padStart2 (String_of_Z (getUTCMonth dt + 1)) in
  let d := padStart2 (String_of_Z (getUTCDate dt)) in
  (String_of_Z y ++ "-" ++ m ++ "-" ++ d)%string.

Definition addDaysUTC (dt : Date) (days : Z) : Date :=
  let copy := mkDate (getTime dt) in
  setUTCDate copy (getUTCDate copy + days).

Definition daysBetweenInclusiveUTC (start end_ : Date) : Z :=
  let s :=
    Date_UTC (getUTCFullYear start) (getUTCMonth start) (getUTCDate start) in
  let e :=
    Date_UTC (getUTCFullYear end_) (getUTCMonth end_) (getUTCDate end_) in
  if e <? s then 0
  else (e - s) / msPerDay + 1.

Definition formatInputMoney (value : jsstring) : jsstring :=
  filter
    (fun c => isDigit c || (c =? 46) || (c =? 44) || (c =? 36))%N value.

Definition formatInputPercent (value : jsstring) : jsstring :=
  filter (fun c => isDigit c || (c =? 46))%N value.

(** [null] is [None]; a missing array element is not truthy. *)
Definition dateFromInput (v : jsstring) : option Date :=
  match map StringToNumber (split 45 v) with
  | y :: m :: d :: _ =>
      if falsy y || falsy m || falsy d then None
      else
        match Date_UTC_numbers y (Number_minus m 1) d with
        | Some t => Some (mkDate t)
        | None => None
        end
  | _ => None
  end.

(** The date as the name of the PDF file carries it: everything but
    digits and hyphens is taken out. *)
Definition ymmdSafe (s : jsstring) : jsstring :=
  filter (fun c => isDigit c || (c =? 45))%N s.

(** *** Owner's policy premium *)

Definition OWNER_POLICY_TABLE : list Row.t :=
  map rowOfLine OWNER_POLICY_RANGE_CSV.

(** The default of [choice] is [Mid]. *)
Definition calcOwnersPolicyPremium
    (liabilityAmount : Q) (choice : OwnerPremiumChoice) : Premium.t :=
  let amt := Math_max (or_zero liabilityAmount) 0 in
  if Qlt_bool 1000000 amt then
    let over := (amt - 1000000)%Q in
    let tenThousands := Math_ceil (over / 10000) in
    let premium := (2728 + 22 * inject_Z tenThousands)%Q in
    Premium.mk premium premium premium above_1m
  else
    let row :=
      match
        find (fun r => Qle_bool (Row.lo r) amt && Qle_bool amt (Row.hi r))
          OWNER_POLICY_TABLE
      with
      | Some r => r
      | None => nth 0 OWNER_POLICY_TABLE (Row.mk 0 0 0 0)
      end in
    let mid := round2 ((Row.min row + Row.max row) / 2) in
    let chosen :=
      match choice with
      | Low => Row.min row
      | High => Row.max row
      | Mid => mid
      end in
    Premium.mk (Row.min row) (Row.max row) (round2 chosen) table.

(** *** Seller title fees *)

Inductive CountyType : Type := marion | other.

Record TitleFeeSettings : Type := mkTitleFeeSettings {
  transactionType : TransactionType;
  countyType : CountyType;
  useSimplifile : bool;
  ownerPolicyPremium : Q;
  includeSettlementFee : bool;
  includeCPL : bool;
  includeTIEFF : bool;
  includeDeedRecording : bool;
  includeTransferFeeSDF : bool
}.

(** [items.push] in source order; a line that is not pushed adds nothing. *)
Definition calcIhtSellerTitleFees (s : TitleFeeSettings) : TitleFees :=
  let items :=
    ((if Qlt_bool 0 (ownerPolicyPremium s)
      then [mkItem "Owner’s title policy (estimate)" (ownerPolicyPremium s)]
      else [])
     ++ (if includeSettlementFee s then
           let settlement :=
             match transactionType s with
             | with_loan => 390%Q
             | cash => 290%Q
             end in
           [mkItem "Settlement / closing fee (seller)" settlement]
         else [])
     ++ [mkItem "Title processing fee (seller)" 175]
     ++ [mkItem "Closing processing fee (seller)" 150]
     ++ (if includeCPL s then [mkItem "CPL (seller)" 25] else [])
     ++ (if includeTIEFF s then [mkItem "TIEFF (seller)" 5] else [])
     ++ (if includeDeedRecording s then
           let deedRecording :=
             match countyType s with
             | marion => 35%Q
             | other => 25%Q
             end in
           [mkItem "Recording fee: deed" deedRecording]
           ++ (if useSimplifile s
               then [mkItem "Simplifile submission (deed)" 4.25]
               else [])
         else [])
     ++ (if includeTransferFeeSDF s
         then [mkItem "County transfer fee + SDF" 30]
         else []))%list in
  let total :=
    round2 (fold_left (fun sum x => (sum + or_zero (amount x))%Q) items 0%Q) in
  mkTitleFees
    (map (fun x => mkItem (label x) (round2 (amount x))) items) total.

(** *** Tax proration (Indiana arrears) *)

Definition calcIndianaTaxProration
    (closingUTC : Date) (tax : TaxSettings) : TaxBreakdown :=
  let year := getUTCFullYear closingUTC in
  let jan1 := mkDate (Date_UTC year 0 1) in
  let prorationEnd :=
    match prorateThrough tax with
    | day_before => addDaysUTC closingUTC (-1)
    | closing_date => closingUTC
    end in
  let daysInYear :=
    if force365 tax then 365 else if isLeapYear year then 366 else 365 in
  let TY := Math_max (or_zero (priorYearTax tax)) 0 in
  let dailyRate := (TY / inject_Z daysInYear)%Q in
  let daysAccrued :=
    if getTime prorationEnd <? getTime jan1 then 0
    else daysBetweenInclusiveUTC jan1 prorationEnd in
  let accruedThisYear := (dailyRate * inject_Z daysAccrued)%Q in
  let paidTotal :=
    ((if springPaid tax
      then Math_max (or_zero (springPaidAmount tax)) 0 else 0)
     + (if fallPaid tax
        then Math_max (or_zero (fallPaidAmount tax)) 0 else 0))%Q in
  let unpaidPriorYear := Math_max (TY - paidTotal) 0 in
  let totalDebit := (unpaidPriorYear + accruedThisYear)%Q in
  mkTaxBreakdown (ymd prorationEnd) daysInYear dailyRate daysAccrued
    accruedThisYear paidTotal unpaidPriorYear totalDebit.

(** *** The component: values derived from the form state

    Each [useMemo] is a function of the state.  [closingUTC] is the date
    object the component derives from the date field (today's date when
    the field holds no date). *)

Module App.

Record State : Type := mkState {
  salePriceInput : jsstring;
  closingUTC : Date;
  commissionType : CommissionType;
  commissionPct : jsstring;
  commissionFlatInput : jsstring;
  mortgagePayoffInput : jsstring;
  sellerConcessionsInput : jsstring;
  otherCosts : list OtherCost;
  transactionType : TransactionType;
  countyType : CountyType;
  useSimplifile : bool;
  autoOwnerPolicy : bool;
  ownerPolicyChoice : OwnerPremiumChoice;
  ownerPolicyPremiumInput : jsstring;
  includeSettlementFee : bool;
  includeCPL : bool;
  includeTIEFF : bool;
  includeDeedRecording : bool;
  includeTransferFeeSDF : bool;
  priorYearTaxInput : jsstring;
  springPaid : bool;
  fallPaid : bool;
  springPaidInput : jsstring;
  fallPaidInput : jsstring;
  prorateThrough : ProrateThrough;
  force365 : bool
}.

Definition number (v : jsstring) : Q := finiteValue (parseNumber v).

Definition salePrice (st : State) : Q := number (salePriceInput st).
Definition mortgagePayoff (st : State) : Q := number (mortgagePayoffInput st).
Definition sellerConcessions (st : State) : Q :=
  number (sellerConcessionsInput st).
Definition priorYearTax (st : State) : Q := number (priorYearTaxInput st).
Definition springPaidAmount (st : State) : Q := number (springPaidInput st).
Definition fallPaidAmount (st : State) : Q := number (fallPaidInput st).

Definition commissionAmount (st : State) : Q :=
  match commissionType st with
  | pct =>
      let pct := number (commissionPct st) in
      (salePrice st * (pct / 100))%Q
  | flat => number (commissionFlatInput st)
  end.

Definition otherCostsTotal (st : State) : Q :=
  fold_left (fun sum c => (sum + number (amountInput c))%Q)
    (otherCosts st) 0%Q.

Definition ownerPolicyAuto (st : State) : Premium.t :=
  calcOwnersPolicyPremium (salePrice st) (ownerPolicyChoice st).

Definition ownerPolicyPremium (st : State) : Q :=
  if autoOwnerPolicy st then Premium.chosen (ownerPolicyAuto st)
  else number (ownerPolicyPremiumInput st).

Definition sellerFeeCalc (st : State) : TitleFees :=
  calcIhtSellerTitleFees
    (mkTitleFeeSettings (transactionType st) (countyType st)
       (useSimplifile st) (ownerPolicyPremium st) (includeSettlementFee st)
       (includeCPL st) (includeTIEFF st) (includeDeedRecording st)
       (includeTransferFeeSDF st)).

Definition sellerTitleFees (st : State) : list TitleFeeItem :=
  items (sellerFeeCalc st).
Definition sellerTitleFeesTotal (st : State) : Q := total (sellerFeeCalc st).

Definition taxSettings (st : State) : TaxSettings :=
  mkTaxSettings (priorYearTax st) (springPaid st)
    (or_else (springPaidAmount st) (Math_max (priorYearTax st / 2) 0))
    (fallPaid st)
    (or_else (fallPaidAmount st) (Math_max (priorYearTax st / 2) 0))
    (prorateThrough st) (force365 st).

Definition tax (st : State) : TaxBreakdown :=
  calcIndianaTaxProration (closingUTC st) (taxSettings st).

Definition taxDebitRounded (st : State) : Q := round2 (totalDebit (tax st)).

Definition estimatedNet (st : State) : Q :=
  let net :=
    (salePrice st - commissionAmount st - mortgagePayoff st
     - sellerConcessions st - otherCostsTotal st - sellerTitleFeesTotal st
     - taxDebitRounded st)%Q in
  round2 net.

(** The updaters of the other costs; [rnd] is the text
    [Math.random().toString(16).slice(2)] gives. *)
Definition addOtherCost (rnd : string) (prev : list OtherCost) :
    list OtherCost :=
  (prev ++ [mkOtherCost ("c" ++ rnd)%string "Other" (str "0")])%list.

Definition removeOtherCost (id0 : string) (prev : list OtherCost) :
    list OtherCost :=
  filter (fun x => negb (String.eqb (id x) id0)) prev.

(** The [onChange] handlers of the two fields of a row of other costs. *)
Definition setOtherCostLabel (id0 value : string) (prev : list OtherCost) :
    list OtherCost :=
  map (fun x =>
         if String.eqb (id x) id0
         then mkOtherCost (id x) value (amountInput x) else x) prev.

Definition setOtherCostAmount
    (id0 : string) (value : jsstring) (prev : list OtherCost) :
    list OtherCost :=
  map (fun x =>
         if String.eqb (id x) id0
         then mkOtherCost (id x) (cost_label x) (formatInputMoney value)
         else x) prev.

End App.

End Base.

(** ** The county-schedule variant *)

Module County.
Import JS.

(** *** Utilities *)

Definition isLeapYear (year : Z) : bool :=
  (Z.rem year 400 =? 0)
  || ((Z.rem year 4 =? 0) && negb (Z.rem year 100 =? 0)).

Definition round2 (n : Q) : Q :=
  (inject_Z (Math_round ((n + Number_EPSILON) * 100)) / 100)%Q.

(** [value.replace(/[$,\s]/g, "")], then [Number], then the finiteness
    guard. *)
Definition parseNumber (value : jsstring) : Number :=
  let cleaned :=
    filter (fun c => negb ((c =? 36) || (c =? 44) || isWhiteSpace c)%N)
      value in
  let n := StringToNumber cleaned in
  if Number_isFinite n then n else Finite 0.

Definition ymd (dt : Date) : string :=
  let y := getUTCFullYear dt in
  let m := padStart2 (String_of_Z (getUTCMonth dt + 1)) in
  let d := padStart2 (String_of_Z (getUTCDate dt)) in
  (String_of_Z y ++ "-" ++ m ++ "-" ++ d)%string.

Definition addDaysUTC (dt : Date) (days : Z) : Date :=
  let copy := mkDate (getTime dt) in
  setUTCDate copy (getUTCDate copy + days).

Definition daysBetweenInclusiveUTC (start end_ : Date) : Z :=
  let s :=
    Date_UTC (getUTCFullYear start) (getUTCMonth start) (getUTCDate start) in
  let e :=
    Date_UTC (getUTCFullYear end_) (getUTCMonth end_) (getUTCDate end_) in
  if e <? s then 0
  else (e - s) / msPerDay + 1.

Definition formatInputMoney (value : jsstring) : jsstring :=
  filter
    (fun c => isDigit c || (c =? 46) || (c =? 44) || (c =? 36))%N value.

Definition formatInputPercent (value : jsstring) : jsstring :=
  filter (fun c => isDigit c || (c =? 46))%N value.

(** [null] is [None]; a missing array element is not truthy. *)
Definition dateFromInput (v : jsstring) : option Date :=
  match map StringToNumber (split 45 v) with
  | y :: m :: d :: _ =>
      if falsy y || falsy m || falsy d then None
      else
        match Date_UTC_numbers y (Number_minus m 1) d with
        | Some t => Some (mkDate t)
        | None => None
        end
  | _ => None
  end.

(** *** Owner's policy premium *)

Definition OWNER_POLICY_TABLE : list Row.t :=
  map rowOfLine OWNER_POLICY_RANGE_CSV.

(** The default of [choice] is [Mid]. *)
Definition calcOwnersPolicyPremium
    (liabilityAmount : Q) (choice : OwnerPremiumChoice) : Premium.t :=
  let amt := Math_max (or_zero liabilityAmount) 0 in
  if Qlt_bool 1000000 amt then
    let over := (amt - 1000000)%Q in
    let tenThousands := Math_ceil (over / 10000) in
    let premium := (2728 + 22 * inject_Z tenThousands)%Q in
    Premium.mk premium premium premium above_1m
  else
    let row :=
      match
        find (fun r => Qle_bool (Row.lo r) amt && Qle_bool amt (Row.hi r))
          OWNER_POLICY_TABLE
      with
      | Some r => r
      | None => nth 0 OWNER_POLICY_TABLE (Row.mk 0 0 0 0)
      end in
    let mid := round2 ((Row.min row + Row.max row) / 2) in
    let chosen :=
      match choice with
      | Low => Row.min row
      | High => Row.max row
      | Mid => mid
      end in
    Premium.mk (Row.min row) (Row.max row) (round2 chosen) table.

(** *** Seller title fees (standard and Valparaiso schedules) *)

Record FeeSchedule : Type := mkFeeSchedule {
  settlementWithLoanSeller : Q;
  settlementCashSeller : Q;
  titleProcessingSeller : Q;
  closingProcessingSeller : Q;
  cplSeller : Q;
  tieffSeller : Q;
  deedRecordingMarion : Q;
  deedRecordingOther : Q;
  simplifilePerDoc : Q;
  transferPlusSDF : Q
}.

Definition STANDARD_SCHEDULE : FeeSchedule :=
  {| settlementWithLoanSeller := 390;
     settlementCashSeller := 290;
     titleProcessingSeller := 175;
     closingProcessingSeller := 150;
     cplSeller := 25;
     tieffSeller := 5;
     deedRecordingMarion := 35;
     deedRecordingOther := 25;
     simplifilePerDoc := 4.25;
     transferPlusSDF := 30 |}.

Definition VALPO_SCHEDULE : FeeSchedule :=
  {| settlementWithLoanSeller := 390;
     settlementCashSeller := 290;
     titleProcessingSeller := 225;
     closingProcessingSeller := 175;
     cplSeller := 25;
     tieffSeller := 5;
     deedRecordingMarion := 35;
     deedRecordingOther := 25;
     simplifilePerDoc := 4.25;
     transferPlusSDF := 30 |}.

(** The set of lower-cased county names. *)
Definition VALPO_COUNTIES : list jsstring :=
  map (fun x => toLowerCase (str x))
    ["Lake"; "Porter"; "LaPorte"; "St. Joseph"; "Elkhart"; "Kosciusko";
     "Marshall"; "Fulton"; "Pulaski"; "Starke"; "Jasper"; "Newton";
     "White"; "Cass"]%string.

Definition getFeeScheduleForCounty (county : jsstring) : FeeSchedule :=
  let key := toLowerCase (trim county) in
  if existsb (jsstring_eqb key) VALPO_COUNTIES then VALPO_SCHEDULE
  else STANDARD_SCHEDULE.

Record TitleFeeSettings : Type := mkTitleFeeSettings {
  transactionType : TransactionType;
  county : jsstring;
  useSimplifile : bool;
  ownerPolicyPremium : Q;
  includeSettlementFee : bool;
  includeCPL : bool;
  includeTIEFF : bool;
  includeDeedRecording : bool;
  includeTransferFeeSDF : bool
}.

(** [items.push] in source order; a line that is not pushed adds nothing. *)
Definition calcIhtSellerTitleFees (s : TitleFeeSettings) : TitleFees :=
  let schedule := getFeeScheduleForCounty (county s) in
  let items :=
    ((if Qlt_bool 0 (ownerPolicyPremium s)
      then [mkItem "Owner’s title policy (estimate)" (ownerPolicyPremium s)]
      else [])
     ++ (if includeSettlementFee s then
           let fullSettlement :=
             match transactionType s with
             | with_loan => settlementWithLoanSeller schedule
             | cash => settlementCashSeller schedule
             end in
           let settlement := round2 (fullSettlement / 2) in
           [mkItem "Settlement / closing fee (seller)" settlement]
         else [])
     ++ [mkItem "Title processing fee (seller)"
           (titleProcessingSeller schedule)]
     ++ [mkItem "Closing processing fee (seller)"
           (closingProcessingSeller schedule)]
     ++ (if includeCPL s then [mkItem "CPL (seller)" (cplSeller schedule)]
         else [])
     ++ (if includeTIEFF s
         then [mkItem "TIEFF (seller)" (tieffSeller schedule)] else [])
     ++ (if includeDeedRecording s then
           let isMarion :=
             jsstring_eqb (toLowerCase (trim (county s))) (str "marion") in
           let deedRecording :=
             if isMarion then deedRecordingMarion schedule
             else deedRecordingOther schedule in
           [mkItem "Recording fee: deed" deedRecording]
           ++ (if useSimplifile s
               then [mkItem "Simplifile submission (deed)"
                       (simplifilePerDoc schedule)]
               else [])
         else [])
     ++ (if includeTransferFeeSDF s
         then [mkItem "County transfer fee + SDF" (transferPlusSDF schedule)]
         else []))%list in
  let total :=
    round2 (fold_left (fun sum x => (sum + or_zero (amount x))%Q) items 0%Q) in
  mkTitleFees
    (map (fun x => mkItem (label x) (round2 (amount x))) items) total.

(** *** Tax proration (Indiana arrears) *)

Definition calcIndianaTaxProration
    (closingUTC : Date) (tax : TaxSettings) : TaxBreakdown :=
  let year := getUTCFullYear closingUTC in
  let jan1 := mkDate (Date_UTC year 0 1) in
  let prorationEnd :=
    match prorateThrough tax with
    | day_before => addDaysUTC closingUTC (-1)
    | closing_date => closingUTC
    end in
  let daysInYear :=
    if force365 tax then 365 else if isLeapYear year then 366 else 365 in
  let TY := Math_max (or_zero (priorYearTax tax)) 0 in
  let dailyRate := (TY / inject_Z daysInYear)%Q in
  let daysAccrued :=
    if getTime prorationEnd <? getTime jan1 then 0
    else daysBetweenInclusiveUTC jan1 prorationEnd in
  let accruedThisYear := (dailyRate * inject_Z daysAccrued)%Q in
  let paidTotal :=
    ((if springPaid tax
      then Math_max (or_zero (springPaidAmount tax)) 0 else 0)
     + (if fallPaid tax
        then Math_max (or_zero (fallPaidAmount tax)) 0 else 0))%Q in
  let unpaidPriorYear := Math_max (TY - paidTotal) 0 in
  let totalDebit := (unpaidPriorYear + accruedThisYear)%Q in
  mkTaxBreakdown (ymd prorationEnd) daysInYear dailyRate daysAccrued
    accruedThisYear paidTotal unpaidPriorYear totalDebit.

(** *** The component: values derived from the form state

    Each [useMemo] is a function of the state.  [closingUTC] is the date
    object the component derives from the date field (today's date when
    the field holds no date). *)

Module App.

Record State : Type := mkState {
  salePriceInput : jsstring;
  closingUTC : Date;
  county : jsstring;
  listingCommissionType : CommissionType;
  buyersCommissionType : CommissionType;
  listingCommissionPct : jsstring;
  buyersCommissionPct : jsstring;
  listingCommissionFlat : jsstring;
  buyersCommissionFlat : jsstring;
  mortgagePayoffInput : jsstring;
  sellerConcessionsInput : jsstring;
  otherCosts : list OtherCost;
  transactionType : TransactionType;
  useSimplifile : bool;
  autoOwnerPolicy : bool;
  ownerPolicyChoice : OwnerPremiumChoice;
  ownerPolicyPremiumInput : jsstring;
  includeSettlementFee : bool;
  includeCPL : bool;
  includeTIEFF : bool;
  includeDeedRecording : bool;
  includeTransferFeeSDF : bool;
  priorYearTaxInput : jsstring;
  springPaid : bool;
  fallPaid : bool;
  springPaidInput : jsstring;
  fallPaidInput : jsstring;
  prorateThrough : ProrateThrough;
  force365 : bool
}.

Definition number (v : jsstring) : Q := finiteValue (parseNumber v).

Definition salePrice (st : State) : Q := number (salePriceInput st).
Definition mortgagePayoff (st : State) : Q := number (mortgagePayoffInput st).
Definition sellerConcessions (st : State) : Q :=
  number (sellerConcessionsInput st).
Definition priorYearTax (st : State) : Q := number (priorYearTaxInput st).
Definition springPaidAmount (st : State) : Q := number (springPaidInput st).
Definition fallPaidAmount (st : State) : Q := number (fallPaidInput st).

Definition listingCommission (st : State) : Q :=
  match listingCommissionType st with
  | pct => (salePrice st * (number (listingCommissionPct st) / 100))%Q
  | flat => number (listingCommissionFlat st)
  end.

Definition buyersCommission (st : State) : Q :=
  match buyersCommissionType st with
  | pct => (salePrice st * (number (buyersCommissionPct st) / 100))%Q
  | flat => number (buyersCommissionFlat st)
  end.

Definition totalCommission (st : State) : Q :=
  round2 (listingCommission st + buyersCommission st).

Definition otherCostsTotal (st : State) : Q :=
  fold_left (fun sum c => (sum + number (amountInput c))%Q)
    (otherCosts st) 0%Q.

Definition ownerPolicyAuto (st : State) : Premium.t :=
  calcOwnersPolicyPremium (salePrice st) (ownerPolicyChoice st).

Definition ownerPolicyPremium (st : State) : Q :=
  if autoOwnerPolicy st then Premium.chosen (ownerPolicyAuto st)
  else number (ownerPolicyPremiumInput st).

Definition sellerFeeCalc (st : State) : TitleFees :=
  calcIhtSellerTitleFees
    (mkTitleFeeSettings (transactionType st) (county st)
       (useSimplifile st) (ownerPolicyPremium st) (includeSettlementFee st)
       (includeCPL st) (includeTIEFF st) (includeDeedRecording st)
       (includeTransferFeeSDF st)).

Definition sellerTitleFees (st : State) : list TitleFeeItem :=
  items (sellerFeeCalc st).
Definition sellerTitleFeesTotal (st : State) : Q := total (sellerFeeCalc st).

Definition taxSettings (st : State) : TaxSettings :=
  mkTaxSettings (priorYearTax st) (springPaid st)
    (or_else (springPaidAmount st) (Math_max (priorYearTax st / 2) 0))
    (fallPaid st)
    (or_else (fallPaidAmount st) (Math_max (priorYearTax st / 2) 0))
    (prorateThrough st) (force365 st).

Definition tax (st : State) : TaxBreakdown :=
  calcIndianaTaxProration (closingUTC st) (taxSettings st).

Definition taxDebitRounded (st : State) : Q := round2 (totalDebit (tax st)).

Definition estimatedNet (st : State) : Q :=
  let net :=
    (salePrice st - listingCommission st - buyersCommission st
     - mortgagePayoff st
     - sellerConcessions st - otherCostsTotal st - sellerTitleFeesTotal st
     - taxDebitRounded st)%Q in
  round2 net.

(** The updaters of the other costs; [rnd] is the text
    [Math.random().toString(16).slice(2)] gives. *)
Definition addOtherCost (rnd : string) (prev : list OtherCost) :
    list OtherCost :=
  (prev ++ [mkOtherCost ("c" ++ rnd)%string "Other" (str "0")])%list.

Definition removeOtherCost (id0 : string) (prev : list OtherCost) :
    list OtherCost :=
  filter (fun x => negb (String.eqb (id x) id0)) prev.

(** The [onChange] handlers of the two fields of a row of other costs. *)
Definition setOtherCostLabel (id0 value : string) (prev : list OtherCost) :
    list OtherCost :=
  map (fun x =>
         if String.eqb (id x) id0
         then mkOtherCost (id x) value (amountInput x) else x) prev.

Definition setOtherCostAmount
    (id0 : string) (value : jsstring) (prev : list OtherCost) :
    list OtherCost :=
  map (fun x =>
         if String.eqb (id x) id0
         then mkOtherCost (id x) (cost_label x) (formatInputMoney value)
         else x) prev.

End App.

End County.

(** ** The engine in double arithmetic

    JavaScript numbers are IEEE 754 binary64 values and every operation
    rounds to the nearest one, ties to even.  The modules above compute
    with exact rationals; the modules below repeat the numeric code of the
    two sources on binary64 numbers, bit for bit, with the operations of
    the Standard Library's [SpecFloat] at precision 53.  Dates stay
    integer time values, which doubles hold exactly. *)

Module Dbl.
Import SpecFloat.
Import JS.

(** *** Numbers *)

Definition double : Type := spec_float.

Definition prec : Z := 53.
Definition emax : Z := 1024.

Definition add : double -> double -> double := SFadd prec emax.
Definition sub : double -> double -> double := SFsub prec emax.
Definition mul : double -> double -> double := SFmul prec emax.
Definition div : double -> double -> double := SFdiv prec emax.
Definition ltb : double -> double -> bool := SFltb.
Definition leb : double -> double -> bool := SFleb.

Module Syntax.
Declare Scope dbl_scope.
Delimit Scope dbl_scope with dbl.
Bind Scope dbl_scope with double.
Infix "+" := add : dbl_scope.
Infix "-" := sub : dbl_scope.
Infix "*" := mul : dbl_scope.
Infix "/" := div : dbl_scope.
Infix "<?" := ltb : dbl_scope.
Infix "<=?" := leb : dbl_scope.
End Syntax.
Import Syntax.

Definition zero : double := S754_zero false.
Definition neg_zero : double := S754_zero true.
Definition nan : double := S754_nan.
Definition infinity : double := S754_infinity false.
Definition neg_infinity : double := S754_infinity true.

(** The double nearest to an integer and to a rational (ties to even,
    overflow to an infinity, underflow to a zero of the same sign). *)
Definition ofZ (z : Z) : double := binary_normalize prec emax z 0 false.

Definition ofQ (q : Q) : double :=
  match Qnum q with
  | Z0 => zero
  | Zpos n => div (S754_finite false n 0) (S754_finite false (Qden q) 0)
  | Zneg n => div (S754_finite true n 0) (S754_finite false (Qden q) 0)
  end.

(** The rational a finite double stands for (0 for the others). *)
Definition toQ (x : double) : Q :=
  match x with
  | S754_finite s m e =>
      ((if s then - (1) else 1) * inject_Z (Z.pos m) * Qpower 2 e)%Q
  | _ => 0%Q
  end.

Definition is_nan (x : double) : bool :=
  match x with S754_nan => true | _ => false end.

Definition is_zero (x : double) : bool :=
  match x with S754_zero _ => true | _ => false end.

(** The sign bit: set for negative numbers and for -0. *)
Definition get_sign (x : double) : bool :=
  match x with
  | S754_zero s | S754_infinity s | S754_finite s _ _ => s
  | S754_nan => false
  end.

(** [Number.EPSILON] is 2^-52. *)
Definition Number_EPSILON : double := ofQ (1 # (2 ^ 52)).

Definition Number_isFinite (x : double) : bool :=
  match x with
  | S754_zero _ | S754_finite _ _ _ => true
  | _ => false
  end.

(** [a || b] on numbers: [b] when [a] is +0, -0 or NaN. *)
Definition or_else (a b : double) : double :=
  if is_zero a || is_nan a then b else a.

(** [Math.max] of two numbers: NaN if either is, and +0 above -0. *)
Definition Math_max (a b : double) : double :=
  if is_nan a || is_nan b then nan
  else if (a <? b)%dbl then b
  else if (b <? a)%dbl then a
  else if get_sign a then b else a.

(** [Math.round]: the nearest integer, ties towards +infinity; a result
    of zero keeps the sign of the argument. *)
Definition Math_round (x : double) : double :=
  match x with
  | S754_finite s _ _ =>
      let k := Qfloor (toQ x + (1 # 2))%Q in
      if (k =? 0)%Z then (if s then neg_zero else zero) else ofZ k
  | _ => x
  end.

(** [Math.ceil]. *)
Definition Math_ceil (x : double) : double :=
  match x with
  | S754_finite s _ _ =>
      let k := Qceiling (toQ x) in
      if (k =? 0)%Z then (if s then neg_zero else zero) else ofZ k
  | _ => x
  end.

(** [Number(s)] for a string [s]: the value of the literal, read exactly
    by [JS.StringToNumber], rounded to the nearest double. *)
Definition StringToNumber (s : jsstring) : double :=
  match JS.StringToNumber s with
  | NaN => nan
  | PosInfinity => infinity
  | NegInfinity => neg_infinity
  | Finite q =>
      if Qeq_bool q 0 then
        match trim s with
        | c :: _ => if (c =? 45)%N then neg_zero else zero
        | [] => zero
        end
      else ofQ q
  end.

(** *** Types shared by the two variants *)

Module Row.
Record t : Type :=
  mk { lo : double; hi : double; min : double; max : double }.
End Row.

Module Premium.
Record t : Type :=
  mk { min : double; max : double; chosen : double; mode : PremiumMode }.
End Premium.

Definition rowOfLine (line : Z * Z * Z * Z) : Row.t :=
  let '(lo, hi, min, max) := line in
  Row.mk (ofZ lo) (ofZ hi) (ofZ min) (ofZ max).

Record TitleFeeItem : Type := mkItem { label : string; amount : double }.

Record TitleFees : Type :=
  mkTitleFees { items : list TitleFeeItem; total : double }.

Record TaxSettings : Type := mkTaxSettings {
  priorYearTax : double;
  springPaid : bool;
  springPaidAmount : double;
  fallPaid : bool;
  fallPaidAmount : double;
  prorateThrough : ProrateThrough;
  force365 : bool
}.

Record TaxBreakdown : Type := mkTaxBreakdown {
  prorationEndYMD : string;
  daysInYear : Z;
  dailyRate : double;
  daysAccrued : Z;
  accruedThisYear : double;
  paidTotal : double;
  unpaidPriorYear : double;
  totalDebit : double
}.

End Dbl.

(** *** The base variant in double arithmetic *)

Module DblBase.
Import JS.
Import Dbl.
Import Dbl.Syntax.

Definition round2 (n : double) : double :=
  (Math_round ((n + Number_EPSILON) * ofZ 100) / ofZ 100)%dbl.

Definition parseNumber (value : jsstring) : double :=
  let cleaned :=
    filter (fun c => negb ((c =? 36) || (c =? 44) || isWhiteSpace c)%N)
      value in
  let n := StringToNumber cleaned in
  if Number_isFinite n then n else ofZ 0.

Definition OWNER_POLICY_TABLE : list Row.t :=
  map rowOfLine OWNER_POLICY_RANGE_CSV.

Definition calcOwnersPolicyPremium
    (liabilityAmount : double) (choice : OwnerPremiumChoice) : Premium.t :=
  let amt := Math_max (or_else liabilityAmount (ofZ 0)) (ofZ 0) in
  if (ofZ 1000000 <? amt)%dbl then
    let over := (amt - ofZ 1000000)%dbl in
    let tenThousands := Math_ceil (over / ofZ 10000) in
    let premium := (ofZ 2728 + ofZ 22 * tenThousands)%dbl in
    Premium.mk premium premium premium above_1m
  else
    let row :=
      match
        find (fun r => (Row.lo r <=? amt)%dbl && (amt <=? Row.hi r)%dbl)
          OWNER_POLICY_TABLE
      with
      | Some r => r
      | None => nth 0 OWNER_POLICY_TABLE (Row.mk zero zero zero zero)
      end in
    let mid := round2 ((Row.min row + Row.max row) / ofZ 2) in
    let chosen :=
      match choice with
      | Low => Row.min row
      | High => Row.max row
      | Mid => mid
      end in
    Premium.mk (Row.min row) (Row.max row) (round2 chosen) table.

Record TitleFeeSettings : Type := mkTitleFeeSettings {
  transactionType : TransactionType;
  countyType : Base.CountyType;
  useSimplifile : bool;
  ownerPolicyPremium : double;
  includeSettlementFee : bool;
  includeCPL : bool;
  includeTIEFF : bool;
  includeDeedRecording : bool;
  includeTransferFeeSDF : bool
}.

Definition calcIhtSellerTitleFees (s : TitleFeeSettings) : TitleFees :=
  let items :=
    ((if (ofZ 0 <? ownerPolicyPremium s)%dbl
      then [mkItem "Owner’s title policy (estimate)" (ownerPolicyPremium s)]
      else [])
     ++ (if includeSettlementFee s then
           let settlement :=
             match transactionType s with
             | with_loan => ofZ 390
             | cash => ofZ 290
             end in
           [mkItem "Settlement / closing fee (seller)" settlement]
         else [])
     ++ [mkItem "Title processing fee (seller)" (ofZ 175)]
     ++ [mkItem "Closing processing fee (seller)" (ofZ 150)]
     ++ (if includeCPL s then [mkItem "CPL (seller)" (ofZ 25)] else [])
     ++ (if includeTIEFF s then [mkItem "TIEFF (seller)" (ofZ 5)] else [])
     ++ (if includeDeedRecording s then
           let deedRecording :=
             match countyType s with
             | Base.marion => ofZ 35
             | Base.other => ofZ 25
             end in
           [mkItem "Recording fee: deed" deedRecording]
           ++ (if useSimplifile s
               then [mkItem "Simplifile submission (deed)" (ofQ 4.25)]
               else [])
         else [])
     ++ (if includeTransferFeeSDF s
         then [mkItem "County transfer fee + SDF" (ofZ 30)]
         else []))%list in
  let total :=
    round2
      (fold_left (fun sum x => (sum + or_else (amount x) (ofZ 0))%dbl) items
         (ofZ 0)) in
  mkTitleFees
    (map (fun x => mkItem (label x) (round2 (amount x))) items) total.

Definition calcIndianaTaxProration
    (closingUTC : Date) (tax : TaxSettings) : TaxBreakdown :=
  let year := getUTCFullYear closingUTC in
  let jan1 := mkDate (Date_UTC year 0 1) in
  let prorationEnd :=
    match prorateThrough tax with
    | day_before => Base.addDaysUTC closingUTC (-1)
    | closing_date => closingUTC
    end in
  let daysInYear :=
    if force365 tax then 365
    else if Base.isLeapYear year then 366 else 365 in
  let TY := Math_max (or_else (priorYearTax tax) (ofZ 0)) (ofZ 0) in
  let dailyRate := (TY / ofZ daysInYear)%dbl in
  let daysAccrued :=
    if getTime prorationEnd <? getTime jan1 then 0
    else Base.daysBetweenInclusiveUTC jan1 prorationEnd in
  let accruedThisYear := (dailyRate * ofZ daysAccrued)%dbl in
  let paidTotal :=
    ((if springPaid tax
      then Math_max (or_else (springPaidAmount tax) (ofZ 0)) (ofZ 0)
      else ofZ 0)
     + (if fallPaid tax
        then Math_max (or_else (fallPaidAmount tax) (ofZ 0)) (ofZ 0)
        else ofZ 0))%dbl in
  let unpaidPriorYear := Math_max (TY - paidTotal) (ofZ 0) in
  let totalDebit := (unpaidPriorYear + accruedThisYear)%dbl in
  mkTaxBreakdown (Base.ymd prorationEnd) daysInYear dailyRate daysAccrued
    accruedThisYear paidTotal unpaidPriorYear totalDebit.

(** The values the component derives from the form state of
    [Base.App.State]. *)
Module App.
Import Base.App.

Definition salePrice (st : State) : double := parseNumber (salePriceInput st).
Definition mortgagePayoff (st : State) : double :=
  parseNumber (mortgagePayoffInput st).
Definition sellerConcessions (st : State) : double :=
  parseNumber (sellerConcessionsInput st).
Definition priorYearTax (st : State) : double :=
  parseNumber (priorYearTaxInput st).
Definition springPaidAmount (st : State) : double :=
  parseNumber (springPaidInput st).
Definition fallPaidAmount (st : State) : double :=
  parseNumber (fallPaidInput st).

Definition commissionAmount (st : State) : double :=
  match commissionType st with
  | pct =>
      let pct := parseNumber (commissionPct st) in
      (salePrice st * (pct / ofZ 100))%dbl
  | flat => parseNumber (commissionFlatInput st)
  end.

Definition otherCostsTotal (st : State) : double :=
  fold_left (fun sum c => (sum + parseNumber (amountInput c))%dbl)
    (otherCosts st) (ofZ 0).

Definition ownerPolicyAuto (st : State) : Premium.t :=
  calcOwnersPolicyPremium (salePrice st) (ownerPolicyChoice st).

Definition ownerPolicyPremium (st : State) : double :=
  if autoOwnerPolicy st then Premium.chosen (ownerPolicyAuto st)
  else parseNumber (ownerPolicyPremiumInput st).

Definition sellerFeeCalc (st : State) : TitleFees :=
  calcIhtSellerTitleFees
    (mkTitleFeeSettings (transactionType st) (countyType st)
       (useSimplifile st) (ownerPolicyPremium st) (includeSettlementFee st)
       (includeCPL st) (includeTIEFF st) (includeDeedRecording st)
       (includeTransferFeeSDF st)).

Definition sellerTitleFees (st : State) : list TitleFeeItem :=
  items (sellerFeeCalc st).
Definition sellerTitleFeesTotal (st : State) : double :=
  total (sellerFeeCalc st).

Definition taxSettings (st : State) : TaxSettings :=
  mkTaxSettings (priorYearTax st) (springPaid st)
    (or_else (springPaidAmount st) (Math_max (priorYearTax st / ofZ 2) (ofZ 0)))
    (fallPaid st)
    (or_else (fallPaidAmount st) (Math_max (priorYearTax st / ofZ 2) (ofZ 0)))
    (prorateThrough st) (force365 st).

Definition tax (st : State) : TaxBreakdown :=
  calcIndianaTaxProration (closingUTC st) (taxSettings st).

Definition taxDebitRounded (st : State) : double :=
  round2 (totalDebit (tax st)).

Definition estimatedNet (st : State) : double :=
  let net :=
    (salePrice st - commissionAmount st - mortgagePayoff st
     - sellerConcessions st - otherCostsTotal st - sellerTitleFeesTotal st
     - taxDebitRounded st)%dbl in
  round2 net.

End App.

End DblBase.

(** *** The county-schedule variant in double arithmetic *)

Module DblCounty.
Import JS.
Import Dbl.
Import Dbl.Syntax.

Definition round2 (n : double) : double :=
  (Math_round ((n + Number_EPSILON) * ofZ 100) / ofZ 100)%dbl.

Definition parseNumber (value : jsstring) : double :=
  let cleaned :=
    filter (fun c => negb ((c =? 36) || (c =? 44) || isWhiteSpace c)%N)
      value in
  let n := StringToNumber cleaned in
  if Number_isFinite n then n else ofZ 0.

Definition OWNER_POLICY_TABLE : list Row.t :=
  map rowOfLine OWNER_POLICY_RANGE_CSV.

Definition calcOwnersPolicyPremium
    (liabilityAmount : double) (choice : OwnerPremiumChoice) : Premium.t :=
  let amt := Math_max (or_else liabilityAmount (ofZ 0)) (ofZ 0) in
  if (ofZ 1000000 <? amt)%dbl then
    let over := (amt - ofZ 1000000)%dbl in
    let tenThousands := Math_ceil (over / ofZ 10000) in
    let premium := (ofZ 2728 + ofZ 22 * tenThousands)%dbl in
    Premium.mk premium premium premium above_1m
  else
    let row :=
      match
        find (fun r => (Row.lo r <=? amt)%dbl && (amt <=? Row.hi r)%dbl)
          OWNER_POLICY_TABLE
      with
      | Some r => r
      | None => nth 0 OWNER_POLICY_TABLE (Row.mk zero zero zero zero)
      end in
    let mid := round2 ((Row.min row + Row.max row) / ofZ 2) in
    let chosen :=
      match choice with
      | Low => Row.min row
      | High => Row.max row
      | Mid => mid
      end in
    Premium.mk (Row.min row) (Row.max row) (round2 chosen) table.

Record FeeSchedule : Type := mkFeeSchedule {
  settlementWithLoanSeller : double;
  settlementCashSeller : double;
  titleProcessingSeller : double;
  closingProcessingSeller : double;
  cplSeller : double;
  tieffSeller : double;
  deedRecordingMarion : double;
  deedRecordingOther : double;
  simplifilePerDoc : double;
  transferPlusSDF : double
}.

Definition STANDARD_SCHEDULE : FeeSchedule :=
  {| settlementWithLoanSeller := ofZ 390;
     settlementCashSeller := ofZ 290;
     titleProcessingSeller := ofZ 175;
     closingProcessingSeller := ofZ 150;
     cplSeller := ofZ 25;
     tieffSeller := ofZ 5;
     deedRecordingMarion := ofZ 35;
     deedRecordingOther := ofZ 25;
     simplifilePerDoc := ofQ 4.25;
     transferPlusSDF := ofZ 30 |}.

Definition VALPO_SCHEDULE : FeeSchedule :=
  {| settlementWithLoanSeller := ofZ 390;
     settlementCashSeller := ofZ 290;
     titleProcessingSeller := ofZ 225;
     closingProcessingSeller := ofZ 175;
     cplSeller := ofZ 25;
     tieffSeller := ofZ 5;
     deedRecordingMarion := ofZ 35;
     deedRecordingOther := ofZ 25;
     simplifilePerDoc := ofQ 4.25;
     transferPlusSDF := ofZ 30 |}.

Definition getFeeScheduleForCounty (county : jsstring) : FeeSchedule :=
  let key := toLowerCase (trim county) in
  if existsb (jsstring_eqb key) County.VALPO_COUNTIES then VALPO_SCHEDULE
  else STANDARD_SCHEDULE.

Record TitleFeeSettings : Type := mkTitleFeeSettings {
  transactionType : TransactionType;
  county : jsstring;
  useSimplifile : bool;
  ownerPolicyPremium : double;
  includeSettlementFee : bool;
  includeCPL : bool;
  includeTIEFF : bool;
  includeDeedRecording : bool;
  includeTransferFeeSDF : bool
}.

Definition calcIhtSellerTitleFees (s : TitleFeeSettings) : TitleFees :=
  let schedule := getFeeScheduleForCounty (county s) in
  let items :=
    ((if (ofZ 0 <? ownerPolicyPremium s)%dbl
      then [mkItem "Owner’s title policy (estimate)" (ownerPolicyPremium s)]
      else [])
     ++ (if includeSettlementFee s then
           let fullSettlement :=
             match transactionType s with
             | with_loan => settlementWithLoanSeller schedule
             | cash => settlementCashSeller schedule
             end in
           let settlement := round2 (fullSettlement / ofZ 2) in
           [mkItem "Settlement / closing fee (seller)" settlement]
         else [])
     ++ [mkItem "Title processing fee (seller)"
           (titleProcessingSeller schedule)]
     ++ [mkItem "Closing processing fee (seller)"
           (closingProcessingSeller schedule)]
     ++ (if includeCPL s then [mkItem "CPL (seller)" (cplSeller schedule)]
         else [])
     ++ (if includeTIEFF s
         then [mkItem "TIEFF (seller)" (tieffSeller schedule)] else [])
     ++ (if includeDeedRecording s then
           let isMarion :=
             jsstring_eqb (toLowerCase (trim (county s))) (str "marion") in
           let deedRecording :=
             if isMarion then deedRecordingMarion schedule
             else deedRecordingOther schedule in
           [mkItem "Recording fee: deed" deedRecording]
           ++ (if useSimplifile s
               then [mkItem "Simplifile submission (deed)"
                       (simplifilePerDoc schedule)]
               else [])
         else [])
     ++ (if includeTransferFeeSDF s
         then [mkItem "County transfer fee + SDF" (transferPlusSDF schedule)]
         else []))%list in
  let total :=
    round2
      (fold_left (fun sum x => (sum + or_else (amount x) (ofZ 0))%dbl) items
         (ofZ 0)) in
  mkTitleFees
    (map (fun x => mkItem (label x) (round2 (amount x))) items) total.

Definition calcIndianaTaxProration
    (closingUTC : Date) (tax : TaxSettings) : TaxBreakdown :=
  let year := getUTCFullYear closingUTC in
  let jan1 := mkDate (Date_UTC year 0 1) in
  let prorationEnd :=
    match prorateThrough tax with
    | day_before => County.addDaysUTC closingUTC (-1)
    | closing_date => closingUTC
    end in
  let daysInYear :=
    if force365 tax then 365
    else if County.isLeapYear year then 366 else 365 in
  let TY := Math_max (or_else (priorYearTax tax) (ofZ 0)) (ofZ 0) in
  let dailyRate := (TY / ofZ daysInYear)%dbl in
  let daysAccrued :=
    if getTime prorationEnd <? getTime jan1 then 0
    else County.daysBetweenInclusiveUTC jan1 prorationEnd in
  let accruedThisYear := (dailyRate * ofZ daysAccrued)%dbl in
  let paidTotal :=
    ((if springPaid tax
      then Math_max (or_else (springPaidAmount tax) (ofZ 0)) (ofZ 0)
      else ofZ 0)
     + (if fallPaid tax
        then Math_max (or_else (fallPaidAmount tax) (ofZ 0)) (ofZ 0)
        else ofZ 0))%dbl in
  let unpaidPriorYear := Math_max (TY - paidTotal) (ofZ 0) in
  let totalDebit := (unpaidPriorYear + accruedThisYear)%dbl in
  mkTaxBreakdown (County.ymd prorationEnd) daysInYear dailyRate daysAccrued
    accruedThisYear paidTotal unpaidPriorYear totalDebit.

(** The values the component derives from the form state of
    [County.App.State]. *)
Module App.
Import County.App.

Definition salePrice (st : State) : double := parseNumber (salePriceInput st).
Definition mortgagePayoff (st : State) : double :=
  parseNumber (mortgagePayoffInput st).
Definition sellerConcessions (st : State) : double :=
  parseNumber (sellerConcessionsInput st).
Definition priorYearTax (st : State) : double :=
  parseNumber (priorYearTaxInput st).
Definition springPaidAmount (st : State) : double :=
  parseNumber (springPaidInput st).
Definition fallPaidAmount (st : State) : double :=
  parseNumber (fallPaidInput st).

Definition listingCommission (st : State) : double :=
  match listingCommissionType st with
  | pct => (salePrice st * (parseNumber (listingCommissionPct st) / ofZ 100))%dbl
  | flat => parseNumber (listingCommissionFlat st)
  end.

Definition buyersCommission (st : State) : double :=
  match buyersCommissionType st with
  | pct => (salePrice st * (parseNumber (buyersCommissionPct st) / ofZ 100))%dbl
  | flat => parseNumber (buyersCommissionFlat st)
  end.

Definition totalCommission (st : State) : double :=
  round2 (listingCommission st + buyersCommission st).

Definition otherCostsTotal (st : State) : double :=
  fold_left (fun sum c => (sum + parseNumber (amountInput c))%dbl)
    (otherCosts st) (ofZ 0).

Definition ownerPolicyAuto (st : State) : Premium.t :=
  calcOwnersPolicyPremium (salePrice st) (ownerPolicyChoice st).

Definition ownerPolicyPremium (st : State) : double :=
  if autoOwnerPolicy st then Premium.chosen (ownerPolicyAuto st)
  else parseNumber (ownerPolicyPremiumInput st).

Definition sellerFeeCalc (st : State) : TitleFees :=
  calcIhtSellerTitleFees
    (mkTitleFeeSettings (transactionType st) (County.App.county st)
       (useSimplifile st) (ownerPolicyPremium st) (includeSettlementFee st)
       (includeCPL st) (includeTIEFF st) (includeDeedRecording st)
       (includeTransferFeeSDF st)).

Definition sellerTitleFees (st : State) : list TitleFeeItem :=
  items (sellerFeeCalc st).
Definition sellerTitleFeesTotal (st : State) : double :=
  total (sellerFeeCalc st).

Definition taxSettings (st : State) : TaxSettings :=
  mkTaxSettings (priorYearTax st) (springPaid st)
    (or_else (springPaidAmount st) (Math_max (priorYearTax st / ofZ 2) (ofZ 0)))
    (fallPaid st)
    (or_else (fallPaidAmount st) (Math_max (priorYearTax st / ofZ 2) (ofZ 0)))
    (prorateThrough st) (force365 st).

Definition tax (st : State) : TaxBreakdown :=
  calcIndianaTaxProration (closingUTC st) (taxSettings st).

Definition taxDebitRounded (st : State) : double :=
  round2 (totalDebit (tax st)).

Definition estimatedNet (st : State) : double :=
  let net :=
    (salePrice st - listingCommission st - buyersCommission st
     - mortgagePayoff st
     - sellerConcessions st - otherCostsTotal st - sellerTitleFeesTotal st
     - taxDebitRounded st)%dbl in
  round2 net.

End App.

End DblCounty.

(** The notation for the operations on doubles, for what follows. *)
Import Dbl.Syntax.

(** ** Vocabulary of the properties *)

(** The amount [a] lies within the range of row [r]. *)
Definition inRow (a : Q) (r : Row.t) : Prop :=
  (Row.lo r <= a /\ a <= Row.hi r)%Q.

(** The test [calcOwnersPolicyPremium] hands to [find]. *)
Definition rowMatches (a : Q) (r : Row.t) : bool :=
  Qle_bool (Row.lo r) a && Qle_bool a (Row.hi r).

(** Lines that start at [start], each with [lo <= hi] and [min <= max],
    each next line starting one above the previous upper bound. *)
Fixpoint chained (start : Z) (lines : list (Z * Z * Z * Z)) : bool :=
  match lines with
  | [] => true
  | (lo, hi, mn, mx) :: rest =>
      (lo =? start) && (lo <=? hi) && (mn <=? mx) && chained (hi + 1) rest
  end.

(** Upper bound of the last line, [start - 1] when there is none. *)
Fixpoint chainEnd (start : Z) (lines : list (Z * Z * Z * Z)) : Z :=
  match lines with
  | [] => start - 1
  | (_, hi, _, _) :: rest => chainEnd (hi + 1) rest
  end.

(** The constants of the overflow formula. *)
Definition ceiling : Q := 1000000.
Definition unitSize : Q := 10000.
Definition increment : Q := 22.
Definition baseCeilingPremium : Q := 2728.

(** The overflow formula of the fee sheet: the base premium plus one
    increment for each started unit above the ceiling. *)
Definition overflowPremium (a : Q) : Q :=
  (baseCeilingPremium
   + increment * inject_Z (Qceiling ((a - ceiling) / unitSize)))%Q.

(** A leap year: divisible by 400, or divisible by 4 and not by 100. *)
Definition leapYear (y : Z) : bool :=
  (y mod 400 =? 0) || ((y mod 4 =? 0) && negb (y mod 100 =? 0)).

(** The proration cutoff: the day before closing, or the closing date. *)
Definition cutoffOf (closing : JS.Date) (p : ProrateThrough) : JS.Date :=
  match p with
  | day_before => JS.mkDate (JS.getTime closing - JS.msPerDay)
  | closing_date => closing
  end.

(** January 1 of the calendar year of [closing], as the engine takes it:
    [Date.UTC(year, 0, 1)]. *)
Definition yearStart (closing : JS.Date) : JS.Date :=
  JS.mkDate (JS.Date_UTC (JS.getUTCFullYear closing) 0 1).

(** The breakdown [b] is the one the proration formula gives for
    [closing] and [tax]; [fmt] prints the cutoff date. *)
Definition ProrationFormula (fmt : JS.Date -> string)
    (closing : JS.Date) (tax : TaxSettings) (b : TaxBreakdown) : Prop :=
  let year := JS.getUTCFullYear closing in
  let cutoff := cutoffOf closing (prorateThrough tax) in
  prorationEndYMD b = fmt cutoff
  /\ daysInYear b =
       (if force365 tax then 365 else if leapYear year then 366 else 365)
  /\ (dailyRate b == Qmax (priorYearTax tax) 0 / inject_Z (daysInYear b))%Q
  /\ daysAccrued b =
       (if JS.getTime cutoff <? JS.getTime (yearStart closing) then 0
        else JS.Day (JS.getTime cutoff)
             - JS.Day (JS.getTime (yearStart closing)) + 1)
  /\ (accruedThisYear b == dailyRate b * inject_Z (daysAccrued b))%Q
  /\ (paidTotal b ==
        (if springPaid tax then springPaidAmount tax else 0)
        + (if fallPaid tax then fallPaidAmount tax else 0))%Q
  /\ (unpaidPriorYear b == Qmax (priorYearTax tax - paidTotal b) 0)%Q
  /\ (totalDebit b == unpaidPriorYear b + accruedThisYear b)%Q.

(** The settings with one paid flag replaced, all else kept. *)
Definition withSpringPaid (flag : bool) (tax : TaxSettings) : TaxSettings :=
  mkTaxSettings (priorYearTax tax) flag (springPaidAmount tax)
    (fallPaid tax) (fallPaidAmount tax) (prorateThrough tax) (force365 tax).

Definition withFallPaid (flag : bool) (tax : TaxSettings) : TaxSettings :=
  mkTaxSettings (priorYearTax tax) (springPaid tax) (springPaidAmount tax)
    flag (fallPaidAmount tax) (prorateThrough tax) (force365 tax).

(** The label of the settlement line, and the first item with a label. *)
Definition settlementLabel : string := "Settlement / closing fee (seller)".

Definition lineOf (lbl : string) (l : list TitleFeeItem) : option TitleFeeItem :=
  find (fun x => String.eqb (label x) lbl) l.

(** The text [parseNumber] hands to [Number]: the input without dollar
    signs, commas and white space. *)
Definition cleanedText (value : JS.jsstring) : JS.jsstring :=
  filter (fun c => negb ((c =? 36) || (c =? 44) || JS.isWhiteSpace c)%N) value.

(** The code unit of the minus sign. *)
Definition minusSign : N := 45%N.


Definition County_netBeforeRounding (st : County.App.State) : Q :=
  (County.App.salePrice st - County.App.listingCommission st
   - County.App.buyersCommission st
   - County.App.mortgagePayoff st - County.App.sellerConcessions st
   - County.App.otherCostsTotal st - County.App.sellerTitleFeesTotal st
   - County.round2 (totalDebit (County.App.tax st)))%Q.


(** The form as the base variant first shows it, for a closing date and
    a text in the mortgage payoff field. *)
Definition Base_initialState (closing : JS.Date) (payoff : JS.jsstring) :
    Base.App.State :=
  {| Base.App.salePriceInput := JS.str "330,000";
     Base.App.closingUTC := closing;
     Base.App.commissionType := pct;
     Base.App.commissionPct := JS.str "6";
     Base.App.commissionFlatInput := JS.str "0";
     Base.App.mortgagePayoffInput := payoff;
     Base.App.sellerConcessionsInput := JS.str "0";
     Base.App.otherCosts := [mkOtherCost "c1" "Home warranty" (JS.str "0")];
     Base.App.transactionType := with_loan;
     Base.App.countyType := Base.marion;
     Base.App.useSimplifile := true;
     Base.App.autoOwnerPolicy := true;
     Base.App.ownerPolicyChoice := Mid;
     Base.App.ownerPolicyPremiumInput := JS.str "0";
     Base.App.includeSettlementFee := true;
     Base.App.includeCPL := true;
     Base.App.includeTIEFF := true;
     Base.App.includeDeedRecording := true;
     Base.App.includeTransferFeeSDF := true;
     Base.App.priorYearTaxInput := JS.str "3,200";
     Base.App.springPaid := false;
     Base.App.fallPaid := false;
     Base.App.springPaidInput := JS.str "1,600";
     Base.App.fallPaidInput := JS.str "1,600";
     Base.App.prorateThrough := day_before;
     Base.App.force365 := false |}.




(** Of two lines the one that starts lower ends before the other starts
    and has the lower band; no band edge is below 209 or above 2728. *)
Definition linesOrdered (lines : list (Z * Z * Z * Z)) : bool :=
  forallb
    (fun l1 =>
       let '(lo1, hi1, mn1, mx1) := l1 in
       (209 <=? mn1) && (mx1 <=? 2728)
       && forallb
            (fun l2 =>
               let '(lo2, hi2, mn2, mx2) := l2 in
               implb (lo1 <? lo2)
                 ((hi1 <? lo2) && (mn1 <=? mn2) && (mx1 <=? mx2)))
            lines)
    lines.

(** The sum of the amounts of a list of fee lines, and the amounts that
    are a whole number of cents. *)
Definition sumAmounts (l : list TitleFeeItem) : Q :=
  fold_right (fun x sum => (amount x + sum)%Q) 0%Q l.

Definition wholeCents (q : Q) : bool :=
  Qeq_bool q (inject_Z (Qfloor (q * 100)) / 100).

(** The state with the text of the mortgage payoff field replaced, and
    with the rows of other costs replaced, all else kept. *)
Definition Base_withPayoff (v : JS.jsstring) (st : Base.App.State) :
    Base.App.State :=
  Base.App.mkState
    (Base.App.salePriceInput st) (Base.App.closingUTC st)
    (Base.App.commissionType st) (Base.App.commissionPct st)
    (Base.App.commissionFlatInput st) v
    (Base.App.sellerConcessionsInput st) (Base.App.otherCosts st)
    (Base.App.transactionType st) (Base.App.countyType st)
    (Base.App.useSimplifile st) (Base.App.autoOwnerPolicy st)
    (Base.App.ownerPolicyChoice st) (Base.App.ownerPolicyPremiumInput st)
    (Base.App.includeSettlementFee st) (Base.App.includeCPL st)
    (Base.App.includeTIEFF st) (Base.App.includeDeedRecording st)
    (Base.App.includeTransferFeeSDF st) (Base.App.priorYearTaxInput st)
    (Base.App.springPaid st) (Base.App.fallPaid st)
    (Base.App.springPaidInput st) (Base.App.fallPaidInput st)
    (Base.App.prorateThrough st) (Base.App.force365 st).

Definition Base_withOtherCosts (l : list OtherCost) (st : Base.App.State) :
    Base.App.State :=
  Base.App.mkState
    (Base.App.salePriceInput st) (Base.App.closingUTC st)
    (Base.App.commissionType st) (Base.App.commissionPct st)
    (Base.App.commissionFlatInput st) (Base.App.mortgagePayoffInput st)
    (Base.App.sellerConcessionsInput st) l
    (Base.App.transactionType st) (Base.App.countyType st)
    (Base.App.useSimplifile st) (Base.App.autoOwnerPolicy st)
    (Base.App.ownerPolicyChoice st) (Base.App.ownerPolicyPremiumInput st)
    (Base.App.includeSettlementFee st) (Base.App.includeCPL st)
    (Base.App.includeTIEFF st) (Base.App.includeDeedRecording st)
    (Base.App.includeTransferFeeSDF st) (Base.App.priorYearTaxInput st)
    (Base.App.springPaid st) (Base.App.fallPaid st)
    (Base.App.springPaidInput st) (Base.App.fallPaidInput st)
    (Base.App.prorateThrough st) (Base.App.force365 st).

(** What the user can do to the rows of other costs, and the rows the
    form starts with. *)
Inductive OtherCostEvent : Type :=
| AddCost (rnd : string)
| RemoveCost (id0 : string)
| EditLabel (id0 value : string)
| EditAmount (id0 : string) (typed : JS.jsstring).

Definition Base_otherCostStep (prev : list OtherCost) (ev : OtherCostEvent) :
    list OtherCost :=
  match ev with
  | AddCost rnd => Base.App.addOtherCost rnd prev
  | RemoveCost id0 => Base.App.removeOtherCost id0 prev
  | EditLabel id0 value => Base.App.setOtherCostLabel id0 value prev
  | EditAmount id0 typed => Base.App.setOtherCostAmount id0 typed prev
  end.

Definition Base_initialOtherCosts : list OtherCost :=
  [mkOtherCost "c1" "Home warranty" (JS.str "0")].





(** The form as the base variant first shows it, with a sale price of
    150,005, a commission of 6.5 percent, no prior-year tax and a text in
    the mortgage payoff field. *)
Definition Base_commissionState (payoff : JS.jsstring) : Base.App.State :=
  {| Base.App.salePriceInput := JS.str "150,005";
     Base.App.closingUTC := JS.mkDate (JS.Date_UTC 2026 5 15);
     Base.App.commissionType := pct;
     Base.App.commissionPct := JS.str "6.5";
     Base.App.commissionFlatInput := JS.str "0";
     Base.App.mortgagePayoffInput := payoff;
     Base.App.sellerConcessionsInput := JS.str "0";
     Base.App.otherCosts := [mkOtherCost "c1" "Home warranty" (JS.str "0")];
     Base.App.transactionType := with_loan;
     Base.App.countyType := Base.marion;
     Base.App.useSimplifile := true;
     Base.App.autoOwnerPolicy := true;
     Base.App.ownerPolicyChoice := Mid;
     Base.App.ownerPolicyPremiumInput := JS.str "0";
     Base.App.includeSettlementFee := true;
     Base.App.includeCPL := true;
     Base.App.includeTIEFF := true;
     Base.App.includeDeedRecording := true;
     Base.App.includeTransferFeeSDF := true;
     Base.App.priorYearTaxInput := JS.str "0";
     Base.App.springPaid := false;
     Base.App.fallPaid := false;
     Base.App.springPaidInput := JS.str "1,600";
     Base.App.fallPaidInput := JS.str "1,600";
     Base.App.prorateThrough := day_before;
     Base.App.force365 := false |}.

(** The title fee settings with every line included, a loan and
    Simplifile, for a premium typed into the premium field. *)
Definition DblBase_allLines (premium : JS.jsstring) :
    DblBase.TitleFeeSettings :=
  DblBase.mkTitleFeeSettings with_loan Base.marion true
    (DblBase.parseNumber premium) true true true true true.

Definition DblCounty_allLines (county premium : JS.jsstring) :
    DblCounty.TitleFeeSettings :=
  DblCounty.mkTitleFeeSettings with_loan county true
    (DblCounty.parseNumber premium) true true true true true.

(** * Properties *)

(** Linear arithmetic with division and remainder by constants. *)
Ltac div_lia := Z.div_mod_to_equations; lia.

(** ** Rounding to cents *)

Lemma Qfloor_unique (x : Q) (k : Z) :
  (inject_Z k <= x)%Q -> (x < inject_Z (k + 1))%Q -> Qfloor x = k.
Proof.
  intros Hlo Hhi.
  pose proof (Qfloor_le x) as Hf.
  pose proof (Qlt_floor x) as Hg.
  assert (Qfloor x < k + 1).
  { rewrite Zlt_Qlt. eapply Qle_lt_trans; eassumption. }
  assert (k < Qfloor x + 1).
  { rewrite Zlt_Qlt. eapply Qle_lt_trans; eassumption. }
  lia.
Qed.

Lemma Qceiling_unique (x : Q) (k : Z) :
  (inject_Z (k - 1) < x)%Q -> (x <= inject_Z k)%Q -> Qceiling x = k.
Proof.
  intros Hlo Hhi.
  pose proof (Qle_ceiling x) as Hf.
  pose proof (Qceiling_lt x) as Hg.
  assert (k - 1 < Qceiling x).
  { rewrite Zlt_Qlt. eapply Qlt_le_trans; eassumption. }
  assert (Qceiling x - 1 < k).
  { rewrite Zlt_Qlt. eapply Qlt_le_trans; eassumption. }
  lia.
Qed.

Lemma EPSILON_small :
  (0 < JS.Number_EPSILON /\ 100 * JS.Number_EPSILON < 1 # 2)%Q.
Proof. split; reflexivity. Qed.

(** [round2] respects equality of rationals. *)
Lemma round2_comp (x y : Q) :
  (x == y)%Q -> (Base.round2 x == Base.round2 y)%Q.
Proof.
  intros H. unfold Base.round2, JS.Math_round.
  rewrite (Qfloor_comp ((x + JS.Number_EPSILON) * 100 + (1 # 2))
             ((y + JS.Number_EPSILON) * 100 + (1 # 2))).
  - reflexivity.
  - rewrite H. reflexivity.
Qed.

(** An amount of whole cents is left as it is. *)
Lemma round2_cents (k : Z) :
  (Base.round2 (inject_Z k / 100) == inject_Z k / 100)%Q.
Proof.
  unfold Base.round2, JS.Math_round.
  destruct EPSILON_small as [He0 He1].
  rewrite (Qfloor_unique _ k).
  - reflexivity.
  - field_simplify. lra.
  - rewrite inject_Z_plus. field_simplify. lra.
Qed.

Lemma round2_int (k : Z) : (Base.round2 (inject_Z k) == inject_Z k)%Q.
Proof.
  rewrite (round2_comp (inject_Z k) (inject_Z (100 * k) / 100)).
  - rewrite round2_cents. rewrite inject_Z_mult. field.
  - rewrite inject_Z_mult. field.
Qed.

(** The result of [round2] is a whole number of cents. *)
Lemma round2_is_cents (x : Q) :
  exists k : Z, Base.round2 x = (inject_Z k / 100)%Q.
Proof. eexists. reflexivity. Qed.

Lemma round2_idempotent (x : Q) :
  (Base.round2 (Base.round2 x) == Base.round2 x)%Q.
Proof.
  destruct (round2_is_cents x) as [k ->]. apply round2_cents.
Qed.

Lemma County_round2 : County.round2 = Base.round2.
Proof. reflexivity. Qed.

(** ** The premium tier table *)

Lemma Qle_bool_comp (a b c d : Q) :
  (a == c)%Q -> (b == d)%Q -> Qle_bool a b = Qle_bool c d.
Proof.
  intros H1 H2. apply eq_true_iff_eq.
  rewrite !Qle_bool_iff, H1, H2. reflexivity.
Qed.

Lemma rowMatches_comp (a b : Q) (r : Row.t) :
  (a == b)%Q -> rowMatches a r = rowMatches b r.
Proof.
  intros H. unfold rowMatches.
  rewrite (Qle_bool_comp (Row.lo r) a (Row.lo r) b),
          (Qle_bool_comp a (Row.hi r) b (Row.hi r));
    (reflexivity || assumption).
Qed.

Lemma rowMatches_inRow (a : Q) (r : Row.t) :
  rowMatches a r = true <-> inRow a r.
Proof.
  unfold rowMatches, inRow.
  rewrite andb_true_iff, !Qle_bool_iff. reflexivity.
Qed.

Lemma find_comp (a b : Q) (l : list Row.t) :
  (a == b)%Q -> find (rowMatches a) l = find (rowMatches b) l.
Proof.
  intros H. induction l as [|r l IH]; simpl.
  - reflexivity.
  - rewrite (rowMatches_comp a b r H), IH. reflexivity.
Qed.

(** Every line of a chain starts at or above the start of the chain. *)
Lemma chained_lo_ge (lines : list (Z * Z * Z * Z)) :
  forall start lo hi mn mx,
    chained start lines = true ->
    In (lo, hi, mn, mx) lines -> start <= lo /\ lo <= hi /\ mn <= mx.
Proof.
  induction lines as [|[[[lo0 hi0] mn0] mx0] rest IH];
    intros start lo hi mn mx Hc Hin.
  - destruct Hin.
  - simpl in Hc. rewrite !andb_true_iff in Hc.
    destruct Hc as [[[H1 H2] H3] H4].
    apply Z.eqb_eq in H1. apply Z.leb_le in H2, H3.
    destruct Hin as [Heq | Hin].
    + inversion Heq; subst. lia.
    + specialize (IH _ _ _ _ _ H4 Hin). lia.
Qed.

(** In a chain, [find] returns the one line whose range holds the amount. *)
Lemma find_chained (lines : list (Z * Z * Z * Z)) :
  forall start a line,
    chained start lines = true ->
    In line lines -> inRow a (rowOfLine line) ->
    find (rowMatches a) (map rowOfLine lines) = Some (rowOfLine line).
Proof.
  induction lines as [|[[[lo0 hi0] mn0] mx0] rest IH];
    intros start a line Hc Hin Hrow.
  - destruct Hin.
  - cbn [map find].
    simpl in Hc. rewrite !andb_true_iff in Hc.
    destruct Hc as [[[H1 H2] H3] H4].
    destruct Hin as [Heq | Hin].
    + subst line. apply rowMatches_inRow in Hrow.
      rewrite Hrow. reflexivity.
    + destruct (rowMatches a (rowOfLine (lo0, hi0, mn0, mx0))) eqn:Hm.
      * exfalso. apply rowMatches_inRow in Hm.
        destruct line as [[[lo hi] mn] mx].
        destruct (chained_lo_ge rest _ _ _ _ _ H4 Hin) as [Hge _].
        unfold inRow in Hm, Hrow. simpl in Hm, Hrow.
        assert (inject_Z lo <= inject_Z hi0)%Q as Hle
            by (eapply Qle_trans; [apply Hrow | apply Hm]).
        rewrite <- Zle_Qle in Hle. lia.
      * eapply IH; eassumption.
Qed.

(** A chain covers every whole amount between its start and its end. *)
Lemma chained_covers (lines : list (Z * Z * Z * Z)) :
  forall start n,
    chained start lines = true ->
    start <= n <= chainEnd start lines ->
    exists line, In line lines /\ inRow (inject_Z n) (rowOfLine line).
Proof.
  induction lines as [|[[[lo0 hi0] mn0] mx0] rest IH]; intros start n Hc Hn.
  - simpl in Hn. lia.
  - simpl in Hc, Hn. rewrite !andb_true_iff in Hc.
    destruct Hc as [[[H1 H2] H3] H4].
    apply Z.eqb_eq in H1. apply Z.leb_le in H2.
    destruct (Z_le_gt_dec n hi0) as [Hle | Hgt].
    + exists (lo0, hi0, mn0, mx0). split; [left; reflexivity|].
      unfold inRow. simpl. rewrite <- !Zle_Qle. lia.
    + destruct (IH (hi0 + 1) n H4) as (line & Hin & Hrow); [lia|].
      exists line. split; [right; assumption | assumption].
Qed.

Lemma table_chained :
  chained 0 OWNER_POLICY_RANGE_CSV = true
  /\ chainEnd 0 OWNER_POLICY_RANGE_CSV = 1000000.
Proof. split; vm_compute; reflexivity. Qed.

Lemma amt_nonneg (a : Q) :
  (0 <= a)%Q -> (JS.Math_max (JS.or_zero a) 0 == a)%Q.
Proof.
  intros Ha. unfold JS.Math_max, JS.or_zero, JS.or_else.
  destruct (Qeq_bool a 0) eqn:E.
  - apply Qeq_bool_eq in E. rewrite E. reflexivity.
  - apply Q.max_l. assumption.
Qed.

Lemma Qlt_bool_iff (a b : Q) : JS.Qlt_bool a b = true <-> (a < b)%Q.
Proof.
  unfold JS.Qlt_bool. rewrite negb_true_iff.
  split; intros H.
  - apply Qnot_le_lt. intros Hle. apply Qle_bool_iff in Hle. congruence.
  - destruct (Qle_bool b a) eqn:E; [|reflexivity].
    apply Qle_bool_iff in E. exfalso. apply (Qlt_not_le _ _ H E).
Qed.

Lemma Qlt_bool_false_iff (a b : Q) : JS.Qlt_bool a b = false <-> (b <= a)%Q.
Proof.
  unfold JS.Qlt_bool. rewrite negb_false_iff. apply Qle_bool_iff.
Qed.

(** In table mode the row the lookup works with is the row that holds
    the amount. *)
Lemma lookup_table_row
    (a : Q) (line : Z * Z * Z * Z) (c : OwnerPremiumChoice) :
  (0 <= a <= 1000000)%Q ->
  In line OWNER_POLICY_RANGE_CSV ->
  inRow a (rowOfLine line) ->
  Base.calcOwnersPolicyPremium a c =
    let row := rowOfLine line in
    Premium.mk (Row.min row) (Row.max row)
      (Base.round2
         match c with
         | Low => Row.min row
         | High => Row.max row
         | Mid => Base.round2 ((Row.min row + Row.max row) / 2)
         end)
      table.
Proof.
  intros [Ha0 Ha1] Hin Hrow.
  unfold Base.calcOwnersPolicyPremium.
  pose proof (amt_nonneg a Ha0) as Hamt.
  set (amt := JS.Math_max (JS.or_zero a) 0) in *.
  assert (JS.Qlt_bool 1000000 amt = false) as ->.
  { apply Qlt_bool_false_iff. rewrite Hamt. assumption. }
  change (find _ Base.OWNER_POLICY_TABLE)
    with (find (rowMatches amt) (map rowOfLine OWNER_POLICY_RANGE_CSV)).
  rewrite (find_comp amt a _ Hamt).
  rewrite (find_chained _ 0 a line (proj1 table_chained) Hin Hrow).
  reflexivity.
Qed.

Lemma row_of_table (r : Row.t) :
  In r Base.OWNER_POLICY_TABLE ->
  exists lo hi mn mx,
    In (lo, hi, mn, mx) OWNER_POLICY_RANGE_CSV
    /\ r = rowOfLine (lo, hi, mn, mx) /\ lo <= hi /\ mn <= mx.
Proof.
  intros Hin. apply in_map_iff in Hin.
  destruct Hin as ([[[lo hi] mn] mx] & <- & Hin).
  exists lo, hi, mn, mx. repeat split; trivial;
    destruct (chained_lo_ge _ _ _ _ _ _ (proj1 table_chained) Hin); lia.
Qed.

(** C3.  For an amount between 0 and 1,000,000 that lies within a row of
    the table, the lookup returns the lower band edge for [Low], the upper
    band edge for [High] and the midpoint of the band, rounded to cents,
    for [Mid]; [min] and [max] are the band edges of the row as they
    stand.  At 50,000 the three choices give 209, 220 and 214.50. *)
Theorem premium_table_choice (a : Q) (r : Row.t) :
  (0 <= a <= 1000000)%Q ->
  In r Base.OWNER_POLICY_TABLE ->
  inRow a r ->
  (Premium.chosen (Base.calcOwnersPolicyPremium a Low) == Row.min r)%Q
  /\ (Premium.chosen (Base.calcOwnersPolicyPremium a High) == Row.max r)%Q
  /\ (Premium.chosen (Base.calcOwnersPolicyPremium a Mid)
       == Base.round2 ((Row.min r + Row.max r) / 2))%Q
  /\ (forall c,
        Premium.min (Base.calcOwnersPolicyPremium a c) = Row.min r
        /\ Premium.max (Base.calcOwnersPolicyPremium a c) = Row.max r
        /\ Premium.mode (Base.calcOwnersPolicyPremium a c) = table)
  /\ (Premium.chosen (Base.calcOwnersPolicyPremium 50000 Low) == 209)%Q
  /\ (Premium.chosen (Base.calcOwnersPolicyPremium 50000 High) == 220)%Q
  /\ (Premium.chosen (Base.calcOwnersPolicyPremium 50000 Mid) == 214.50)%Q.
Proof.
  intros Ha Hin Hrow.
  destruct (row_of_table r Hin) as (lo & hi & mn & mx & Hl & -> & _ & _).
  pose proof (fun c => lookup_table_row a _ c Ha Hl Hrow) as E.
  split; [rewrite E; cbn; apply round2_int|].
  split; [rewrite E; cbn; apply round2_int|].
  split; [rewrite E; cbn; apply round2_idempotent|].
  split; [intros c; rewrite E; cbn; repeat split|].
  repeat split; vm_compute; reflexivity.
Qed.

Lemma premium_table_choice_witness :
  let r := Row.mk 0 50000 209 220 in
  (Premium.chosen (Base.calcOwnersPolicyPremium 50000 Low) == Row.min r)%Q
  /\ (Premium.chosen (Base.calcOwnersPolicyPremium 50000 High) == Row.max r)%Q.
Proof.
  intros r.
  assert (0 <= 50000 <= 1000000)%Q as H1 by (split; discriminate).
  assert (In r Base.OWNER_POLICY_TABLE) as H2 by (left; reflexivity).
  assert (inRow 50000 r) as H3 by (split; discriminate).
  destruct (premium_table_choice 50000 r H1 H2 H3) as (A & B & _).
  split; assumption.
Defined.

(** Whole amounts: every row has [lo <= hi] and [min <= max], and each
    whole amount from 0 to 1,000,000 lies within exactly one row. *)
Lemma table_whole_amounts :
  (forall r, In r Base.OWNER_POLICY_TABLE ->
     (Row.lo r <= Row.hi r)%Q /\ (Row.min r <= Row.max r)%Q)
  /\ (forall n : Z, 0 <= n <= 1000000 ->
        exists r, In r Base.OWNER_POLICY_TABLE /\ inRow (inject_Z n) r
                  /\ forall r', In r' Base.OWNER_POLICY_TABLE ->
                                inRow (inject_Z n) r' -> r' = r).
Proof.
  destruct table_chained as [Hc He]. split.
  - intros r Hin.
    destruct (row_of_table r Hin) as (lo & hi & mn & mx & _ & -> & H1 & H2).
    simpl. rewrite <- !Zle_Qle. split; assumption.
  - intros n Hn.
    destruct (chained_covers _ 0 n Hc) as (line & Hin & Hrow);
      [rewrite He; lia|].
    exists (rowOfLine line). split; [apply in_map; assumption|].
    split; [assumption|].
    intros r' Hin' Hrow'.
    apply in_map_iff in Hin'. destruct Hin' as (line' & <- & Hin').
    pose proof (find_chained _ 0 _ line Hc Hin Hrow) as F.
    pose proof (find_chained _ 0 _ line' Hc Hin' Hrow') as F'.
    congruence.
Qed.

(** C7.  The rows bound whole amounts, each row starting one above the
    end of the row before it, so an amount with cents between two rows
    lies within no row: no row holds 60,000.50, and the lookup then works
    with the first row (band 209 to 220), although 60,000 and 60,001 have
    the bands 225 to 263 and 268 to 306. *)
Theorem table_gap_between_rows :
  (0 <= 60000.5 <= 1000000)%Q
  /\ Forall (fun r => ~ inRow 60000.5 r) Base.OWNER_POLICY_TABLE
  /\ (forall c,
        Premium.min (Base.calcOwnersPolicyPremium 60000.5 c) = 209%Q
        /\ Premium.max (Base.calcOwnersPolicyPremium 60000.5 c) = 220%Q)
  /\ (forall c,
        Premium.min (Base.calcOwnersPolicyPremium 60000 c) = 225%Q
        /\ Premium.max (Base.calcOwnersPolicyPremium 60000 c) = 263%Q)
  /\ (forall c,
        Premium.min (Base.calcOwnersPolicyPremium 60001 c) = 268%Q
        /\ Premium.max (Base.calcOwnersPolicyPremium 60001 c) = 306%Q).
Proof.
  split; [split; discriminate|].
  split.
  - apply Forall_forall. intros r Hin Hrow. apply rowMatches_inRow in Hrow.
    assert (forallb (fun r => negb (rowMatches 60000.5 r))
              Base.OWNER_POLICY_TABLE = true) as H
        by (vm_compute; reflexivity).
    rewrite forallb_forall in H. specialize (H r Hin).
    rewrite Hrow in H. discriminate H.
  - repeat split; destruct c; vm_compute; reflexivity.
Qed.

(** ** The overflow formula *)

Lemma overflow_monotone (a b : Q) :
  (a <= b)%Q -> (overflowPremium a <= overflowPremium b)%Q.
Proof.
  intros Hab. unfold overflowPremium, baseCeilingPremium, increment.
  assert (Qceiling ((a - ceiling) / unitSize)
          <= Qceiling ((b - ceiling) / unitSize)) as H.
  { apply Qceiling_resp_le. unfold Qdiv.
    apply Qmult_le_compat_r; [lra | discriminate]. }
  rewrite Zle_Qle in H. lra.
Qed.

Lemma overflow_step (a : Q) (k : Z) :
  (ceiling + unitSize * inject_Z (k - 1) < a)%Q ->
  (a <= ceiling + unitSize * inject_Z k)%Q ->
  (overflowPremium a == baseCeilingPremium + increment * inject_Z k)%Q.
Proof.
  intros Hlo Hhi. unfold overflowPremium.
  assert ((a - ceiling) / unitSize == (a - 1000000) * (1 # 10000))%Q as E
      by reflexivity.
  rewrite (Qceiling_unique _ k); [reflexivity| |]; rewrite E;
    unfold ceiling, unitSize in *; lra.
Qed.

(** Above the ceiling the clamped amount is the amount itself. *)
Lemma lookup_overflow (a : Q) (c : OwnerPremiumChoice) :
  (1000000 < a)%Q ->
  Base.calcOwnersPolicyPremium a c =
    Premium.mk (overflowPremium a) (overflowPremium a) (overflowPremium a)
      above_1m.
Proof.
  intros Ha. unfold Base.calcOwnersPolicyPremium.
  assert (JS.Math_max (JS.or_zero a) 0 = a) as ->.
  { unfold JS.Math_max, JS.or_zero, JS.or_else.
    destruct (Qeq_bool a 0) eqn:E.
    - apply Qeq_bool_eq in E. rewrite E in Ha. discriminate Ha.
    - unfold Qmax, GenericMinMax.gmax.
      destruct (a ?= 0)%Q eqn:C; try reflexivity.
      rewrite <- Qlt_alt in C. exfalso.
      apply (Qlt_irrefl a). eapply Qlt_trans; [exact C|].
      eapply Qlt_trans; [|exact Ha]. reflexivity. }
  apply Qlt_bool_iff in Ha. rewrite Ha. reflexivity.
Qed.

(** C4.  Above 1,000,000, whatever the choice, [min], [max] and [chosen]
    are all 2728 + 22 * ceil((a - 1,000,000) / 10,000): on the [k]-th
    started unit of 10,000 the premium is 2728 + 22 * k, one cent into a
    unit counting as the whole unit.  At 1,000,001 and at 1,010,000 that
    is 2750, at 1,010,001 it is 2772. *)
Theorem premium_overflow (a : Q) (c : OwnerPremiumChoice) :
  (1000000 < a)%Q ->
  let p := Base.calcOwnersPolicyPremium a c in
  let formula :=
    (2728 + 22 * inject_Z (JS.Math_ceil ((a - 1000000) / 10000)))%Q in
  (Premium.min p == formula)%Q /\ (Premium.max p == formula)%Q
  /\ (Premium.chosen p == formula)%Q /\ Premium.mode p = above_1m
  /\ (Premium.chosen (Base.calcOwnersPolicyPremium 1000001 Mid) == 2750)%Q
  /\ (Premium.chosen (Base.calcOwnersPolicyPremium 1010000 Mid) == 2750)%Q
  /\ (Premium.chosen (Base.calcOwnersPolicyPremium 1010001 Mid) == 2772)%Q
  /\ (Premium.chosen (Base.calcOwnersPolicyPremium 1000000.01 Mid)
       == 2750)%Q
  /\ (forall k : Z,
        (1000000 + 10000 * inject_Z (k - 1) < a)%Q ->
        (a <= 1000000 + 10000 * inject_Z k)%Q ->
        (Premium.chosen p == 2728 + 22 * inject_Z k)%Q).
Proof.
  intros Ha p formula. subst p formula. rewrite (lookup_overflow a c Ha).
  cbn [Premium.min Premium.max Premium.chosen Premium.mode].
  split; [reflexivity|]. split; [reflexivity|]. split; [reflexivity|].
  split; [reflexivity|].
  split; [vm_compute; reflexivity|]. split; [vm_compute; reflexivity|].
  split; [vm_compute; reflexivity|]. split; [vm_compute; reflexivity|].
  intros k Hlo Hhi. apply (overflow_step a k Hlo Hhi).
Qed.

Lemma premium_overflow_witness :
  (Premium.chosen (Base.calcOwnersPolicyPremium 1234567 High)
   == 2728 + 22 * 24)%Q.
Proof.
  assert (1000000 < 1234567)%Q as H by reflexivity.
  destruct (premium_overflow 1234567 High H) as (_ & _ & E & _).
  rewrite E. vm_compute. reflexivity.
Defined.

(** The sentence of C8 on the increments, read as a difference between
    the premiums at [ceiling + 1] and at [ceiling + unitSize], fails: the
    two premiums are the same. *)
Lemma overflow_increment_counterexample :
  ~ (Qabs (Premium.chosen (Base.calcOwnersPolicyPremium (ceiling + unitSize) Mid)
           - Premium.chosen (Base.calcOwnersPolicyPremium (ceiling + 1) Mid))
     == increment)%Q.
Proof. vm_compute. discriminate. Qed.

(** C8 (amended).  Above the ceiling the premium never decreases as the
    amount grows, and it is constant on each unit: base premium plus [k]
    increments on the [k]-th started unit.  The premiums at [ceiling + 1]
    and at [ceiling + unitSize] are equal, both one increment above the
    base premium of the ceiling; the premium at [ceiling + unitSize + 1]
    is two increments above that base, one increment above the other
    two. *)
Theorem overflow_step_function :
  (forall a b c c',
      (ceiling < a)%Q -> (a <= b)%Q ->
      (Premium.chosen (Base.calcOwnersPolicyPremium a c)
       <= Premium.chosen (Base.calcOwnersPolicyPremium b c'))%Q)
  /\ (forall a c k,
        (ceiling + unitSize * inject_Z (k - 1) < a)%Q ->
        (a <= ceiling + unitSize * inject_Z k)%Q -> 1 <= k ->
        (Premium.chosen (Base.calcOwnersPolicyPremium a c)
         == baseCeilingPremium + increment * inject_Z k)%Q)
  /\ (forall c,
        Premium.max (Base.calcOwnersPolicyPremium ceiling c)
        = baseCeilingPremium)
  /\ (Premium.chosen (Base.calcOwnersPolicyPremium (ceiling + 1) Mid)
      == baseCeilingPremium + increment)%Q
  /\ (Premium.chosen (Base.calcOwnersPolicyPremium (ceiling + unitSize) Mid)
      == baseCeilingPremium + increment)%Q
  /\ (Premium.chosen
        (Base.calcOwnersPolicyPremium (ceiling + unitSize + 1) Mid)
      == baseCeilingPremium + 2 * increment)%Q
  /\ (Premium.chosen
        (Base.calcOwnersPolicyPremium (ceiling + unitSize + 1) Mid)
      - Premium.chosen (Base.calcOwnersPolicyPremium (ceiling + 1) Mid)
      == increment)%Q.
Proof.
  split; [|split; [|split]].
  - intros a b c c' Ha Hab.
    assert (1000000 < b)%Q as Hb
        by (eapply Qlt_le_trans; [exact Ha | exact Hab]).
    rewrite (lookup_overflow a c Ha), (lookup_overflow b c' Hb).
    apply overflow_monotone. assumption.
  - intros a c k Hlo Hhi Hk.
    assert (1000000 < a)%Q as Ha.
    { eapply Qle_lt_trans; [|exact Hlo].
      assert (0 <= inject_Z (k - 1))%Q
        by (change 0%Q with (inject_Z 0); rewrite <- Zle_Qle; lia).
      unfold ceiling, unitSize. lra. }
    rewrite (lookup_overflow a c Ha). apply overflow_step; assumption.
  - intros c. destruct c; vm_compute; reflexivity.
  - repeat split; vm_compute; reflexivity.
Qed.

Lemma overflow_step_function_witness :
  (Premium.chosen (Base.calcOwnersPolicyPremium 1000001 Low)
   <= Premium.chosen (Base.calcOwnersPolicyPremium 1010001 High))%Q
  /\ (Premium.chosen (Base.calcOwnersPolicyPremium 1025000 Mid)
      == baseCeilingPremium + increment * inject_Z 3)%Q.
Proof.
  destruct overflow_step_function as (Hmono & Hstep & _).
  split.
  - apply Hmono; [reflexivity | discriminate].
  - apply Hstep; [reflexivity | discriminate | lia].
Defined.

(** ** Calendar arithmetic *)

(** [YearFromDay d] is the year whose days include day number [d]. *)
Lemma YearFromDay_spec (d : Z) :
  JS.DayFromYear (JS.YearFromDay d) <= d
  < JS.DayFromYear (JS.YearFromDay d + 1).
Proof.
  unfold JS.YearFromDay.
  set (y := 1970 + 400 * d / 146097).
  destruct (Z.ltb_spec d (JS.DayFromYear y)) as [H1 | H1];
    [|destruct (Z.leb_spec (JS.DayFromYear (y + 1)) d) as [H2 | H2]].
  - unfold JS.DayFromYear in *. subst y. div_lia.
  - unfold JS.DayFromYear in *. subst y. div_lia.
  - lia.
Qed.

Lemma DayFromYear_lt (y1 y2 : Z) :
  y1 < y2 -> JS.DayFromYear y1 < JS.DayFromYear y2.
Proof. intros H. unfold JS.DayFromYear. div_lia. Qed.

(** The year is determined by the two bounds. *)
Lemma YearFromDay_unique (d y : Z) :
  JS.DayFromYear y <= d < JS.DayFromYear (y + 1) -> JS.YearFromDay d = y.
Proof.
  intros H. pose proof (YearFromDay_spec d) as S.
  destruct (Z.lt_trichotomy (JS.YearFromDay d) y) as [L | [E | G]];
    [exfalso | exact E | exfalso].
  - assert (JS.YearFromDay d + 1 <= y) as L' by lia.
    apply Z.le_lteq in L'. destruct L' as [L' | L'].
    + pose proof (DayFromYear_lt _ _ L'). lia.
    + rewrite L' in S. lia.
  - assert (y + 1 <= JS.YearFromDay d) as G' by lia.
    apply Z.le_lteq in G'. destruct G' as [G' | G'].
    + pose proof (DayFromYear_lt _ _ G'). lia.
    + rewrite <- G' in S. lia.
Qed.

Lemma DayFromYear_succ (y : Z) :
  JS.DayFromYear (y + 1) = JS.DayFromYear y + JS.DaysInYear y.
Proof.
  unfold JS.DayFromYear, JS.DaysInYear.
  destruct (Z.eqb_spec (y mod 4) 0), (Z.eqb_spec (y mod 100) 0),
    (Z.eqb_spec (y mod 400) 0); cbn [andb orb negb]; div_lia.
Qed.

Lemma MonthFromTime_range (t : Z) : 0 <= JS.MonthFromTime t <= 11.
Proof.
  unfold JS.MonthFromTime.
  repeat match goal with
         | |- context [if ?c then _ else _] => destruct c
         end; lia.
Qed.

(** Year, month and date of a time value name its day. *)
Lemma MakeDay_components (t k : Z) :
  JS.MakeDay (JS.YearFromTime t) (JS.MonthFromTime t) (JS.DateFromTime t + k)
  = JS.Day t + k.
Proof.
  pose proof (MonthFromTime_range t) as Hm.
  unfold JS.MakeDay.
  rewrite (Z.div_small (JS.MonthFromTime t) 12) by lia.
  rewrite (Z.mod_small (JS.MonthFromTime t) 12) by lia.
  rewrite Z.add_0_r.
  unfold JS.DateFromTime, JS.DayWithinYear, JS.InLeapYear. lia.
Qed.

(** [addDaysUTC] moves the time value by whole days. *)
Lemma addDaysUTC_time (dt : JS.Date) (days : Z) :
  Base.addDaysUTC dt days
  = JS.mkDate (JS.getTime dt + days * JS.msPerDay).
Proof.
  unfold Base.addDaysUTC, JS.setUTCDate, JS.getUTCDate. cbn [JS.getTime].
  rewrite MakeDay_components. f_equal.
  unfold JS.MakeDate, JS.Day, JS.TimeWithinDay, JS.msPerDay. div_lia.
Qed.

(** Outside the years 0 to 99, [Date.UTC] of the components of a date is
    the start of its day. *)
Lemma Date_UTC_components (t : Z) :
  ~ (0 <= JS.YearFromTime t <= 99) ->
  JS.Date_UTC (JS.YearFromTime t) (JS.MonthFromTime t) (JS.DateFromTime t)
  = JS.Day t * JS.msPerDay.
Proof.
  intros Hy. unfold JS.Date_UTC.
  assert ((0 <=? JS.YearFromTime t) && (JS.YearFromTime t <=? 99) = false)
    as ->.
  { apply andb_false_iff.
    destruct (Z.leb_spec 0 (JS.YearFromTime t));
      destruct (Z.leb_spec (JS.YearFromTime t) 99); auto. lia. }
  pose proof (MakeDay_components t 0) as E. rewrite Z.add_0_r in E.
  rewrite E. unfold JS.MakeDate. lia.
Qed.

Lemma MakeDay_jan1 (y : Z) : JS.MakeDay y 0 1 = JS.DayFromYear y.
Proof.
  unfold JS.MakeDay. change (0 / 12) with 0. change (0 mod 12) with 0.
  cbn [JS.monthStart]. replace (y + 0) with y by lia. lia.
Qed.

(** Outside the years 0 to 99, [Date.UTC(y, 0, 1)] is the start of the
    first day of year [y]. *)
Lemma Date_UTC_jan1 (y : Z) :
  ~ (0 <= y <= 99) -> JS.Date_UTC y 0 1 = JS.DayFromYear y * JS.msPerDay.
Proof.
  intros Hy. unfold JS.Date_UTC.
  assert ((0 <=? y) && (y <=? 99) = false) as ->.
  { apply andb_false_iff.
    destruct (Z.leb_spec 0 y); destruct (Z.leb_spec y 99); auto. lia. }
  rewrite MakeDay_jan1. unfold JS.MakeDate. lia.
Qed.

(** For a year in 0 to 99, [Date.UTC(y, 0, 1)] lies in the year 1900 + y. *)
Lemma Date_UTC_jan1_short (y : Z) :
  0 <= y <= 99 ->
  JS.Date_UTC y 0 1 = JS.DayFromYear (1900 + y) * JS.msPerDay.
Proof.
  intros Hy. unfold JS.Date_UTC.
  assert ((0 <=? y) && (y <=? 99) = true) as ->.
  { apply andb_true_iff. split; apply Z.leb_le; lia. }
  rewrite MakeDay_jan1. unfold JS.MakeDate. lia.
Qed.

Lemma Day_of_start (d : Z) : JS.Day (d * JS.msPerDay) = d.
Proof. unfold JS.Day, JS.msPerDay. apply Z.div_mul. discriminate. Qed.

Lemma Day_bounds (t : Z) :
  JS.Day t * JS.msPerDay <= t < (JS.Day t + 1) * JS.msPerDay.
Proof. unfold JS.Day, JS.msPerDay. div_lia. Qed.

(** ** Tax proration *)

(** The helpers of the proration are the same functions in both files. *)
Lemma County_isLeapYear (y : Z) : County.isLeapYear y = Base.isLeapYear y.
Proof. unfold County.isLeapYear, Base.isLeapYear. reflexivity. Qed.

Lemma County_ymd (dt : JS.Date) : County.ymd dt = Base.ymd dt.
Proof. unfold County.ymd, Base.ymd. reflexivity. Qed.

Lemma County_addDaysUTC (dt : JS.Date) (days : Z) :
  County.addDaysUTC dt days = Base.addDaysUTC dt days.
Proof. unfold County.addDaysUTC, Base.addDaysUTC. reflexivity. Qed.

Lemma County_daysBetweenInclusiveUTC (s e : JS.Date) :
  County.daysBetweenInclusiveUTC s e = Base.daysBetweenInclusiveUTC s e.
Proof.
  unfold County.daysBetweenInclusiveUTC, Base.daysBetweenInclusiveUTC.
  reflexivity.
Qed.

Lemma tax_variants_agree (closing : JS.Date) (tax : TaxSettings) :
  County.calcIndianaTaxProration closing tax
  = Base.calcIndianaTaxProration closing tax.
Proof.
  unfold County.calcIndianaTaxProration, Base.calcIndianaTaxProration.
  rewrite County_isLeapYear, County_ymd, County_addDaysUTC,
    County_daysBetweenInclusiveUTC.
  reflexivity.
Qed.

Lemma isLeapYear_leapYear (y : Z) : Base.isLeapYear y = leapYear y.
Proof.
  assert (forall n, n <> 0 -> (Z.rem y n =? 0) = (y mod n =? 0)) as H.
  { intros n Hn. apply eq_true_iff_eq. rewrite !Z.eqb_eq.
    rewrite (Z.rem_divide y n Hn), (Z.mod_divide y n Hn). reflexivity. }
  unfold Base.isLeapYear, leapYear.
  rewrite !H by discriminate. reflexivity.
Qed.

Lemma or_zero_eq (x : Q) : (JS.or_zero x == x)%Q.
Proof.
  unfold JS.or_zero, JS.or_else. destruct (Qeq_bool x 0) eqn:E.
  - apply Qeq_bool_eq in E. symmetry. exact E.
  - reflexivity.
Qed.

(** [Math.max(x || 0, 0)] is the amount clamped at zero. *)
Lemma clamp_eq (x : Q) : (JS.Math_max (JS.or_zero x) 0 == Qmax x 0)%Q.
Proof.
  unfold JS.Math_max. apply Q.max_compat; [apply or_zero_eq | reflexivity].
Qed.

(** The day count from January 1 through a cutoff that is not after the
    closing date. *)
Lemma daysAccrued_formula (closing cutoff : JS.Date) :
  JS.getTime cutoff <= JS.getTime closing ->
  (if JS.getTime cutoff <? JS.getTime (yearStart closing) then 0
   else Base.daysBetweenInclusiveUTC (yearStart closing) cutoff)
  = (if JS.getTime cutoff <? JS.getTime (yearStart closing) then 0
     else JS.Day (JS.getTime cutoff)
          - JS.Day (JS.getTime (yearStart closing)) + 1).
Proof.
  intros Hle.
  destruct (Z.ltb_spec (JS.getTime cutoff) (JS.getTime (yearStart closing)))
    as [Hlt | Hge]; [reflexivity|].
  unfold yearStart in *. cbn [JS.getTime] in *.
  unfold JS.getUTCFullYear in *.
  set (t := JS.getTime closing) in *. set (u := JS.getTime cutoff) in *.
  set (y := JS.YearFromTime t) in *.
  pose proof (YearFromDay_spec (JS.Day t)) as Hy. fold (JS.YearFromTime t) in Hy.
  fold y in Hy.
  pose proof (Day_bounds t) as Bt. pose proof (Day_bounds u) as Bu.
  assert (H0 : 0 < JS.msPerDay) by reflexivity.
  assert (0 <= y <= 99 \/ ~ (0 <= y <= 99)) as [Yr | Yr] by lia.
  - (* a closing year in 0..99: January 1 is taken in 1900 + y, after the
       closing date, so the cutoff is before it *)
    exfalso. rewrite Date_UTC_jan1_short in Hge by lia.
    assert (y + 1 < 1900 + y) as L by lia.
    apply DayFromYear_lt in L. nia.
  - rewrite Date_UTC_jan1 in * by lia.
    rewrite Day_of_start.
    assert (JS.DayFromYear y <= JS.Day u) as Lo by nia.
    assert (JS.Day u <= JS.Day t) as Hi
        by (unfold JS.Day, JS.msPerDay; apply Z.div_le_mono; lia).
    assert (JS.YearFromTime u = y) as Yu
        by (apply YearFromDay_unique; lia).
    assert (JS.YearFromTime (JS.DayFromYear y * JS.msPerDay) = y) as Yj.
    { unfold JS.YearFromTime. rewrite Day_of_start.
      apply YearFromDay_unique.
      pose proof (DayFromYear_lt y (y + 1)). lia. }
    unfold Base.daysBetweenInclusiveUTC, JS.getUTCFullYear, JS.getUTCMonth,
      JS.getUTCDate. cbn [JS.getTime]. fold u.
    rewrite (Date_UTC_components u) by (rewrite Yu; lia).
    rewrite (Date_UTC_components (JS.DayFromYear y * JS.msPerDay))
      by (rewrite Yj; lia).
    rewrite Day_of_start.
    destruct (Z.ltb_spec (JS.Day u * JS.msPerDay)
                (JS.DayFromYear y * JS.msPerDay)); [nia|].
    rewrite <- Z.mul_sub_distr_r, Z.div_mul by discriminate. reflexivity.
Qed.

(** The breakdown, field by field, with the clamps the code applies. *)
Lemma proration_fields (closing : JS.Date) (tax : TaxSettings) :
  let b := Base.calcIndianaTaxProration closing tax in
  let cutoff := cutoffOf closing (prorateThrough tax) in
  prorationEndYMD b = Base.ymd cutoff
  /\ daysInYear b =
       (if force365 tax then 365
        else if leapYear (JS.getUTCFullYear closing) then 366 else 365)
  /\ (dailyRate b == Qmax (priorYearTax tax) 0 / inject_Z (daysInYear b))%Q
  /\ daysAccrued b =
       (if JS.getTime cutoff <? JS.getTime (yearStart closing) then 0
        else JS.Day (JS.getTime cutoff)
             - JS.Day (JS.getTime (yearStart closing)) + 1)
  /\ (accruedThisYear b == dailyRate b * inject_Z (daysAccrued b))%Q
  /\ (paidTotal b ==
        (if springPaid tax then Qmax (springPaidAmount tax) 0 else 0)
        + (if fallPaid tax then Qmax (fallPaidAmount tax) 0 else 0))%Q
  /\ (unpaidPriorYear b
      == Qmax (Qmax (priorYearTax tax) 0 - paidTotal b) 0)%Q
  /\ (totalDebit b == unpaidPriorYear b + accruedThisYear b)%Q.
Proof.
  intros b cutoff.
  assert (match prorateThrough tax with
          | day_before => Base.addDaysUTC closing (-1)
          | closing_date => closing
          end = cutoff) as Hcut.
  { subst cutoff. unfold cutoffOf. destruct (prorateThrough tax).
    - rewrite addDaysUTC_time. reflexivity.
    - reflexivity. }
  assert (JS.getTime cutoff <= JS.getTime closing) as Hle.
  { subst cutoff. unfold cutoffOf. destruct (prorateThrough tax);
      cbn [JS.getTime]; [unfold JS.msPerDay|]; lia. }
  subst b. unfold Base.calcIndianaTaxProration.
  rewrite Hcut. rewrite isLeapYear_leapYear.
  cbn [prorationEndYMD daysInYear dailyRate daysAccrued accruedThisYear
       paidTotal unpaidPriorYear totalDebit].
  fold (yearStart closing).
  split; [reflexivity|]. split; [reflexivity|].
  split; [rewrite clamp_eq; reflexivity|].
  split; [apply daysAccrued_formula; assumption|].
  split; [reflexivity|].
  split; [destruct (springPaid tax), (fallPaid tax);
          rewrite ?clamp_eq; reflexivity|].
  split; [|reflexivity].
  unfold JS.Math_max at 1.
  apply Q.max_compat; [|reflexivity].
  rewrite clamp_eq. reflexivity.
Qed.

(** C1.  For every closing date and every tax settings whose paid
    installments carry amounts that are not negative, both variants
    return the breakdown of the proration formula: days in the year from the force-365 flag and the
    leap year rule, daily rate from the prior-year tax clamped at zero,
    cutoff from the policy, days accrued as 0 before January 1 and as the
    inclusive day count from January 1 otherwise, accrual, paid total,
    unpaid prior-year balance clamped at zero, and their sum.  January 1
    is [Date.UTC(year, 0, 1)], the first day of the closing year for
    every year outside 0..99. *)
Theorem proration_formula (closing : JS.Date) (tax : TaxSettings) :
  (springPaid tax = true -> (0 <= springPaidAmount tax)%Q) ->
  (fallPaid tax = true -> (0 <= fallPaidAmount tax)%Q) ->
  ProrationFormula Base.ymd closing tax
    (Base.calcIndianaTaxProration closing tax)
  /\ ProrationFormula County.ymd closing tax
       (County.calcIndianaTaxProration closing tax)
  /\ (~ (0 <= JS.getUTCFullYear closing <= 99) ->
      JS.getTime (yearStart closing)
      = JS.DayFromYear (JS.getUTCFullYear closing) * JS.msPerDay).
Proof.
  intros Hs Hf.
  assert (ProrationFormula Base.ymd closing tax
            (Base.calcIndianaTaxProration closing tax)) as H.
  { destruct (proration_fields closing tax)
      as (F1 & F2 & F3 & F4 & F5 & F6 & F7 & F8).
    assert (paidTotal (Base.calcIndianaTaxProration closing tax) ==
              (if springPaid tax then springPaidAmount tax else 0)
              + (if fallPaid tax then fallPaidAmount tax else 0))%Q as F6'.
    { rewrite F6.
      destruct (springPaid tax), (fallPaid tax);
        rewrite ?(Q.max_l (springPaidAmount tax) 0 (Hs eq_refl)),
                ?(Q.max_l (fallPaidAmount tax) 0 (Hf eq_refl));
        reflexivity. }
    unfold ProrationFormula. repeat (split; [assumption|]).
    split; [|assumption].
    rewrite F7.
    assert (0 <= paidTotal (Base.calcIndianaTaxProration closing tax))%Q
      as Hp.
    { rewrite F6'. destruct (springPaid tax), (fallPaid tax);
        try specialize (Hs eq_refl); try specialize (Hf eq_refl); lra. }
    set (p := paidTotal (Base.calcIndianaTaxProration closing tax)) in *.
    pose proof (Q.max_spec (priorYearTax tax) 0) as HT.
    set (T := Qmax (priorYearTax tax) 0) in *. clearbody T p.
    destruct (Q.max_spec (T - p) 0) as [[? E1] | [? E1]],
             (Q.max_spec (priorYearTax tax - p) 0) as [[? E2] | [? E2]];
      rewrite E1, E2; destruct HT as [[? ET] | [? ET]]; lra. }
  split; [exact H|]. split.
  - rewrite tax_variants_agree.
    destruct H as (F1 & H). split; [|exact H].
    rewrite County_ymd. exact F1.
  - intros Hy. unfold yearStart. cbn [JS.getTime].
    apply Date_UTC_jan1. exact Hy.
Qed.

Lemma proration_formula_witness :
  let closing := JS.mkDate (JS.Date_UTC 2026 0 10) in
  let tax := mkTaxSettings 3650 true 1000 false 0 day_before true in
  ProrationFormula Base.ymd closing tax
    (Base.calcIndianaTaxProration closing tax).
Proof.
  intros closing tax.
  destruct (proration_formula closing tax) as [H _];
    [intros _; discriminate | intros E; discriminate E | exact H].
Defined.

(** The examples of the proration: prior-year tax 3650 over 365 days;
    closing on January 1 with the day-before cutoff accrues nothing,
    closing on January 10 accrues nine days, 90.00; with the closing date
    as the cutoff, closing on January 1 accrues that one day. *)
Lemma proration_examples :
  let tax := mkTaxSettings 3650 false 0 false 0 day_before true in
  let same := mkTaxSettings 3650 false 0 false 0 closing_date true in
  let jan1 := JS.mkDate (JS.Date_UTC 2026 0 1) in
  let jan10 := JS.mkDate (JS.Date_UTC 2026 0 10) in
  let c := Base.calcIndianaTaxProration jan1 tax in
  let d := Base.calcIndianaTaxProration jan10 tax in
  daysAccrued c = 0 /\ (dailyRate c == 10)%Q /\ (accruedThisYear c == 0)%Q
  /\ prorationEndYMD d = "2026-01-09"%string
  /\ daysAccrued d = 9 /\ (accruedThisYear d == 90)%Q
  /\ daysAccrued (Base.calcIndianaTaxProration jan1 same) = 1.
Proof. repeat split; vm_compute; reflexivity. Qed.


Lemma unpaid_antitone (ty p q : Q) :
  (p <= q)%Q -> (Qmax (ty - q) 0 <= Qmax (ty - p) 0)%Q.
Proof. intros H. apply Q.max_le_compat_r. lra. Qed.

Lemma clamp_nonneg (x : Q) : (0 <= JS.Math_max (JS.or_zero x) 0)%Q.
Proof. unfold JS.Math_max. apply Q.le_max_r. Qed.

(** C9.  With the closing date, the amounts and every other field fixed,
    the total debit with an installment marked paid is never above the
    total debit with that installment marked unpaid, for the spring and
    for the fall installment, in both variants. *)
Theorem paid_flag_never_raises_debit (closing : JS.Date) (tax : TaxSettings) :
  (totalDebit (Base.calcIndianaTaxProration closing (withSpringPaid true tax))
   <= totalDebit
        (Base.calcIndianaTaxProration closing (withSpringPaid false tax)))%Q
  /\ (totalDebit (Base.calcIndianaTaxProration closing (withFallPaid true tax))
      <= totalDebit
           (Base.calcIndianaTaxProration closing (withFallPaid false tax)))%Q
  /\ (totalDebit
        (County.calcIndianaTaxProration closing (withSpringPaid true tax))
      <= totalDebit
           (County.calcIndianaTaxProration closing
              (withSpringPaid false tax)))%Q
  /\ (totalDebit
        (County.calcIndianaTaxProration closing (withFallPaid true tax))
      <= totalDebit
           (County.calcIndianaTaxProration closing (withFallPaid false tax)))%Q.
Proof.
  assert (forall acc ty p q : Q,
             (p <= q)%Q ->
             (JS.Math_max (ty - q) 0 + acc <= JS.Math_max (ty - p) 0 + acc)%Q)
    as Hstep.
  { intros acc ty p q H. pose proof (unpaid_antitone ty p q H).
    unfold JS.Math_max. lra. }
  pose proof (clamp_nonneg (springPaidAmount tax)) as Hs.
  pose proof (clamp_nonneg (fallPaidAmount tax)) as Hf.
  assert (A : ((totalDebit
                  (Base.calcIndianaTaxProration closing (withSpringPaid true tax))
                <= totalDebit
                     (Base.calcIndianaTaxProration closing
                        (withSpringPaid false tax)))%Q)).
  { unfold Base.calcIndianaTaxProration, withSpringPaid.
    cbn [totalDebit priorYearTax springPaid springPaidAmount fallPaid
         fallPaidAmount prorateThrough force365].
    apply Hstep. destruct (fallPaid tax); lra. }
  assert (B : ((totalDebit
                  (Base.calcIndianaTaxProration closing (withFallPaid true tax))
                <= totalDebit
                     (Base.calcIndianaTaxProration closing
                        (withFallPaid false tax)))%Q)).
  { unfold Base.calcIndianaTaxProration, withFallPaid.
    cbn [totalDebit priorYearTax springPaid springPaidAmount fallPaid
         fallPaidAmount prorateThrough force365].
    apply Hstep. destruct (springPaid tax); lra. }
  rewrite (tax_variants_agree closing (withSpringPaid true tax)),
    (tax_variants_agree closing (withSpringPaid false tax)),
    (tax_variants_agree closing (withFallPaid true tax)),
    (tax_variants_agree closing (withFallPaid false tax)).
  split; [exact A|]. split; [exact B|]. split; [exact A | exact B].
Qed.

(** C10.  The tax proration functions of the two variants return the
    same breakdown, field for field, for every closing date and every
    tax settings. *)
Theorem proration_variants_equal (closing : JS.Date) (tax : TaxSettings) :
  Base.calcIndianaTaxProration closing tax
  = County.calcIndianaTaxProration closing tax
  /\ (forall dt, Base.ymd dt = County.ymd dt)
  /\ (forall dt days, Base.addDaysUTC dt days = County.addDaysUTC dt days)
  /\ (forall s e,
        Base.daysBetweenInclusiveUTC s e = County.daysBetweenInclusiveUTC s e)
  /\ (forall y, Base.isLeapYear y = County.isLeapYear y).
Proof.
  split; [symmetry; apply tax_variants_agree|].
  split; [intros; symmetry; apply County_ymd|].
  split; [intros; symmetry; apply County_addDaysUTC|].
  split; [intros; symmetry; apply County_daysBetweenInclusiveUTC|].
  intros; symmetry; apply County_isLeapYear.
Qed.

(** ** Seller title fees *)

(** Rounding the amounts keeps the labels, so a line is found in the
    rounded list where it is found in the pushed list. *)
Lemma lineOf_rounded (f : Q -> Q) (lbl : string) (l : list TitleFeeItem) :
  lineOf lbl (map (fun x => mkItem (label x) (f (amount x))) l)
  = option_map (fun x => mkItem (label x) (f (amount x))) (lineOf lbl l).
Proof.
  unfold lineOf. induction l as [|x l IH]; [reflexivity|].
  cbn [map find label]. destruct (String.eqb (label x) lbl); [reflexivity|].
  exact IH.
Qed.

Lemma County_schedule_cases (county : JS.jsstring) :
  County.getFeeScheduleForCounty county = County.VALPO_SCHEDULE
  \/ County.getFeeScheduleForCounty county = County.STANDARD_SCHEDULE.
Proof.
  unfold County.getFeeScheduleForCounty.
  destruct (existsb _ _); [left | right]; reflexivity.
Qed.

(** The claim of C5 fails in the county-schedule variant: for a
    loan-backed transaction in Marion county the settlement line is 195,
    while the constant of the resolved schedule is 390. *)
Lemma settlement_fee_counterexample :
  let s := County.mkTitleFeeSettings with_loan (JS.str "Marion") true 0
             true true true false false in
  exists x,
    lineOf settlementLabel (items (County.calcIhtSellerTitleFees s)) = Some x
    /\ (amount x == 195)%Q
    /\ ~ (amount x
          == County.settlementWithLoanSeller
               (County.getFeeScheduleForCounty (County.county s)))%Q.
Proof.
  eexists. split; [vm_compute; reflexivity|].
  split; vm_compute; [reflexivity | discriminate].
Qed.

(** C5 (amended).  With the settlement toggle on, the settlement line of
    the base variant carries the whole constant of the transaction type,
    390 with a loan and 290 for cash; the settlement line of the
    county-schedule variant carries half of the constant of the resolved
    schedule, rounded to cents, which is 195 with a loan and 145 for
    cash under both schedules. *)
Theorem settlement_fee_line :
  (forall s : Base.TitleFeeSettings,
      Base.includeSettlementFee s = true ->
      exists x,
        lineOf settlementLabel (items (Base.calcIhtSellerTitleFees s))
        = Some x
        /\ (amount x ==
              match Base.transactionType s with
              | with_loan => 390
              | cash => 290
              end)%Q)
  /\ (forall s : County.TitleFeeSettings,
        County.includeSettlementFee s = true ->
        let schedule := County.getFeeScheduleForCounty (County.county s) in
        let full :=
          match County.transactionType s with
          | with_loan => County.settlementWithLoanSeller schedule
          | cash => County.settlementCashSeller schedule
          end in
        exists x,
          lineOf settlementLabel (items (County.calcIhtSellerTitleFees s))
          = Some x
          /\ (amount x == County.round2 (full / 2))%Q
          /\ (amount x == full / 2)%Q
          /\ (amount x ==
                match County.transactionType s with
                | with_loan => 195
                | cash => 145
                end)%Q).
Proof.
  split.
  - intros s Hon. unfold Base.calcIhtSellerTitleFees. cbn [items].
    rewrite lineOf_rounded, Hon.
    destruct (JS.Qlt_bool 0 (Base.ownerPolicyPremium s));
      destruct (Base.transactionType s);
      cbn [app lineOf find label String.eqb Ascii.eqb Bool.eqb settlementLabel
           option_map];
      eexists; (split; [reflexivity|]); cbn [amount];
      [apply (round2_int 390) | apply (round2_int 290)
      | apply (round2_int 390) | apply (round2_int 290)].
  - intros s Hon schedule full.
    unfold County.calcIhtSellerTitleFees. cbn [items].
    fold schedule. rewrite lineOf_rounded, Hon. rewrite !County_round2.
    assert (full == 390 /\ County.transactionType s = with_loan
            \/ full == 290 /\ County.transactionType s = cash)%Q as Hfull.
    { subst full schedule.
      destruct (County_schedule_cases (County.county s)) as [-> | ->];
        destruct (County.transactionType s); cbn; auto using Qeq_refl. }
    destruct (JS.Qlt_bool 0 (County.ownerPolicyPremium s));
      cbn [app lineOf find label String.eqb Ascii.eqb Bool.eqb settlementLabel
           option_map];
      fold full; eexists; (split; [reflexivity|]); cbn [amount];
      rewrite round2_idempotent;
      (destruct Hfull as [[E T] | [E T]]; rewrite T;
       rewrite (round2_comp _ _ (Qdiv_comp _ _ E _ _ (Qeq_refl 2)));
       repeat split;
       try (rewrite E); try reflexivity;
       try (apply (round2_cents 19500)); try (apply (round2_cents 14500))).
Qed.

Lemma settlement_fee_line_witness :
  exists x,
    lineOf settlementLabel
      (items
         (Base.calcIhtSellerTitleFees
            (Base.mkTitleFeeSettings cash Base.other false 0 true false false
               false false)))
    = Some x
    /\ (amount x == 290)%Q.
Proof.
  destruct settlement_fee_line as [HB _].
  exact (HB (Base.mkTitleFeeSettings cash Base.other false 0 true false false
               false false) eq_refl).
Defined.

(** ** The money normalizer *)

Lemma digitsValue_nonneg (ds : JS.jsstring) : 0 <= JS.digitsValue ds.
Proof.
  unfold JS.digitsValue.
  assert (forall acc, 0 <= acc ->
            0 <= fold_left (fun a c => 10 * a + JS.digitValue c) ds acc) as H.
  { induction ds as [|c ds IH]; intros acc Hacc; cbn [fold_left].
    - exact Hacc.
    - apply IH. unfold JS.digitValue. lia. }
  apply H. lia.
Qed.

Lemma hexValue_nonneg (c : N) (v : Z) : JS.hexValue c = Some v -> 0 <= v.
Proof.
  unfold JS.hexValue.
  repeat match goal with
         | |- context [if ?b then _ else _] => destruct b
         end; intros E; inversion E; lia.
Qed.

Lemma radixValue_nonneg (radix : Z) (s : JS.jsstring) :
  0 <= radix ->
  forall acc v, 0 <= acc -> JS.radixValue radix acc s = Some v -> 0 <= v.
Proof.
  intros Hr. induction s as [|c s IH]; intros acc v Hacc E; cbn in E.
  - inversion E. lia.
  - destruct (JS.hexValue c) as [d|] eqn:Hd; [|discriminate].
    destruct (d <? radix); [|discriminate].
    apply hexValue_nonneg in Hd. eapply IH; [|exact E]. nia.
Qed.

Lemma roundMagnitude_finite (q r : Q) :
  JS.roundMagnitude q = JS.Finite r -> r = q.
Proof.
  unfold JS.roundMagnitude. destruct (Qle_bool _ _); intros E; inversion E.
  reflexivity.
Qed.

(** An unsigned decimal literal does not denote a negative number. *)
Lemma unsignedDecimal_nonneg (s : JS.jsstring) (q : Q) :
  JS.unsignedDecimal s = JS.Finite q -> (0 <= q)%Q.
Proof.
  unfold JS.unsignedDecimal.
  destruct (JS.jsstring_eqb _ _); [discriminate|].
  destruct (JS.spanDigits s) as [ip r1].
  destruct (match r1 with
            | [] => (false, [], r1)
            | c :: r =>
                if (c =? 46)%N
                then let (f, t) := JS.spanDigits r in (true, f, t)
                else (false, [], r1)
            end) as [[dot fp] r2].
  destruct (match ip with
            | [] => match fp with [] => false | _ :: _ => true end
            | _ :: _ => true
            end); [|discriminate].
  destruct (JS.exponentPart r2) as [e|]; [|discriminate].
  intros E. apply roundMagnitude_finite in E. subst q.
  apply Qmult_le_0_compat.
  - change 0%Q with (inject_Z 0). rewrite <- Zle_Qle.
    apply digitsValue_nonneg.
  - apply Qpower_0_le. discriminate.
Qed.

Lemma nonDecimal_nonneg (s : JS.jsstring) (n : JS.Number) (q : Q) :
  JS.nonDecimal s = Some n -> n = JS.Finite q -> (0 <= q)%Q.
Proof.
  unfold JS.nonDecimal.
  destruct s as [|z [|p [|d ds]]]; try discriminate.
  destruct (z =? 48)%N; [|discriminate].
  set (radix := if ((p =? 120) || (p =? 88))%N then Some 16
                else if ((p =? 111) || (p =? 79))%N then Some 8
                else if ((p =? 98) || (p =? 66))%N then Some 2 else None).
  assert (forall rx, radix = Some rx -> 0 <= rx) as Hrx.
  { subst radix. intros rx.
    destruct ((p =? 120) || (p =? 88))%N; [intros E; inversion E; lia|].
    destruct ((p =? 111) || (p =? 79))%N; [intros E; inversion E; lia|].
    destruct ((p =? 98) || (p =? 66))%N; [intros E; inversion E; lia|].
    discriminate. }
  destruct radix as [rx|]; [|discriminate].
  specialize (Hrx rx eq_refl).
  destruct (JS.radixValue rx 0 (d :: ds)) as [v|] eqn:Hv.
  - intros E1 E2. subst n. injection E1 as E3.
    apply roundMagnitude_finite in E3. subst q.
    change 0%Q with (inject_Z 0). rewrite <- Zle_Qle.
    apply (radixValue_nonneg rx (d :: ds) Hrx 0 v); [lia | exact Hv].
  - intros E1 E2. subst n. discriminate E1.
Qed.

(** [Number] gives a negative number only for a text that, trimmed,
    starts with a minus sign. *)
Lemma StringToNumber_negative (s : JS.jsstring) (q : Q) :
  JS.StringToNumber s = JS.Finite q -> (q < 0)%Q ->
  exists r, JS.trim s = minusSign :: r.
Proof.
  unfold JS.StringToNumber. destruct (JS.trim s) as [|c r].
  - intros E Hq. inversion E; subst q. discriminate Hq.
  - destruct (N.eqb_spec c 45) as [-> | Hc].
    + intros _ _. exists r. reflexivity.
    + intros E Hq. exfalso. apply (Qlt_not_le _ _ Hq).
      destruct (c =? 43)%N.
      * apply (unsignedDecimal_nonneg _ _ E).
      * destruct (JS.nonDecimal (c :: r)) as [n|] eqn:Hn.
        -- apply (nonDecimal_nonneg _ _ _ Hn E).
        -- apply (unsignedDecimal_nonneg _ _ E).
Qed.

Lemma trimStart_incl (s : JS.jsstring) (x : N) :
  In x (JS.trimStart s) -> In x s.
Proof.
  induction s as [|c s IH]; cbn; [tauto|].
  destruct (JS.isWhiteSpace c); cbn; auto.
Qed.

Lemma trim_incl (s : JS.jsstring) (x : N) : In x (JS.trim s) -> In x s.
Proof.
  unfold JS.trim. intros H.
  apply in_rev, trimStart_incl, in_rev, trimStart_incl in H. exact H.
Qed.

Lemma parseNumber_unfold (v : JS.jsstring) :
  Base.parseNumber v =
    if JS.Number_isFinite (JS.StringToNumber (cleanedText v))
    then JS.StringToNumber (cleanedText v) else JS.Finite 0.
Proof. reflexivity. Qed.

(** The claim of C6 fails on the sign: the text -5 is read as -5. *)
Lemma parseNumber_negative_counterexample :
  exists q, Base.parseNumber (JS.str "-5") = JS.Finite q /\ (q < 0)%Q.
Proof. exists (-5)%Q. split; vm_compute; reflexivity. Qed.

(** C6 (amended).  For every input string [parseNumber] returns a finite
    number (it is a total function, nothing is thrown); when the cleaned
    text is not the text of a finite number the result is 0, and so it is
    when the cleaned text is empty; the result is negative only when the
    cleaned text starts with a minus sign, so an input without a minus
    sign gives a number that is not negative. *)
Theorem parseNumber_finite :
  (forall v, exists q, Base.parseNumber v = JS.Finite q)
  /\ (forall v,
        JS.Number_isFinite (JS.StringToNumber (cleanedText v)) = false ->
        Base.parseNumber v = JS.Finite 0)
  /\ (forall v, cleanedText v = [] -> Base.parseNumber v = JS.Finite 0)
  /\ (forall v q,
        Base.parseNumber v = JS.Finite q -> (q < 0)%Q ->
        exists r, cleanedText v = minusSign :: r)
  /\ (forall v q,
        ~ In minusSign v -> Base.parseNumber v = JS.Finite q -> (0 <= q)%Q).
Proof.
  assert (forall v q,
             Base.parseNumber v = JS.Finite q -> (q < 0)%Q ->
             exists r, JS.trim (cleanedText v) = minusSign :: r) as Hneg.
  { intros v q E Hq. rewrite parseNumber_unfold in E.
    destruct (JS.StringToNumber (cleanedText v)) as [| | |q'] eqn:Hn;
      cbn in E; try (inversion E; subst q; discriminate Hq).
    inversion E; subst q'. apply (StringToNumber_negative _ _ Hn Hq). }
  split; [|split; [|split; [|split]]].
  - intros v. rewrite parseNumber_unfold.
    destruct (JS.StringToNumber (cleanedText v)); cbn; eexists; reflexivity.
  - intros v H. rewrite parseNumber_unfold, H. reflexivity.
  - intros v H. rewrite parseNumber_unfold, H. reflexivity.
  - intros v q E Hq. destruct (Hneg v q E Hq) as [r Hr].
    (* the cleaned text has no white space, so trimming leaves it as it is *)
    assert (forall s, (forall x, In x s -> JS.isWhiteSpace x = false) ->
                      JS.trimStart s = s) as Hts.
    { intros s Hs. destruct s as [|c s]; [reflexivity|].
      cbn. rewrite (Hs c (or_introl eq_refl)). reflexivity. }
    assert (forall x, In x (cleanedText v) -> JS.isWhiteSpace x = false) as Hw.
    { intros x Hx. apply filter_In in Hx. destruct Hx as [_ Hx].
      apply negb_true_iff in Hx. apply orb_false_iff in Hx. tauto. }
    unfold JS.trim in Hr. rewrite (Hts _ Hw) in Hr.
    rewrite Hts in Hr by (intros x Hx; apply Hw, in_rev; exact Hx).
    rewrite rev_involutive in Hr. exists r. exact Hr.
  - intros v q Hno E. apply Qnot_lt_le. intros Hq.
    destruct (Hneg v q E Hq) as [r Hr]. apply Hno.
    assert (In minusSign (JS.trim (cleanedText v))) as Hin
        by (rewrite Hr; left; reflexivity).
    apply trim_incl in Hin. apply filter_In in Hin. tauto.
Qed.

Lemma parseNumber_finite_witness :
  (0 <= 330000)%Q /\ Base.parseNumber [] = JS.Finite 0.
Proof.
  destruct parseNumber_finite as (_ & _ & H0 & _ & Hpos).
  split; [|exact (H0 [] eq_refl)].
  apply (Hpos (JS.str "$330,000") 330000%Q).
  - vm_compute. intros H. repeat (destruct H as [H | H]; [discriminate H|]).
    exact H.
  - vm_compute. reflexivity.
Defined.

(** What [parseNumber] gives for the texts the form starts with and for a
    few others; a fraction keeps its digits, a text that is no number
    gives 0. *)
Lemma parseNumber_examples :
  Base.parseNumber (JS.str "330,000") = JS.Finite 330000
  /\ Base.parseNumber (JS.str "$ 1,600") = JS.Finite 1600
  /\ (exists q, Base.parseNumber (JS.str "1,600.50") = JS.Finite q
                /\ (q == 1600.5)%Q)
  /\ Base.parseNumber (JS.str "abc") = JS.Finite 0
  /\ Base.parseNumber (JS.str "1.2.3") = JS.Finite 0
  /\ Base.parseNumber (JS.str "1e999") = JS.Finite 0
  /\ Base.parseNumber (JS.str "Infinity") = JS.Finite 0.
Proof.
  repeat split; try (vm_compute; reflexivity).
  eexists. split; vm_compute; reflexivity.
Qed.

(** ** The estimated net *)



(** ** The tests the repository carries *)

(** The smoke tests on [isLeapYear] and [daysBetweenInclusiveUTC]. *)
Lemma smoke_tests :
  let jan1 := JS.mkDate (JS.Date_UTC 2026 0 1) in
  let jan1b := JS.mkDate (JS.Date_UTC 2026 0 1) in
  let jan2 := JS.mkDate (JS.Date_UTC 2026 0 2) in
  County.isLeapYear 2024 = true
  /\ County.isLeapYear 2025 = false
  /\ County.daysBetweenInclusiveUTC jan1 jan1b = 1
  /\ County.daysBetweenInclusiveUTC jan1 jan2 = 2.
Proof. repeat split; vm_compute; reflexivity. Qed.

(** The self-tests of the base variant. *)
Lemma base_self_tests :
  let t :=
    Base.calcIndianaTaxProration (JS.mkDate (JS.Date_UTC 2026 0 1))
      (mkTaxSettings 3650 false 0 false 0 day_before true) in
  (Premium.chosen (Base.calcOwnersPolicyPremium 50000 Low) == 209)%Q
  /\ (Premium.chosen (Base.calcOwnersPolicyPremium 50000 High) == 220)%Q
  /\ (Premium.chosen (Base.calcOwnersPolicyPremium 50000 Mid) == 214.5)%Q
  /\ (Premium.chosen (Base.calcOwnersPolicyPremium 1000001 Mid) == 2750)%Q
  /\ (Premium.chosen (Base.calcOwnersPolicyPremium 1010000 Mid) == 2750)%Q
  /\ (Premium.chosen (Base.calcOwnersPolicyPremium 1010001 Mid) == 2772)%Q
  /\ daysAccrued t = 0
  /\ (Base.round2 (dailyRate t) == 10)%Q.
Proof. repeat split; vm_compute; reflexivity. Qed.

(** The self-tests of the county-schedule variant. *)
Lemma county_self_tests :
  let closing := JS.mkDate (JS.Date_UTC 2026 0 10) in
  let taxA :=
    County.calcIndianaTaxProration closing
      (mkTaxSettings 3650 false 0 false 0 day_before true) in
  let taxB :=
    County.calcIndianaTaxProration closing
      (mkTaxSettings 3650 true 1000 false 0 day_before true) in
  let p1 := County.calcOwnersPolicyPremium 50000 Mid in
  let p2 := County.calcOwnersPolicyPremium 1000001 Mid in
  Premium.min p1 = 209%Q /\ Premium.max p1 = 220%Q
  /\ (Premium.chosen p1 == County.round2 ((209 + 220) / 2))%Q
  /\ Premium.mode p2 = above_1m
  /\ (Premium.chosen p2 == 2728 + 22 * 1)%Q
  /\ County.titleProcessingSeller
       (County.getFeeScheduleForCounty (JS.str "Lake")) = 225%Q
  /\ County.titleProcessingSeller
       (County.getFeeScheduleForCounty (JS.str "Marion")) = 175%Q
  /\ (totalDebit taxB < totalDebit taxA)%Q.
Proof. repeat split; vm_compute; reflexivity. Qed.

(** * Further properties of the engine *)

(** ** Rounding to cents, continued *)

Lemma round2_monotone (x y : Q) :
  (x <= y)%Q -> (Base.round2 x <= Base.round2 y)%Q.
Proof.
  intros H. unfold Base.round2, JS.Math_round.
  assert (Qfloor ((x + JS.Number_EPSILON) * 100 + (1 # 2))
          <= Qfloor ((y + JS.Number_EPSILON) * 100 + (1 # 2))) as F
      by (apply Qfloor_resp_le; lra).
  rewrite Zle_Qle in F. unfold Qdiv.
  apply Qmult_le_compat_r; [exact F | discriminate].
Qed.

(** Adding whole cents commutes with [round2]. *)
Lemma round2_shift (x : Q) (n : Z) :
  (Base.round2 (x + inject_Z n / 100) == Base.round2 x + inject_Z n / 100)%Q.
Proof.
  unfold Base.round2, JS.Math_round.
  set (y := ((x + JS.Number_EPSILON) * 100 + (1 # 2))%Q).
  pose proof (Qfloor_le y) as Hlo. pose proof (Qlt_floor y) as Hhi.
  rewrite inject_Z_plus in Hhi. change (inject_Z 1) with 1%Q in Hhi.
  rewrite (Qfloor_unique _ (Qfloor y + n)).
  - rewrite inject_Z_plus. field.
  - rewrite inject_Z_plus. subst y.
    assert (inject_Z n / 100 * 100 == inject_Z n)%Q as E by field. lra.
  - rewrite !inject_Z_plus. change (inject_Z 1) with 1%Q. subst y.
    assert (inject_Z n / 100 * 100 == inject_Z n)%Q as E by field. lra.
Qed.

(** X1.  In exact arithmetic [round2] is monotone, leaves an amount of
    whole cents as it is and, rounding to whole cents, is idempotent;
    the last two are stated up to a trillion, in the range where doubles
    tell cents apart.  In double arithmetic the nudge by [Number.EPSILON]
    lifts 1.005 to 1.01, but 2.135 goes to 2.13, and so do 2.125 and
    2.125 + 0.01: a cent added before rounding need not show after it.
    -0.015 becomes -0.01. *)
Theorem round2_laws :
  (forall x y, (x <= y)%Q -> (Base.round2 x <= Base.round2 y)%Q)
  /\ (forall k : Z,
        Z.abs k <= 100000000000000 ->
        (Base.round2 (inject_Z k / 100) == inject_Z k / 100)%Q)
  /\ (forall x,
        (Qabs x <= 1000000000000)%Q ->
        (Base.round2 (Base.round2 x) == Base.round2 x)%Q)
  /\ DblBase.round2 (Dbl.ofQ 1.005) = Dbl.ofQ 1.01
  /\ DblBase.round2 (Dbl.ofQ 2.135) = Dbl.ofQ 2.13
  /\ DblBase.round2 (Dbl.ofQ 2.125) = Dbl.ofQ 2.13
  /\ DblBase.round2 (Dbl.ofQ 2.125 + Dbl.ofQ 0.01)%dbl = Dbl.ofQ 2.13
  /\ DblBase.round2 (Dbl.ofQ (- 0.015)) = Dbl.ofQ (- 0.01).
Proof.
  split; [exact round2_monotone|].
  split; [intros k _; apply round2_cents|].
  split; [intros x _; apply round2_idempotent|].
  repeat split; vm_compute; reflexivity.
Qed.

Lemma round2_laws_witness :
  (Base.round2 1.234 <= Base.round2 1.236)%Q.
Proof.
  destruct round2_laws as [H _]. apply H. discriminate.
Defined.

(** ** Decimal numerals *)

Lemma digit_not_white (c : N) :
  JS.isDigit c = true -> JS.isWhiteSpace c = false.
Proof.
  unfold JS.isDigit, JS.isWhiteSpace. intros H.
  apply andb_true_iff in H. destruct H as [H1 H2].
  apply N.leb_le in H1, H2.
  repeat match goal with
         | |- context [(?a <=? ?b)%N] => destruct (N.leb_spec a b)
         | |- context [(?a =? ?b)%N] => destruct (N.eqb_spec a b)
         end; try reflexivity; lia.
Qed.

Lemma trimStart_head (c : N) (r : JS.jsstring) :
  JS.isWhiteSpace c = false -> JS.trimStart (c :: r) = c :: r.
Proof. intros H. cbn. rewrite H. reflexivity. Qed.

(** A text without white space is left as it is by [trim]. *)
Lemma trim_no_white (s : JS.jsstring) :
  (forall x, In x s -> JS.isWhiteSpace x = false) -> JS.trim s = s.
Proof.
  intros H. unfold JS.trim.
  assert (forall t, (forall x, In x t -> JS.isWhiteSpace x = false) ->
                    JS.trimStart t = t) as Ht.
  { intros [|c t] Hc; [reflexivity|].
    apply trimStart_head, Hc. left. reflexivity. }
  rewrite (Ht s H).
  rewrite Ht by (intros x Hx; apply H, in_rev; exact Hx).
  apply rev_involutive.
Qed.

Lemma spanDigits_all (ds : JS.jsstring) :
  Forall (fun c => JS.isDigit c = true) ds -> JS.spanDigits ds = (ds, []).
Proof.
  induction 1 as [|c ds Hc _ IH]; cbn; [reflexivity|].
  rewrite Hc, IH. reflexivity.
Qed.

(** [Number] reads a text of decimal digits as the number they write. *)
Lemma StringToNumber_digits (ds : JS.jsstring) :
  ds <> [] ->
  Forall (fun c => JS.isDigit c = true) ds ->
  (inject_Z (JS.digitsValue ds) < JS.overflowBound)%Q ->
  JS.StringToNumber ds = JS.Finite (inject_Z (JS.digitsValue ds)).
Proof.
  intros Hne Hd Hb. unfold JS.StringToNumber.
  rewrite trim_no_white
    by (intros x Hx; apply digit_not_white;
        rewrite Forall_forall in Hd; apply Hd, Hx).
  destruct ds as [|c r]; [congruence|].
  pose proof (Forall_inv Hd) as Hc. cbn beta in Hc.
  assert (48 <= c <= 57)%N as Hr.
  { unfold JS.isDigit in Hc. apply andb_true_iff in Hc.
    destruct Hc as [H1 H2]. apply N.leb_le in H1, H2. lia. }
  assert ((c =? 45)%N = false) as -> by (apply N.eqb_neq; lia).
  assert ((c =? 43)%N = false) as -> by (apply N.eqb_neq; lia).
  assert (JS.nonDecimal (c :: r) = None) as ->.
  { unfold JS.nonDecimal. destruct r as [|p [|d ds]]; try reflexivity.
    destruct (c =? 48)%N; [|reflexivity].
    pose proof (Forall_inv (Forall_inv_tail Hd)) as Hp. cbn beta in Hp.
    unfold JS.isDigit in Hp. apply andb_true_iff in Hp.
    destruct Hp as [H1 H2]. apply N.leb_le in H1, H2.
    repeat match goal with
           | |- context [(?a =? ?b)%N] =>
               destruct (N.eqb_spec a b); [lia|]
           end. reflexivity. }
  unfold JS.unsignedDecimal.
  assert (JS.jsstring_eqb (c :: r) (JS.str "Infinity") = false) as ->.
  { unfold JS.jsstring_eqb. destruct (list_eq_dec _ _ _) as [E|]; [|reflexivity].
    cbn in E. inversion E. lia. }
  rewrite (spanDigits_all _ Hd). cbn [app length Z.of_nat JS.exponentPart].
  rewrite app_nil_r. unfold JS.roundMagnitude.
  change (0 - Z.of_nat (List.length (@nil N))) with 0.
  assert (inject_Z (JS.digitsValue (c :: r)) * Qpower 10 0
          = inject_Z (JS.digitsValue (c :: r)))%Q as ->.
  { unfold Qmult, inject_Z. cbn [Qnum Qden Qpower].
    rewrite Z.mul_1_r. reflexivity. }
  destruct (Qle_bool JS.overflowBound (inject_Z (JS.digitsValue (c :: r))))
    eqn:E; [|reflexivity].
  apply Qle_bool_iff in E. exfalso. apply (Qlt_not_le _ _ Hb E).
Qed.

Lemma str_app (a b : string) : JS.str (a ++ b) = (JS.str a ++ JS.str b)%list.
Proof. induction a as [|c a IH]; cbn; [reflexivity|]. rewrite IH. reflexivity. Qed.

Lemma uint_fold_pos (d : Decimal.uint) :
  forall acc : positive,
    fold_left (fun a c => 10 * a + JS.digitValue c)
      (JS.str (NilEmpty.string_of_uint d)) (Z.pos acc)
    = Z.pos (Pos.of_uint_acc d acc).
Proof.
  induction d; intros acc; cbn [NilEmpty.string_of_uint JS.str fold_left
                                  Pos.of_uint_acc];
    try reflexivity;
    match goal with
    | |- fold_left _ _ ?a = Z.pos (Pos.of_uint_acc _ ?b) =>
        replace a with (Z.pos b) by (vm_compute JS.digitValue; lia)
    end; apply IHd.
Qed.

Lemma uint_fold (d : Decimal.uint) :
  fold_left (fun a c => 10 * a + JS.digitValue c)
    (JS.str (NilEmpty.string_of_uint d)) 0
  = Z.of_N (Pos.of_uint d).
Proof.
  induction d; cbn [NilEmpty.string_of_uint JS.str fold_left Pos.of_uint];
    try reflexivity; try exact IHd;
    match goal with
    | |- fold_left _ _ ?a = Z.of_N (N.pos (Pos.of_uint_acc _ ?b)) =>
        change a with (Z.pos b)
    end; apply uint_fold_pos.
Qed.

Lemma uint_digits (d : Decimal.uint) :
  Forall (fun c => JS.isDigit c = true) (JS.str (NilEmpty.string_of_uint d)).
Proof.
  induction d; cbn [NilEmpty.string_of_uint JS.str];
    constructor; (reflexivity || assumption).
Qed.

(** The text [String(n)] of a number that is not negative: decimal digits
    that write [n]. *)
Lemma String_of_Z_digits (n : Z) :
  0 <= n ->
  JS.str (JS.String_of_Z n) <> []
  /\ Forall (fun c => JS.isDigit c = true) (JS.str (JS.String_of_Z n))
  /\ JS.digitsValue (JS.str (JS.String_of_Z n)) = n.
Proof.
  intros Hn. destruct n as [|p|p]; [| |lia].
  - repeat split; try discriminate. repeat constructor.
  - unfold JS.String_of_Z. cbn [Z.to_int NilZero.string_of_int].
    pose proof (DecimalPos.Unsigned.to_uint_nonnil p) as Hnil.
    assert (NilZero.string_of_uint (Pos.to_uint p)
            = NilEmpty.string_of_uint (Pos.to_uint p)) as ->
        by (destruct (Pos.to_uint p); [congruence | reflexivity ..]).
    split; [|split].
    + destruct (Pos.to_uint p); [congruence | discriminate ..].
    + apply uint_digits.
    + unfold JS.digitsValue. rewrite uint_fold, DecimalPos.Unsigned.of_to.
      reflexivity.
Qed.

(** ** The money and percent fields *)

Lemma parseNumber_is_finite (v : JS.jsstring) :
  exists q, Base.parseNumber v = JS.Finite q.
Proof.
  rewrite parseNumber_unfold.
  destruct (JS.StringToNumber (cleanedText v)); cbn; eexists; reflexivity.
Qed.

(** A negative result needs a minus sign in the input. *)
Lemma parseNumber_negative_has_minus (v : JS.jsstring) (q : Q) :
  Base.parseNumber v = JS.Finite q -> (q < 0)%Q -> In minusSign v.
Proof.
  intros E Hq. rewrite parseNumber_unfold in E.
  destruct (JS.StringToNumber (cleanedText v)) as [| | |q'] eqn:Hn;
    cbn in E; try (inversion E; subst q; discriminate Hq).
  inversion E; subst q'.
  destruct (StringToNumber_negative _ _ Hn Hq) as [r Hr].
  assert (In minusSign (JS.trim (cleanedText v))) as Hin
      by (rewrite Hr; left; reflexivity).
  apply trim_incl in Hin. apply filter_In in Hin. tauto.
Qed.

(** X2.  Whatever is typed, the text [formatInputMoney] stores holds only
    digits, dots, commas and dollar signs, and [parseNumber] reads it as
    a finite number that is not negative; the same holds for the digits
    and dots [formatInputPercent] stores. *)
Theorem stored_input_nonnegative :
  (forall v c,
      In c (Base.formatInputMoney v) ->
      JS.isDigit c = true \/ c = 46%N \/ c = 44%N \/ c = 36%N)
  /\ (forall v,
        exists q,
          Base.parseNumber (Base.formatInputMoney v) = JS.Finite q
          /\ (0 <= q)%Q)
  /\ (forall v,
        exists q,
          Base.parseNumber (Base.formatInputPercent v) = JS.Finite q
          /\ (0 <= q)%Q)
  /\ (forall v,
        Base.formatInputMoney (Base.formatInputMoney v)
        = Base.formatInputMoney v).
Proof.
  split; [|split; [|split]].
  - intros v c Hin. apply filter_In in Hin. destruct Hin as [_ H].
    rewrite !orb_true_iff, !N.eqb_eq in H. tauto.
  - intros v. destruct (parseNumber_is_finite (Base.formatInputMoney v))
      as [q E].
    exists q. split; [exact E|]. apply Qnot_lt_le. intros Hq.
    pose proof (parseNumber_negative_has_minus _ _ E Hq) as Hin.
    apply filter_In in Hin. destruct Hin as [_ H]. discriminate H.
  - intros v. destruct (parseNumber_is_finite (Base.formatInputPercent v))
      as [q E].
    exists q. split; [exact E|]. apply Qnot_lt_le. intros Hq.
    pose proof (parseNumber_negative_has_minus _ _ E Hq) as Hin.
    apply filter_In in Hin. destruct Hin as [_ H]. discriminate H.
  - intros v. unfold Base.formatInputMoney.
    induction v as [|c v IH]; [reflexivity|]. cbn [filter].
    destruct (JS.isDigit c || (c =? 46)%N || (c =? 44)%N || (c =? 36)%N)
      eqn:E; [|exact IH].
    cbn [filter]. rewrite E, IH. reflexivity.
Qed.

(** X3.  A text that, once dollar signs, commas and white space are
    taken out, is the decimal numeral of a whole number [n] from 0 to
    2^53 (the whole numbers a double holds exactly) is read as [n]:
    [parseNumber] undoes [String].  Beyond 2^53 the code reads the
    nearest double: 9007199254740993 is read as 9007199254740992. *)
Theorem parseNumber_of_numeral (v : JS.jsstring) (n : Z) :
  (0 <= n ->
   n <= 2 ^ 53 ->
   cleanedText v = JS.str (JS.String_of_Z n) ->
   Base.parseNumber v = JS.Finite (inject_Z n))
  /\ DblBase.parseNumber (JS.str "9007199254740993")
     = Dbl.ofZ 9007199254740992.
Proof.
  split; [|vm_compute; reflexivity].
  intros Hn Hn53 Hc.
  assert (inject_Z n < JS.overflowBound)%Q as Hb.
  { unfold JS.overflowBound. rewrite <- Zlt_Qlt.
    apply Z.le_lt_trans with (2 ^ 53); [exact Hn53 | reflexivity]. }
  rewrite parseNumber_unfold, Hc.
  destruct (String_of_Z_digits n Hn) as (Hne & Hd & Hv).
  rewrite (StringToNumber_digits _ Hne Hd) by (rewrite Hv; exact Hb).
  rewrite Hv. reflexivity.
Qed.

Lemma parseNumber_of_numeral_witness :
  Base.parseNumber (JS.str "$ 330,000") = JS.Finite (inject_Z 330000).
Proof.
  apply (proj1 (parseNumber_of_numeral (JS.str "$ 330,000") 330000)).
  - lia.
  - vm_compute. discriminate.
  - vm_compute. reflexivity.
Defined.

(** ** Dates *)

(** X4.  [addDaysUTC] moves a date by whole days: the day number grows by
    [days], the time within the day is kept, adding 0 days gives the same
    date, and adding [a] days and then [b] days is adding [a + b] days,
    across the ends of months and years. *)
Theorem addDaysUTC_composes (dt : JS.Date) (a b : Z) :
  Base.addDaysUTC (Base.addDaysUTC dt a) b = Base.addDaysUTC dt (a + b)
  /\ Base.addDaysUTC dt 0 = dt
  /\ JS.Day (JS.getTime (Base.addDaysUTC dt a)) = JS.Day (JS.getTime dt) + a
  /\ JS.TimeWithinDay (JS.getTime (Base.addDaysUTC dt a))
     = JS.TimeWithinDay (JS.getTime dt).
Proof.
  rewrite !addDaysUTC_time. cbn [JS.getTime].
  split; [f_equal; lia|].
  split; [destruct dt as [t]; cbn [JS.getTime]; f_equal; lia|].
  unfold JS.Day, JS.TimeWithinDay, JS.msPerDay.
  split.
  - rewrite Z.div_add by discriminate. reflexivity.
  - apply Z.mod_add. discriminate.
Qed.

(** X5.  For two dates outside the years 0 to 99,
    [daysBetweenInclusiveUTC] counts calendar days with both ends
    included, whatever the times of day: 0 when the end day is before
    the start day, 1 on the same day. *)
Theorem daysBetween_calendar_days (s e : JS.Date) :
  ~ (0 <= JS.getUTCFullYear s <= 99) ->
  ~ (0 <= JS.getUTCFullYear e <= 99) ->
  Base.daysBetweenInclusiveUTC s e
  = (if JS.Day (JS.getTime e) <? JS.Day (JS.getTime s) then 0
     else JS.Day (JS.getTime e) - JS.Day (JS.getTime s) + 1).
Proof.
  intros Hs He.
  unfold Base.daysBetweenInclusiveUTC, JS.getUTCFullYear, JS.getUTCMonth,
    JS.getUTCDate in *.
  rewrite (Date_UTC_components _ Hs), (Date_UTC_components _ He).
  assert (H0 : 0 < JS.msPerDay) by reflexivity.
  destruct (Z.ltb_spec (JS.Day (JS.getTime e) * JS.msPerDay)
              (JS.Day (JS.getTime s) * JS.msPerDay)) as [L | L];
    destruct (Z.ltb_spec (JS.Day (JS.getTime e)) (JS.Day (JS.getTime s)))
      as [L' | L']; try nia; try reflexivity.
  rewrite <- Z.mul_sub_distr_r, Z.div_mul by discriminate. reflexivity.
Qed.

Lemma daysBetween_calendar_days_witness :
  Base.daysBetweenInclusiveUTC
    (JS.mkDate (JS.Date_UTC 2025 11 31 + 3600000))
    (JS.mkDate (JS.Date_UTC 2026 0 2))
  = 3.
Proof.
  rewrite daysBetween_calendar_days.
  - vm_compute. reflexivity.
  - vm_compute. intros [_ H]. apply H. reflexivity.
  - vm_compute. intros [_ H]. apply H. reflexivity.
Defined.

Lemma DayWithinYear_range (t : Z) :
  0 <= JS.DayWithinYear t < JS.DaysInYear (JS.YearFromTime t).
Proof.
  unfold JS.DayWithinYear.
  pose proof (YearFromDay_spec (JS.Day t)) as H.
  fold (JS.YearFromTime t) in H. rewrite DayFromYear_succ in H. lia.
Qed.

Lemma DateFromTime_range (t : Z) : 1 <= JS.DateFromTime t <= 31.
Proof.
  pose proof (DayWithinYear_range t) as H.
  unfold JS.DateFromTime, JS.MonthFromTime, JS.InLeapYear.
  set (d := JS.DayWithinYear t) in *.
  destruct (Z.eqb_spec (JS.DaysInYear (JS.YearFromTime t)) 366) as [E | E].
  - repeat match goal with
           | |- context [if ?a <? ?b then _ else _] =>
               destruct (Z.ltb_spec a b)
           end; cbn [JS.monthStart]; lia.
  - assert (JS.DaysInYear (JS.YearFromTime t) = 365) as E'
        by (unfold JS.DaysInYear in *; destruct (_ || _); congruence).
    repeat match goal with
           | |- context [if ?a <? ?b then _ else _] =>
               destruct (Z.ltb_spec a b)
           end; cbn [JS.monthStart]; lia.
Qed.

Lemma split_no_sep (sep : N) (a : JS.jsstring) :
  ~ In sep a -> JS.split sep a = [a].
Proof.
  induction a as [|c a IH]; intros H; cbn; [reflexivity|].
  destruct (N.eqb_spec c sep) as [-> | _].
  - exfalso. apply H. left. reflexivity.
  - rewrite IH by (intros Hin; apply H; right; exact Hin). reflexivity.
Qed.

Lemma split_app_sep (sep : N) (a b : JS.jsstring) :
  ~ In sep a -> JS.split sep (a ++ sep :: b) = a :: JS.split sep b.
Proof.
  induction a as [|c a IH]; intros H; cbn.
  - rewrite N.eqb_refl. reflexivity.
  - destruct (N.eqb_spec c sep) as [-> | _].
    + exfalso. apply H. left. reflexivity.
    + rewrite IH by (intros Hin; apply H; right; exact Hin). reflexivity.
Qed.

Lemma digits_no_minus (ds : JS.jsstring) :
  Forall (fun c => JS.isDigit c = true) ds -> ~ In 45%N ds.
Proof.
  intros Hd Hin. rewrite Forall_forall in Hd.
  specialize (Hd _ Hin). discriminate Hd.
Qed.

(** [padStart(2, "0")] of the numeral of [n] is again a numeral of [n]. *)
Lemma padStart2_digits (n : Z) :
  0 <= n ->
  JS.str (JS.padStart2 (JS.String_of_Z n)) <> []
  /\ Forall (fun c => JS.isDigit c = true)
       (JS.str (JS.padStart2 (JS.String_of_Z n)))
  /\ JS.digitsValue (JS.str (JS.padStart2 (JS.String_of_Z n))) = n.
Proof.
  intros Hn. destruct (String_of_Z_digits n Hn) as (Hne & Hd & Hv).
  destruct (JS.String_of_Z n) as [|c [|c' r]] eqn:E.
  - exfalso. apply Hne. reflexivity.
  - cbn [JS.padStart2].
    change (JS.str (String "0" (String c "")))
      with (48%N :: JS.str (String c "")).
    split; [discriminate|]. split; [constructor; [reflexivity | exact Hd]|].
    exact Hv.
  - cbn [JS.padStart2]. auto.
Qed.

Lemma truncate_Z (k : Z) : JS.truncate (inject_Z k) = k.
Proof.
  unfold JS.truncate. destruct (Qle_bool 0 (inject_Z k));
    [apply Qfloor_Z | apply Qceiling_Z].
Qed.

Lemma truncate_comp (x y : Q) : (x == y)%Q -> JS.truncate x = JS.truncate y.
Proof.
  intros H. unfold JS.truncate.
  rewrite (Qle_bool_comp 0 x 0 y (Qeq_refl 0) H).
  rewrite (Qfloor_comp x y H), (Qceiling_comp x y H). reflexivity.
Qed.

Lemma falsy_Z (k : Z) : k <> 0 -> JS.falsy (JS.Finite (inject_Z k)) = false.
Proof.
  intros Hk. cbn. destruct (Qeq_bool (inject_Z k) 0) eqn:E; [|reflexivity].
  apply Qeq_bool_eq in E. exfalso. apply Hk.
  unfold Qeq in E. cbn in E. lia.
Qed.

Lemma numeral_reads_back (s : JS.jsstring) (n : Z) :
  s <> [] -> Forall (fun c => JS.isDigit c = true) s ->
  JS.digitsValue s = n -> 0 <= n <= 300000 ->
  JS.StringToNumber s = JS.Finite (inject_Z n).
Proof.
  intros Hne Hd Hv Hn. rewrite <- Hv.
  apply StringToNumber_digits; try assumption.
  rewrite Hv. unfold JS.overflowBound. rewrite <- Zlt_Qlt.
  apply Z.le_lt_trans with 300000; [lia | reflexivity].
Qed.

(** X6.  The text [ymd] prints for a date is read back by [dateFromInput]
    as the start of that date's day, for every date of the year 100 or
    later within the range of time values: the closing date field and
    the state behind it agree. *)
Theorem dateFromInput_ymd (dt : JS.Date) :
  100 <= JS.getUTCFullYear dt ->
  Z.abs (JS.getTime dt) <= 8640000000000000 ->
  Base.dateFromInput (JS.str (Base.ymd dt))
  = Some (JS.mkDate (JS.Day (JS.getTime dt) * JS.msPerDay)).
Proof.
  intros Hy Ht. destruct dt as [t]. cbn [JS.getTime] in *.
  unfold JS.getUTCFullYear in Hy. cbn [JS.getTime] in Hy.
  pose proof (MonthFromTime_range t) as Hm.
  pose proof (DateFromTime_range t) as Hd.
  pose proof (YearFromDay_spec (JS.Day t)) as Hs.
  fold (JS.YearFromTime t) in Hs.
  pose proof (Day_bounds t) as Hb.
  assert (- 100000000 <= JS.Day t <= 100000000) as Hday
      by (unfold JS.Day, JS.msPerDay in *; div_lia).
  assert (JS.YearFromTime t <= 300000) as Hy'.
  { destruct Hs as [Hs _]. unfold JS.DayFromYear in Hs. div_lia. }
  destruct (String_of_Z_digits (JS.YearFromTime t)) as (Yn & Yd & Yv); [lia|].
  destruct (padStart2_digits (JS.MonthFromTime t + 1)) as (Mn & Md & Mv);
    [lia|].
  destruct (padStart2_digits (JS.DateFromTime t)) as (Dn & Dd & Dv); [lia|].
  unfold Base.dateFromInput, Base.ymd, JS.getUTCFullYear, JS.getUTCMonth,
    JS.getUTCDate. cbn [JS.getTime].
  rewrite !str_app. change (JS.str "-") with [45%N]. cbn [app].
  rewrite (split_app_sep 45 _ _ (digits_no_minus _ Yd)).
  rewrite (split_app_sep 45 _ _ (digits_no_minus _ Md)).
  rewrite (split_no_sep 45 _ (digits_no_minus _ Dd)).
  cbn [map].
  rewrite (numeral_reads_back _ _ Yn Yd Yv) by lia.
  rewrite (numeral_reads_back _ _ Mn Md Mv) by lia.
  rewrite (numeral_reads_back _ _ Dn Dd Dv) by lia.
  rewrite !falsy_Z by lia. cbn [orb JS.Number_minus JS.Date_UTC_numbers].
  rewrite !truncate_Z.
  rewrite (truncate_comp _ (inject_Z (JS.MonthFromTime t)))
    by (rewrite inject_Z_plus; change (inject_Z 1) with 1%Q; ring).
  rewrite truncate_Z.
  rewrite Date_UTC_components by lia.
  unfold JS.TimeClip.
  assert ((Z.abs (JS.Day t * JS.msPerDay) <=? 8640000000000000) = true)
    as -> by (apply Z.leb_le; unfold JS.msPerDay; lia).
  reflexivity.
Qed.

Lemma dateFromInput_ymd_witness :
  Base.dateFromInput (JS.str (Base.ymd (JS.mkDate 1768039200000)))
  = Some (JS.mkDate (JS.Day 1768039200000 * JS.msPerDay)).
Proof.
  apply (dateFromInput_ymd (JS.mkDate 1768039200000)).
  - vm_compute. discriminate.
  - vm_compute. discriminate.
Defined.

Lemma split_length (sep : N) (s : JS.jsstring) :
  List.length (JS.split sep s) = S (count_occ N.eq_dec s sep).
Proof.
  induction s as [|c s IH]; [reflexivity|]. cbn [JS.split count_occ].
  destruct (N.eqb_spec c sep) as [-> | Hne].
  - destruct (N.eq_dec sep sep); [|congruence]. cbn. rewrite IH. reflexivity.
  - destruct (N.eq_dec c sep); [congruence|].
    rewrite <- IH. destruct (JS.split sep s); [discriminate IH | reflexivity].
Qed.

(** X7.  [dateFromInput] gives null for a text that starts with a minus
    sign (no year before 1 can be entered) and for a text with fewer than
    two minus signs (a part is missing); a date it does give is the start
    of a day within the range of time values. *)
Theorem dateFromInput_edges :
  (forall v, Base.dateFromInput (minusSign :: v) = None)
  /\ (forall v,
        (count_occ N.eq_dec v minusSign < 2)%nat ->
        Base.dateFromInput v = None)
  /\ (forall v dt,
        Base.dateFromInput v = Some dt ->
        JS.TimeWithinDay (JS.getTime dt) = 0
        /\ Z.abs (JS.getTime dt) <= 8640000000000000).
Proof.
  split; [|split].
  - intros v. unfold Base.dateFromInput, minusSign. cbn [JS.split N.eqb].
    rewrite Pos.eqb_refl. cbn [map].
    change (JS.StringToNumber []) with (JS.Finite 0).
    destruct (map JS.StringToNumber (JS.split 45 v)) as [|m [|d l]];
      reflexivity.
  - intros v Hc. unfold Base.dateFromInput.
    pose proof (split_length 45 v) as L. unfold minusSign in Hc.
    rewrite <- (length_map JS.StringToNumber) in L.
    destruct (map JS.StringToNumber (JS.split 45 v)) as [|y [|m [|d l]]];
      try reflexivity.
    cbn [List.length] in L. lia.
  - intros v dt. unfold Base.dateFromInput.
    destruct (map JS.StringToNumber (JS.split 45 v)) as [|y [|m [|d l]]];
      try discriminate.
    destruct (JS.falsy y || JS.falsy m || JS.falsy d); [discriminate|].
    destruct (JS.Date_UTC_numbers y (JS.Number_minus m 1) d) as [t|] eqn:E;
      [|discriminate].
    intros H. inversion H; subst dt. cbn [JS.getTime].
    unfold JS.Date_UTC_numbers in E.
    destruct y as [| | |qy]; try discriminate.
    destruct (JS.Number_minus m 1) as [| | |qm]; try discriminate.
    destruct d as [| | |qd]; try discriminate.
    unfold JS.TimeClip in E.
    destruct (Z.leb_spec
                (Z.abs (JS.Date_UTC (JS.truncate qy) (JS.truncate qm)
                          (JS.truncate qd))) 8640000000000000);
      [|discriminate].
    inversion E; subst t. split; [|assumption].
    unfold JS.Date_UTC, JS.MakeDate, JS.TimeWithinDay.
    rewrite Z.add_0_r. apply Z.mod_mul. discriminate.
Qed.

Lemma dateFromInput_edges_witness :
  Base.dateFromInput (JS.str "2026-01") = None.
Proof.
  destruct dateFromInput_edges as (_ & H & _).
  apply H. vm_compute. lia.
Defined.

(** ** Tax proration, continued *)

Lemma leapYear_DaysInYear (y : Z) :
  JS.DaysInYear y = if leapYear y then 366 else 365.
Proof.
  unfold JS.DaysInYear, leapYear.
  destruct (y mod 400 =? 0), (y mod 4 =? 0), (y mod 100 =? 0); reflexivity.
Qed.

(** X8.  Without the force-365 flag, the days-in-year field is the
    number of days from January 1 of the closing year to January 1 of the
    next year; with the flag it is 365 in every year. *)
Theorem daysInYear_is_year_length (closing : JS.Date) (tax : TaxSettings) :
  let y := JS.getUTCFullYear closing in
  (force365 tax = false ->
   daysInYear (Base.calcIndianaTaxProration closing tax)
   = JS.DayFromYear (y + 1) - JS.DayFromYear y)
  /\ (force365 tax = true ->
      daysInYear (Base.calcIndianaTaxProration closing tax) = 365).
Proof.
  intros y.
  destruct (proration_fields closing tax) as (_ & F2 & _).
  rewrite F2. fold y. split; intros ->; [|reflexivity].
  rewrite DayFromYear_succ, leapYear_DaysInYear. lia.
Qed.

Lemma daysInYear_is_year_length_witness :
  daysInYear
    (Base.calcIndianaTaxProration (JS.mkDate (JS.Date_UTC 2024 5 1))
       (mkTaxSettings 3660 false 0 false 0 day_before false))
  = JS.DayFromYear (2024 + 1) - JS.DayFromYear 2024.
Proof.
  destruct (daysInYear_is_year_length (JS.mkDate (JS.Date_UTC 2024 5 1))
              (mkTaxSettings 3660 false 0 false 0 day_before false))
    as [H _].
  exact (H eq_refl).
Defined.








(** X11.  When both installments are marked paid and their amounts,
    clamped at zero, reach the prior-year tax clamped at zero, the unpaid
    prior-year balance is 0 (never negative) and the total debit is the
    accrual alone. *)
Theorem paid_in_full_leaves_accrual (closing : JS.Date) (tax : TaxSettings) :
  springPaid tax = true -> fallPaid tax = true ->
  (Qmax (priorYearTax tax) 0
   <= Qmax (springPaidAmount tax) 0 + Qmax (fallPaidAmount tax) 0)%Q ->
  let b := Base.calcIndianaTaxProration closing tax in
  (unpaidPriorYear b == 0)%Q /\ (totalDebit b == accruedThisYear b)%Q.
Proof.
  intros Hs Hf Hfull b.
  destruct (proration_fields closing tax)
    as (_ & _ & _ & _ & _ & F6 & F7 & F8).
  fold b in F6, F7, F8. rewrite Hs, Hf in F6.
  assert (unpaidPriorYear b == 0)%Q as U.
  { rewrite F7. apply Q.max_r. rewrite F6. lra. }
  split; [exact U|]. rewrite F8, U. ring.
Qed.

Lemma paid_in_full_leaves_accrual_witness :
  (unpaidPriorYear
     (Base.calcIndianaTaxProration (JS.mkDate (JS.Date_UTC 2026 5 15))
        (mkTaxSettings 3200 true 1600 true 1700 day_before false)) == 0)%Q.
Proof.
  apply (paid_in_full_leaves_accrual (JS.mkDate (JS.Date_UTC 2026 5 15))
           (mkTaxSettings 3200 true 1600 true 1700 day_before false));
    [reflexivity | reflexivity | vm_compute; discriminate].
Defined.

(** X12.  In the form, an installment amount that reads as 0 stands for
    half of the prior-year tax: with both installments marked paid and
    both amount fields reading 0, the paid total is the whole prior-year
    tax (clamped at zero) and nothing of it stays unpaid. *)
Theorem blank_installments_are_halves (st : Base.App.State) :
  Base.App.springPaid st = true -> Base.App.fallPaid st = true ->
  (Base.App.springPaidAmount st == 0)%Q ->
  (Base.App.fallPaidAmount st == 0)%Q ->
  (paidTotal (Base.App.tax st) == Qmax (Base.App.priorYearTax st) 0)%Q
  /\ (unpaidPriorYear (Base.App.tax st) == 0)%Q.
Proof.
  intros Hs Hf Es Ef.
  destruct (proration_fields (Base.App.closingUTC st) (Base.App.taxSettings st))
    as (_ & _ & _ & _ & _ & F6 & F7 & _).
  fold (Base.App.tax st) in F6, F7.
  unfold Base.App.taxSettings in F6, F7.
  cbn [priorYearTax springPaid springPaidAmount fallPaid fallPaidAmount]
    in F6, F7.
  rewrite Hs, Hf in F6. unfold JS.or_else, JS.Math_max in F6.
  apply Qeq_bool_iff in Es, Ef. rewrite Es, Ef in F6.
  set (p := Base.App.priorYearTax st) in *.
  change (p / 2)%Q with (p * (1 # 2))%Q in F6.
  assert (Qmax (Qmax (p * (1 # 2)) 0) 0 == Qmax p 0 * (1 # 2))%Q as H.
  { rewrite (Q.max_l (Qmax (p * (1 # 2)) 0) 0) by apply Q.le_max_r.
    destruct (Q.max_spec (p * (1 # 2)) 0) as [[? E] | [? E]],
             (Q.max_spec p 0) as [[? E'] | [? E']];
      rewrite E, E'; lra. }
  assert (paidTotal (Base.App.tax st) == Qmax p 0)%Q as P.
  { rewrite F6, H. ring. }
  split; [exact P|].
  rewrite F7, P. apply Q.max_r. lra.
Qed.

Lemma blank_installments_are_halves_witness :
  (unpaidPriorYear (Base.App.tax
     {| Base.App.salePriceInput := JS.str "330,000";
        Base.App.closingUTC := JS.mkDate (JS.Date_UTC 2026 5 15);
        Base.App.commissionType := pct;
        Base.App.commissionPct := JS.str "6";
        Base.App.commissionFlatInput := JS.str "0";
        Base.App.mortgagePayoffInput := JS.str "0";
        Base.App.sellerConcessionsInput := JS.str "0";
        Base.App.otherCosts := [];
        Base.App.transactionType := with_loan;
        Base.App.countyType := Base.marion;
        Base.App.useSimplifile := true;
        Base.App.autoOwnerPolicy := true;
        Base.App.ownerPolicyChoice := Mid;
        Base.App.ownerPolicyPremiumInput := JS.str "0";
        Base.App.includeSettlementFee := true;
        Base.App.includeCPL := true;
        Base.App.includeTIEFF := true;
        Base.App.includeDeedRecording := true;
        Base.App.includeTransferFeeSDF := true;
        Base.App.priorYearTaxInput := JS.str "3,200";
        Base.App.springPaid := true;
        Base.App.fallPaid := true;
        Base.App.springPaidInput := [];
        Base.App.fallPaidInput := JS.str "0";
        Base.App.prorateThrough := day_before;
        Base.App.force365 := false |}) == 0)%Q.
Proof.
  apply blank_installments_are_halves;
    try reflexivity; vm_compute; reflexivity.
Defined.

(** ** The premium lookup, continued *)

Lemma table_ordered : linesOrdered OWNER_POLICY_RANGE_CSV = true.
Proof. vm_compute. reflexivity. Qed.

Lemma line_band_range (lo hi mn mx : Z) :
  In (lo, hi, mn, mx) OWNER_POLICY_RANGE_CSV ->
  209 <= mn /\ mn <= mx /\ mx <= 2728.
Proof.
  intros Hin. pose proof table_ordered as H. unfold linesOrdered in H.
  rewrite forallb_forall in H. specialize (H _ Hin). cbn beta iota in H.
  rewrite !andb_true_iff in H. destruct H as [[H1 H2] _].
  apply Z.leb_le in H1, H2.
  destruct (chained_lo_ge _ _ _ _ _ _ (proj1 table_chained) Hin)
    as (_ & _ & H3).
  lia.
Qed.

Lemma lines_in_order (lo1 hi1 mn1 mx1 lo2 hi2 mn2 mx2 : Z) :
  In (lo1, hi1, mn1, mx1) OWNER_POLICY_RANGE_CSV ->
  In (lo2, hi2, mn2, mx2) OWNER_POLICY_RANGE_CSV ->
  lo1 < lo2 -> hi1 < lo2 /\ mn1 <= mn2 /\ mx1 <= mx2.
Proof.
  intros H1 H2 Hlt. pose proof table_ordered as H. unfold linesOrdered in H.
  rewrite forallb_forall in H. specialize (H _ H1). cbn beta iota in H.
  rewrite !andb_true_iff in H. destruct H as [_ H].
  rewrite forallb_forall in H. specialize (H _ H2). cbn beta iota in H.
  apply Z.ltb_lt in Hlt. rewrite Hlt in H. cbn [implb] in H.
  rewrite !andb_true_iff in H. destruct H as [[A B] C].
  apply Z.ltb_lt in A. apply Z.leb_le in B, C. lia.
Qed.

(** The value [chosen] takes on a line of the table. *)
Lemma chosen_on_line (mn mx : Z) (c : OwnerPremiumChoice) :
  (Base.round2
     match c with
     | Low => inject_Z mn
     | High => inject_Z mx
     | Mid => Base.round2 ((inject_Z mn + inject_Z mx) / 2)
     end
   == match c with
      | Low => inject_Z mn
      | High => inject_Z mx
      | Mid => (inject_Z mn + inject_Z mx) / 2
      end)%Q.
Proof.
  destruct c.
  - rewrite round2_idempotent.
    rewrite (round2_comp _ (inject_Z (50 * (mn + mx)) / 100)).
    + rewrite round2_cents. rewrite inject_Z_mult, inject_Z_plus. field.
    + rewrite inject_Z_mult, inject_Z_plus. field.
  - apply round2_int.
  - apply round2_int.
Qed.

(** The row the table mode works with is a row of the table. *)
Lemma table_mode_row (amt : Q) :
  In match find (fun r => Qle_bool (Row.lo r) amt && Qle_bool amt (Row.hi r))
             Base.OWNER_POLICY_TABLE with
     | Some r => r
     | None => nth 0 Base.OWNER_POLICY_TABLE (Row.mk 0 0 0 0)
     end Base.OWNER_POLICY_TABLE.
Proof.
  destruct (find _ _) as [r|] eqn:F.
  - apply find_some in F. apply F.
  - left. reflexivity.
Qed.

Lemma overflow_at_least (a : Q) :
  (1000000 < a)%Q -> (2750 <= overflowPremium a)%Q.
Proof.
  intros Ha. unfold overflowPremium, baseCeilingPremium, increment.
  assert (0 < Qceiling ((a - ceiling) / unitSize)) as H.
  { rewrite Zlt_Qlt. eapply Qlt_le_trans; [|apply Qle_ceiling].
    change (inject_Z 0) with 0%Q. unfold ceiling, unitSize.
    assert ((a - 1000000) / 10000 == (a - 1000000) * (1 # 10000))%Q as ->
        by reflexivity. lra. }
  assert (1 <= Qceiling ((a - ceiling) / unitSize)) as H' by lia.
  rewrite Zle_Qle in H'. change (inject_Z 1) with 1%Q in H'. lra.
Qed.

(** X13.  For every amount and every choice, [min <= chosen <= max], and
    [min] is 209 or more: the chosen premium is never outside the band
    the lookup reports, also for an amount between two rows or below
    zero. *)
Theorem premium_within_band (a : Q) (c : OwnerPremiumChoice) :
  let p := Base.calcOwnersPolicyPremium a c in
  (209 <= Premium.min p)%Q /\ (Premium.min p <= Premium.chosen p)%Q
  /\ (Premium.chosen p <= Premium.max p)%Q.
Proof.
  intros p. subst p. unfold Base.calcOwnersPolicyPremium.
  set (amt := JS.Math_max (JS.or_zero a) 0).
  destruct (JS.Qlt_bool 1000000 amt) eqn:E.
  - cbn [Premium.min Premium.max Premium.chosen].
    apply Qlt_bool_iff in E. pose proof (overflow_at_least amt E) as H.
    unfold overflowPremium, baseCeilingPremium, increment, ceiling, unitSize,
      JS.Math_ceil in *.
    repeat split; lra.
  - pose proof (table_mode_row amt) as Hin.
    set (row := match find _ Base.OWNER_POLICY_TABLE with
                | Some r => r
                | None => _
                end) in *.
    destruct (row_of_table row Hin) as (lo & hi & mn & mx & Hl & -> & _ & _).
    destruct (line_band_range _ _ _ _ Hl) as (B1 & B2 & B3).
    cbn [Premium.min Premium.max Premium.chosen Row.min Row.max rowOfLine].
    rewrite (chosen_on_line mn mx c).
    rewrite Zle_Qle in B1, B2. change (inject_Z 209) with 209%Q in B1.
    assert ((inject_Z mn + inject_Z mx) / 2
            == (inject_Z mn + inject_Z mx) * (1 # 2))%Q as E2 by reflexivity.
    destruct c; repeat split; try rewrite E2; lra.
Qed.

Lemma clamped_amount_zero (a : Q) :
  (a <= 0)%Q -> JS.Math_max (JS.or_zero a) 0 = 0%Q.
Proof.
  intros Ha. unfold JS.Math_max, JS.or_zero, JS.or_else.
  destruct (Qeq_bool a 0) eqn:E; [reflexivity|].
  unfold Qmax, GenericMinMax.gmax.
  destruct (a ?= 0)%Q eqn:C; try reflexivity.
  - apply Qeq_alt in C. apply Qeq_bool_iff in C. congruence.
  - apply Qgt_alt in C. exfalso. apply (Qlt_not_le _ _ C Ha).
Qed.

(** X14.  An amount of zero or less is looked up as 0: the result is the
    result for 0, in the first row with the band 209 to 220. *)
Theorem premium_of_nonpositive_amount (a : Q) (c : OwnerPremiumChoice) :
  (a <= 0)%Q ->
  Base.calcOwnersPolicyPremium a c = Base.calcOwnersPolicyPremium 0 c
  /\ Premium.min (Base.calcOwnersPolicyPremium a c) = 209%Q
  /\ Premium.max (Base.calcOwnersPolicyPremium a c) = 220%Q
  /\ Premium.mode (Base.calcOwnersPolicyPremium a c) = table.
Proof.
  intros Ha.
  assert (Base.calcOwnersPolicyPremium a c = Base.calcOwnersPolicyPremium 0 c)
    as E.
  { unfold Base.calcOwnersPolicyPremium.
    rewrite (clamped_amount_zero a Ha).
    rewrite (clamped_amount_zero 0) by discriminate. reflexivity. }
  split; [exact E|]. rewrite E.
  destruct c; repeat split; vm_compute; reflexivity.
Qed.

Lemma premium_of_nonpositive_amount_witness :
  Premium.min (Base.calcOwnersPolicyPremium (- 250000) High) = 209%Q.
Proof.
  destruct (premium_of_nonpositive_amount (- 250000) High) as (_ & H & _);
    [discriminate | exact H].
Defined.

(** The lookup of a whole amount from 0 to 1,000,000, on its line. *)
Lemma lookup_whole_amount (n : Z) (c : OwnerPremiumChoice) :
  0 <= n <= 1000000 ->
  exists lo hi mn mx,
    In (lo, hi, mn, mx) OWNER_POLICY_RANGE_CSV /\ lo <= n <= hi
    /\ (Premium.chosen (Base.calcOwnersPolicyPremium (inject_Z n) c)
        == match c with
           | Low => inject_Z mn
           | High => inject_Z mx
           | Mid => (inject_Z mn + inject_Z mx) / 2
           end)%Q.
Proof.
  intros Hn. destruct table_chained as [Hc He].
  destruct (chained_covers _ 0 n Hc) as ([[[lo hi] mn] mx] & Hin & Hrow);
    [rewrite He; lia|].
  exists lo, hi, mn, mx. split; [exact Hin|].
  split; [unfold inRow in Hrow; cbn in Hrow; rewrite <- !Zle_Qle in Hrow;
          exact Hrow|].
  rewrite (lookup_table_row (inject_Z n) (lo, hi, mn, mx) c);
    [| |exact Hin|exact Hrow].
  - cbn [Premium.chosen Row.min Row.max rowOfLine]. apply chosen_on_line.
  - change 0%Q with (inject_Z 0). change 1000000%Q with (inject_Z 1000000).
    rewrite <- !Zle_Qle. exact Hn.
Qed.

Lemma premium_monotone_from_zero (n m : Z) (c : OwnerPremiumChoice) :
  0 <= n <= m ->
  (Premium.chosen (Base.calcOwnersPolicyPremium (inject_Z n) c)
   <= Premium.chosen (Base.calcOwnersPolicyPremium (inject_Z m) c))%Q.
Proof.
  intros Hnm.
  destruct (Z_le_gt_dec m 1000000) as [Hm | Hm];
    [|destruct (Z_le_gt_dec n 1000000) as [Hn | Hn]].
  - destruct (lookup_whole_amount n c) as (lo1 & hi1 & mn1 & mx1 & I1 & R1 & E1);
      [lia|].
    destruct (lookup_whole_amount m c) as (lo2 & hi2 & mn2 & mx2 & I2 & R2 & E2);
      [lia|].
    rewrite E1, E2.
    assert (mn1 <= mn2 /\ mx1 <= mx2) as [Hmn Hmx].
    { destruct (Z.lt_trichotomy lo1 lo2) as [L | [L | L]].
      - destruct (lines_in_order _ _ _ _ _ _ _ _ I1 I2 L). lia.
      - assert (rowOfLine (lo1, hi1, mn1, mx1) = rowOfLine (lo2, hi2, mn2, mx2))
          as Er.
        { assert (inRow (inject_Z n) (rowOfLine (lo1, hi1, mn1, mx1))) as In1
              by (unfold inRow; cbn; rewrite <- !Zle_Qle; lia).
          assert (inRow (inject_Z n) (rowOfLine (lo2, hi2, mn2, mx2))) as In2.
          { unfold inRow; cbn; rewrite <- !Zle_Qle.
            destruct (chained_lo_ge _ _ _ _ _ _ (proj1 table_chained) I2).
            split; [lia|].
            destruct (Z_le_gt_dec n hi2); [assumption|].
            (* two lines with one start: the longer one holds the end of
               the shorter one, which therefore is its own line *)
            exfalso.
            pose proof (find_chained _ 0 (inject_Z hi2)
                          (lo1, hi1, mn1, mx1) (proj1 table_chained) I1) as F1.
            pose proof (find_chained _ 0 (inject_Z hi2)
                          (lo2, hi2, mn2, mx2) (proj1 table_chained) I2) as F2.
            rewrite F1 in F2
              by (unfold inRow; cbn; rewrite <- !Zle_Qle; lia).
            assert (Some (rowOfLine (lo1, hi1, mn1, mx1))
                    = Some (rowOfLine (lo2, hi2, mn2, mx2))) as Eq
                by (apply F2; unfold inRow; cbn; rewrite <- !Zle_Qle; lia).
            inversion Eq as [[A B C D]].
            apply inject_Z_injective in B. lia. }
          pose proof (find_chained _ 0 _ _ (proj1 table_chained) I1 In1) as F1.
          pose proof (find_chained _ 0 _ _ (proj1 table_chained) I2 In2) as F2.
          congruence. }
        inversion Er as [[A B C D]].
        apply inject_Z_injective in C, D. lia.
      - destruct (lines_in_order _ _ _ _ _ _ _ _ I2 I1 L). lia. }
    rewrite Zle_Qle in Hmn, Hmx.
    assert (forall x y : Q, ((x + y) / 2 == (x + y) * (1 # 2))%Q) as E
        by (intros; reflexivity).
    destruct c; rewrite ?E; lra.
  - destruct (lookup_whole_amount n c) as (lo1 & hi1 & mn1 & mx1 & I1 & R1 & E1);
      [lia|].
    destruct (line_band_range _ _ _ _ I1) as (B1 & B2 & B3).
    assert (1000000 < inject_Z m)%Q as Hm'
        by (change 1000000%Q with (inject_Z 1000000); rewrite <- Zlt_Qlt; lia).
    rewrite E1, (lookup_overflow _ c Hm'). cbn [Premium.chosen].
    pose proof (overflow_at_least _ Hm') as Ho.
    rewrite Zle_Qle in B2, B3. change (inject_Z 2728) with 2728%Q in B3.
    assert (forall x y : Q, ((x + y) / 2 == (x + y) * (1 # 2))%Q) as E
        by (intros; reflexivity).
    destruct c; rewrite ?E; lra.
  - assert (1000000 < inject_Z n)%Q as Hn'
        by (change 1000000%Q with (inject_Z 1000000); rewrite <- Zlt_Qlt; lia).
    assert (1000000 < inject_Z m)%Q as Hm'
        by (change 1000000%Q with (inject_Z 1000000); rewrite <- Zlt_Qlt; lia).
    rewrite (lookup_overflow _ c Hn'), (lookup_overflow _ c Hm').
    cbn [Premium.chosen]. apply overflow_monotone. rewrite <- Zle_Qle. lia.
Qed.

(** X15.  On whole-dollar amounts the chosen premium never decreases as
    the amount grows, for each choice, from below zero through the table
    and past the ceiling into the overflow formula. *)
Theorem premium_monotone_whole_amounts (n m : Z) (c : OwnerPremiumChoice) :
  n <= m ->
  (Premium.chosen (Base.calcOwnersPolicyPremium (inject_Z n) c)
   <= Premium.chosen (Base.calcOwnersPolicyPremium (inject_Z m) c))%Q.
Proof.
  intros Hnm.
  assert (forall k, k <= 0 ->
            Base.calcOwnersPolicyPremium (inject_Z k) c
            = Base.calcOwnersPolicyPremium (inject_Z 0) c) as Hclamp.
  { intros k Hk. unfold Base.calcOwnersPolicyPremium.
    rewrite (clamped_amount_zero (inject_Z k))
      by (change 0%Q with (inject_Z 0); rewrite <- Zle_Qle; exact Hk).
    rewrite (clamped_amount_zero (inject_Z 0)) by discriminate.
    reflexivity. }
  destruct (Z_le_gt_dec n 0) as [Hn | Hn].
  - rewrite (Hclamp n Hn).
    destruct (Z_le_gt_dec m 0) as [Hm | Hm].
    + rewrite (Hclamp m Hm). apply Qle_refl.
    + apply premium_monotone_from_zero. lia.
  - apply premium_monotone_from_zero. lia.
Qed.

Lemma premium_monotone_whole_amounts_witness :
  (Premium.chosen (Base.calcOwnersPolicyPremium (inject_Z 50000) Mid)
   <= Premium.chosen (Base.calcOwnersPolicyPremium (inject_Z 50001) Mid))%Q.
Proof.
  apply premium_monotone_whole_amounts. lia.
Defined.

(** ** The seller title fees, continued *)

Lemma wholeCents_round2 (q : Q) :
  wholeCents q = true -> (Base.round2 q == q)%Q.
Proof.
  unfold wholeCents. intros H. apply Qeq_bool_eq in H.
  rewrite (round2_comp q _ H), round2_cents. symmetry. exact H.
Qed.

Lemma sumAmounts_app (a b : list TitleFeeItem) :
  (sumAmounts (a ++ b) == sumAmounts a + sumAmounts b)%Q.
Proof.
  unfold sumAmounts. induction a as [|x a IH]; cbn [app fold_right].
  - ring.
  - rewrite IH. ring.
Qed.

(** The running sum of the source, from any start. *)
Lemma running_sum (l : list TitleFeeItem) (acc : Q) :
  (fold_left (fun sum x => sum + JS.or_zero (amount x)) l acc
   == acc + sumAmounts l)%Q.
Proof.
  revert acc. induction l as [|x l IH]; intros acc; cbn [fold_left].
  - unfold sumAmounts. cbn. ring.
  - rewrite IH, or_zero_eq. unfold sumAmounts. cbn [fold_right]. ring.
Qed.

Lemma sum_of_whole_cents (l : list TitleFeeItem) :
  forallb (fun x => wholeCents (amount x)) l = true ->
  (sumAmounts (map (fun x => mkItem (label x) (Base.round2 (amount x))) l)
   == sumAmounts l)%Q
  /\ exists k : Z, (sumAmounts l == inject_Z k / 100)%Q.
Proof.
  induction l as [|x l IH]; intros H.
  - split; [reflexivity|]. exists 0. reflexivity.
  - cbn [forallb] in H. apply andb_true_iff in H. destruct H as [Hx Hl].
    destruct (IH Hl) as [E [k Ek]]. split.
    + unfold sumAmounts in *. cbn [map fold_right amount].
      rewrite E, (wholeCents_round2 _ Hx). reflexivity.
    + exists (Qfloor (amount x * 100) + k).
      unfold wholeCents in Hx. apply Qeq_bool_eq in Hx.
      unfold sumAmounts in *. cbn [fold_right].
      rewrite Ek, inject_Z_plus. rewrite Hx at 1. field.
Qed.

(** The total of a list of lines of which only the first few may have a
    fraction of a cent. *)
Lemma total_of_parts (P rest : list TitleFeeItem) :
  forallb (fun x => wholeCents (amount x)) rest = true ->
  (Base.round2
     (fold_left (fun sum x => sum + JS.or_zero (amount x)) (P ++ rest) 0)
   == Base.round2 (sumAmounts P) + sumAmounts rest)%Q.
Proof.
  intros H. destruct (sum_of_whole_cents rest H) as [_ [k Ek]].
  rewrite (round2_comp _ (sumAmounts P + inject_Z k / 100)).
  - rewrite round2_shift, Ek. reflexivity.
  - rewrite running_sum, sumAmounts_app, Ek. ring.
Qed.

(** The lines shown add up to the total of a list of that kind, when the
    first part is one line or none. *)
Lemma lines_add_up (P rest : list TitleFeeItem) :
  (List.length P <= 1)%nat ->
  forallb (fun x => wholeCents (amount x)) rest = true ->
  (Base.round2
     (fold_left (fun sum x => sum + JS.or_zero (amount x)) (P ++ rest) 0)
   == sumAmounts
        (map (fun x => mkItem (label x) (Base.round2 (amount x)))
           (P ++ rest)))%Q.
Proof.
  intros HP H. rewrite (total_of_parts P rest H).
  rewrite map_app, sumAmounts_app.
  rewrite (proj1 (sum_of_whole_cents rest H)).
  apply Qplus_inj_r.
  destruct P as [|x [|y P]]; [| |cbn in HP; lia].
  - apply (round2_int 0).
  - unfold sumAmounts. cbn [map fold_right amount].
    rewrite (round2_comp (amount x + 0) (amount x)) by ring. ring.
Qed.

Lemma premium_line_nonneg (p : Q) :
  (0 <= Base.round2
          (sumAmounts
             (if JS.Qlt_bool 0 p
              then [mkItem "Owner’s title policy (estimate)" p] else [])))%Q.
Proof.
  apply Qle_trans with (Base.round2 (inject_Z 0));
    [rewrite round2_int; apply Qle_refl | apply round2_monotone].
  change (inject_Z 0) with 0%Q.
  destruct (JS.Qlt_bool 0 p) eqn:E; unfold sumAmounts; cbn [fold_right amount].
  - apply Qlt_bool_iff in E. lra.
  - apply Qle_refl.
Qed.

(** X16.  In the base variant, for a premium of whole cents up to a
    billion (the automatic premium always is one), the lines shown add up
    to the total shown: each line is rounded to cents on its own, the
    total is rounded once, and the two agree.  The total is never below
    the 325 of the two processing fees.  For a premium typed with a
    fraction of a cent the code can show a total a cent off its lines:
    with every line included, 209.765 gives the lines 209.77, 390, 175,
    150, 25, 5, 35, 4.25 and 30, which add up to 1024.02, and the total
    1024.01. *)
Theorem title_fee_lines_add_up (s : Base.TitleFeeSettings) :
  (wholeCents (Base.ownerPolicyPremium s) = true ->
   (Base.ownerPolicyPremium s <= 1000000000)%Q ->
   (total (Base.calcIhtSellerTitleFees s)
    == sumAmounts (items (Base.calcIhtSellerTitleFees s)))%Q)
  /\ (325 <= total (Base.calcIhtSellerTitleFees s))%Q
  /\ (let r :=
        DblBase.calcIhtSellerTitleFees (DblBase_allLines (JS.str "209.765")) in
      map Dbl.amount (Dbl.items r)
      = map Dbl.ofQ [209.77; 390; 175; 150; 25; 5; 35; 4.25; 30]%Q
      /\ Dbl.total r = Dbl.ofQ 1024.01).
Proof.
  split; [|split; [|cbv zeta; split; vm_compute; reflexivity]];
    destruct s as [tt ct us p iset icpl itieff ideed isdf];
    unfold Base.calcIhtSellerTitleFees;
    cbn [total items Base.transactionType Base.countyType Base.useSimplifile
         Base.ownerPolicyPremium Base.includeSettlementFee Base.includeCPL
         Base.includeTIEFF Base.includeDeedRecording
         Base.includeTransferFeeSDF].
  - intros _ _. apply lines_add_up.
    + destruct (JS.Qlt_bool 0 p); cbn; lia.
    + destruct tt, ct, us, iset, icpl, itieff, ideed, isdf;
        vm_compute; reflexivity.
  - rewrite total_of_parts
      by (destruct tt, ct, us, iset, icpl, itieff, ideed, isdf;
          vm_compute; reflexivity).
    pose proof (premium_line_nonneg p) as H0.
    match goal with
    | |- (_ <= _ + sumAmounts ?r)%Q =>
        assert (325 <= sumAmounts r)%Q as H1
            by (destruct tt, ct, us, iset, icpl, itieff, ideed, isdf;
                vm_compute; discriminate)
    end.
    lra.
Qed.

Lemma title_fee_lines_add_up_witness :
  let s :=
    Base.mkTitleFeeSettings with_loan Base.marion true 214.5
      true true true true true in
  (total (Base.calcIhtSellerTitleFees s)
   == sumAmounts (items (Base.calcIhtSellerTitleFees s)))%Q.
Proof.
  intros s. apply (proj1 (title_fee_lines_add_up s)).
  - vm_compute. reflexivity.
  - vm_compute. discriminate.
Defined.

Ltac county_fields :=
  cbn [total items County.transactionType County.county County.useSimplifile
       County.ownerPolicyPremium County.includeSettlementFee
       County.includeCPL County.includeTIEFF County.includeDeedRecording
       County.includeTransferFeeSDF].

Ltac base_fields :=
  cbn [total items Base.transactionType Base.countyType Base.useSimplifile
       Base.ownerPolicyPremium Base.includeSettlementFee Base.includeCPL
       Base.includeTIEFF Base.includeDeedRecording
       Base.includeTransferFeeSDF].

(** X17.  In the county-schedule variant too, for a premium of whole
    cents up to a billion, the lines shown add up to the total shown, for
    every county text; the total is never below 325, and never below 400
    where the Valparaiso schedule applies.  For a premium typed with a
    fraction of a cent the code can show a total a cent off its lines:
    in Marion county with every line included, 256.025 gives the lines
    256.02, 195, 175, 150, 25, 5, 35, 4.25 and 30, which add up to
    875.27, and the total 875.28. *)
Theorem County_title_fee_lines_add_up (s : County.TitleFeeSettings) :
  (wholeCents (County.ownerPolicyPremium s) = true ->
   (County.ownerPolicyPremium s <= 1000000000)%Q ->
   (total (County.calcIhtSellerTitleFees s)
    == sumAmounts (items (County.calcIhtSellerTitleFees s)))%Q)
  /\ (325 <= total (County.calcIhtSellerTitleFees s))%Q
  /\ (County.getFeeScheduleForCounty (County.county s)
        = County.VALPO_SCHEDULE ->
      (400 <= total (County.calcIhtSellerTitleFees s))%Q)
  /\ (let r :=
        DblCounty.calcIhtSellerTitleFees
          (DblCounty_allLines (JS.str "Marion") (JS.str "256.025")) in
      map Dbl.amount (Dbl.items r)
      = map Dbl.ofQ [256.02; 195; 175; 150; 25; 5; 35; 4.25; 30]%Q
      /\ Dbl.total r = Dbl.ofQ 875.28).
Proof.
  split; [|split; [|split; [|cbv zeta; split; vm_compute; reflexivity]]];
    destruct s as [tt c us p iset icpl itieff ideed isdf];
    unfold County.calcIhtSellerTitleFees; county_fields;
    change County.round2 with Base.round2;
    set (m := JS.jsstring_eqb (JS.toLowerCase (JS.trim c)) (JS.str "marion")).
  - intros _ _. apply lines_add_up.
    + destruct (JS.Qlt_bool 0 p); cbn; lia.
    + destruct (County_schedule_cases c) as [E | E]; rewrite E;
        destruct tt, m, us, iset, icpl, itieff, ideed, isdf;
        vm_compute; reflexivity.
  - rewrite total_of_parts
      by (destruct (County_schedule_cases c) as [E | E]; rewrite E;
          destruct tt, m, us, iset, icpl, itieff, ideed, isdf;
          vm_compute; reflexivity).
    pose proof (premium_line_nonneg p) as H0.
    match goal with
    | |- (_ <= _ + sumAmounts ?r)%Q =>
        assert (325 <= sumAmounts r)%Q as H1
            by (destruct (County_schedule_cases c) as [E | E]; rewrite E;
                destruct tt, m, us, iset, icpl, itieff, ideed, isdf;
                vm_compute; discriminate)
    end.
    lra.
  - intros E. rewrite E.
    rewrite total_of_parts
      by (destruct tt, m, us, iset, icpl, itieff, ideed, isdf;
          vm_compute; reflexivity).
    pose proof (premium_line_nonneg p) as H0.
    match goal with
    | |- (_ <= _ + sumAmounts ?r)%Q =>
        assert (400 <= sumAmounts r)%Q as H1
            by (destruct tt, m, us, iset, icpl, itieff, ideed, isdf;
                vm_compute; discriminate)
    end.
    lra.
Qed.

Lemma County_title_fee_lines_add_up_witness :
  let s :=
    County.mkTitleFeeSettings cash (JS.str "Porter") false 214.5
      true false false false false in
  (total (County.calcIhtSellerTitleFees s)
   == sumAmounts (items (County.calcIhtSellerTitleFees s)))%Q
  /\ (400 <= total (County.calcIhtSellerTitleFees s))%Q.
Proof.
  intros s.
  destruct (County_title_fee_lines_add_up s) as (H1 & _ & H3 & _).
  split.
  - apply H1; [vm_compute; reflexivity | vm_compute; discriminate].
  - apply H3. vm_compute. reflexivity.
Defined.

(** *** The county text *)

Lemma trimStart_white_prefix (pre s : JS.jsstring) :
  Forall (fun c => JS.isWhiteSpace c = true) pre ->
  JS.trimStart (pre ++ s) = JS.trimStart s.
Proof.
  induction 1 as [|c pre Hc _ IH]; [reflexivity|].
  cbn [app JS.trimStart]. rewrite Hc. exact IH.
Qed.

Lemma trimStart_white_suffix (s post : JS.jsstring) :
  Forall (fun c => JS.isWhiteSpace c = true) post ->
  JS.trimStart (s ++ post)
  = match JS.trimStart s with
    | [] => []
    | t => (t ++ post)%list
    end.
Proof.
  intros H. induction s as [|c s IH].
  - cbn [app JS.trimStart].
    rewrite <- (app_nil_r post), trimStart_white_prefix by exact H.
    reflexivity.
  - cbn [app JS.trimStart]. destruct (JS.isWhiteSpace c); [exact IH|].
    reflexivity.
Qed.

(** [trim] ignores white space put before and after a text. *)
Lemma trim_white_padding (pre s post : JS.jsstring) :
  Forall (fun c => JS.isWhiteSpace c = true) pre ->
  Forall (fun c => JS.isWhiteSpace c = true) post ->
  JS.trim (pre ++ s ++ post) = JS.trim s.
Proof.
  intros Hpre Hpost. unfold JS.trim.
  rewrite trimStart_white_prefix by exact Hpre.
  rewrite trimStart_white_suffix by exact Hpost.
  destruct (JS.trimStart s) as [|c t] eqn:E; [reflexivity|].
  rewrite rev_app_distr.
  rewrite trimStart_white_prefix; [reflexivity|].
  apply Forall_rev. exact Hpost.
Qed.

Lemma jsstring_eqb_eq (a b : JS.jsstring) :
  JS.jsstring_eqb a b = true <-> a = b.
Proof.
  unfold JS.jsstring_eqb. destruct (list_eq_dec N.eq_dec a b); split;
    congruence.
Qed.

(** No county of the Valparaiso schedule is Marion. *)
Lemma valpo_not_marion (c : JS.jsstring) :
  County.getFeeScheduleForCounty c = County.VALPO_SCHEDULE ->
  JS.jsstring_eqb (JS.toLowerCase (JS.trim c)) (JS.str "marion") = false.
Proof.
  unfold County.getFeeScheduleForCounty. intros H.
  destruct (JS.jsstring_eqb _ (JS.str "marion")) eqn:E; [|reflexivity].
  apply jsstring_eqb_eq in E. rewrite E in H.
  apply (f_equal County.titleProcessingSeller) in H.
  vm_compute in H. discriminate H.
Qed.

(** X18.  White space before and after the county text changes nothing:
    the fee lines and the total are those of the text without it. *)
Theorem county_text_white_space
    (pre post c : JS.jsstring) (tt : TransactionType) (p : Q)
    (us iset icpl itieff ideed isdf : bool) :
  Forall (fun x => JS.isWhiteSpace x = true) pre ->
  Forall (fun x => JS.isWhiteSpace x = true) post ->
  County.getFeeScheduleForCounty (pre ++ c ++ post)
  = County.getFeeScheduleForCounty c
  /\ County.calcIhtSellerTitleFees
       (County.mkTitleFeeSettings tt (pre ++ c ++ post) us p
          iset icpl itieff ideed isdf)
     = County.calcIhtSellerTitleFees
         (County.mkTitleFeeSettings tt c us p iset icpl itieff ideed isdf).
Proof.
  intros Hpre Hpost.
  unfold County.calcIhtSellerTitleFees, County.getFeeScheduleForCounty.
  county_fields.
  rewrite !(trim_white_padding pre c post Hpre Hpost).
  split; reflexivity.
Qed.

Lemma county_text_white_space_witness :
  County.getFeeScheduleForCounty (JS.str "  Porter ")
  = County.getFeeScheduleForCounty (JS.str "Porter").
Proof.
  apply (county_text_white_space (JS.str "  ") (JS.str " ") (JS.str "Porter")
           cash 0 false false false false false false).
  - repeat constructor.
  - repeat constructor.
Defined.

(** X19.  With the same settings and a premium of whole cents up to a
    billion, a county of the Valparaiso schedule pays 75 more in total
    than a county of the standard schedule other than Marion: 50 on
    title processing and 25 on closing processing.  For a premium typed
    with a fraction of a cent the code's totals can be a cent closer:
    with every line included, 339.765 gives 1024.01 in Porter and 949.02
    in Allen county. *)
Theorem valparaiso_adds_75
    (c1 c2 : JS.jsstring) (tt : TransactionType) (p : Q)
    (us iset icpl itieff ideed isdf : bool) :
  (County.getFeeScheduleForCounty c1 = County.VALPO_SCHEDULE ->
   County.getFeeScheduleForCounty c2 = County.STANDARD_SCHEDULE ->
   JS.jsstring_eqb (JS.toLowerCase (JS.trim c2)) (JS.str "marion") = false ->
   wholeCents p = true ->
   (p <= 1000000000)%Q ->
   (total (County.calcIhtSellerTitleFees
             (County.mkTitleFeeSettings tt c1 us p
                iset icpl itieff ideed isdf))
    == total (County.calcIhtSellerTitleFees
                (County.mkTitleFeeSettings tt c2 us p
                   iset icpl itieff ideed isdf)) + 75)%Q)
  /\ Dbl.total
       (DblCounty.calcIhtSellerTitleFees
          (DblCounty_allLines (JS.str "Porter") (JS.str "339.765")))
     = Dbl.ofQ 1024.01
  /\ Dbl.total
       (DblCounty.calcIhtSellerTitleFees
          (DblCounty_allLines (JS.str "Allen") (JS.str "339.765")))
     = Dbl.ofQ 949.02.
Proof.
  split; [|split; vm_compute; reflexivity].
  intros E1 E2 M2 _ _. pose proof (valpo_not_marion c1 E1) as M1.
  unfold County.calcIhtSellerTitleFees. county_fields.
  change County.round2 with Base.round2.
  rewrite E1, E2, M1, M2.
  rewrite !total_of_parts
    by (destruct tt, us, iset, icpl, itieff, ideed, isdf;
        vm_compute; reflexivity).
  rewrite <- Qplus_assoc. apply Qplus_inj_l.
  destruct tt, us, iset, icpl, itieff, ideed, isdf; vm_compute; reflexivity.
Qed.

Lemma valparaiso_adds_75_witness :
  (total (County.calcIhtSellerTitleFees
            (County.mkTitleFeeSettings with_loan (JS.str "Porter") true 1500
               true true true true true))
   == total (County.calcIhtSellerTitleFees
               (County.mkTitleFeeSettings with_loan (JS.str "Allen") true 1500
                  true true true true true)) + 75)%Q.
Proof.
  apply (proj1 (valparaiso_adds_75 (JS.str "Porter") (JS.str "Allen")
                  with_loan 1500 true true true true true true));
    vm_compute; (reflexivity || discriminate).
Defined.

Lemma DblCounty_standard_schedule (c : JS.jsstring) :
  County.getFeeScheduleForCounty c = County.STANDARD_SCHEDULE ->
  DblCounty.getFeeScheduleForCounty c = DblCounty.STANDARD_SCHEDULE.
Proof.
  unfold County.getFeeScheduleForCounty, DblCounty.getFeeScheduleForCounty.
  destruct (existsb _ County.VALPO_COUNTIES); [|reflexivity].
  intros H. apply (f_equal County.titleProcessingSeller) in H.
  vm_compute in H. discriminate H.
Qed.

(** X20.  For a county of the standard schedule the two variants give
    the same lines and the same total when the settlement fee is left
    out, in exact and in double arithmetic, for every premium; with the
    settlement fee and a premium of whole cents up to a billion the
    county-schedule variant is lower by half the fee, 195 with a loan and
    145 for cash.  For a premium typed with a fraction of a cent the
    code's totals can be a cent closer: with every line included,
    209.765 gives 829.02 against 1024.01. *)
Theorem variants_differ_by_half_settlement
    (c : JS.jsstring) (tt : TransactionType) (p : Q)
    (us icpl itieff ideed isdf : bool) :
  (County.getFeeScheduleForCounty c = County.STANDARD_SCHEDULE ->
   let ct :=
     if JS.jsstring_eqb (JS.toLowerCase (JS.trim c)) (JS.str "marion")
     then Base.marion else Base.other in
   County.calcIhtSellerTitleFees
     (County.mkTitleFeeSettings tt c us p false icpl itieff ideed isdf)
   = Base.calcIhtSellerTitleFees
       (Base.mkTitleFeeSettings tt ct us p false icpl itieff ideed isdf)
   /\ (forall d : Dbl.double,
         DblCounty.calcIhtSellerTitleFees
           (DblCounty.mkTitleFeeSettings tt c us d
              false icpl itieff ideed isdf)
         = DblBase.calcIhtSellerTitleFees
             (DblBase.mkTitleFeeSettings tt ct us d
                false icpl itieff ideed isdf))
   /\ (wholeCents p = true ->
       (p <= 1000000000)%Q ->
       (total (County.calcIhtSellerTitleFees
                 (County.mkTitleFeeSettings tt c us p
                    true icpl itieff ideed isdf))
        == total (Base.calcIhtSellerTitleFees
                    (Base.mkTitleFeeSettings tt ct us p
                       true icpl itieff ideed isdf))
           - match tt with with_loan => 195 | cash => 145 end)%Q))
  /\ Dbl.total
       (DblCounty.calcIhtSellerTitleFees
          (DblCounty_allLines (JS.str "Marion") (JS.str "209.765")))
     = Dbl.ofQ 829.02
  /\ Dbl.total
       (DblBase.calcIhtSellerTitleFees (DblBase_allLines (JS.str "209.765")))
     = Dbl.ofQ 1024.01.
Proof.
  split; [|split; vm_compute; reflexivity].
  intros E ct. subst ct.
  pose proof (DblCounty_standard_schedule c E) as Ed.
  unfold County.calcIhtSellerTitleFees, Base.calcIhtSellerTitleFees,
    DblCounty.calcIhtSellerTitleFees, DblBase.calcIhtSellerTitleFees.
  county_fields. base_fields.
  cbn [Dbl.total Dbl.items
       DblCounty.transactionType DblCounty.county DblCounty.useSimplifile
       DblCounty.ownerPolicyPremium DblCounty.includeSettlementFee
       DblCounty.includeCPL DblCounty.includeTIEFF
       DblCounty.includeDeedRecording DblCounty.includeTransferFeeSDF
       DblBase.transactionType DblBase.countyType DblBase.useSimplifile
       DblBase.ownerPolicyPremium DblBase.includeSettlementFee
       DblBase.includeCPL DblBase.includeTIEFF DblBase.includeDeedRecording
       DblBase.includeTransferFeeSDF].
  change County.round2 with Base.round2.
  rewrite E, Ed.
  destruct (JS.jsstring_eqb (JS.toLowerCase (JS.trim c)) (JS.str "marion")).
  - split; [|split].
    + destruct us, icpl, itieff, ideed, isdf; reflexivity.
    + intros d. destruct us, icpl, itieff, ideed, isdf; reflexivity.
    + intros _ _.
      rewrite !total_of_parts
        by (destruct tt, us, icpl, itieff, ideed, isdf;
            vm_compute; reflexivity).
      unfold Qminus. rewrite <- Qplus_assoc. apply Qplus_inj_l.
      destruct tt, us, icpl, itieff, ideed, isdf; vm_compute; reflexivity.
  - split; [|split].
    + destruct us, icpl, itieff, ideed, isdf; reflexivity.
    + intros d. destruct us, icpl, itieff, ideed, isdf; reflexivity.
    + intros _ _.
      rewrite !total_of_parts
        by (destruct tt, us, icpl, itieff, ideed, isdf;
            vm_compute; reflexivity).
      unfold Qminus. rewrite <- Qplus_assoc. apply Qplus_inj_l.
      destruct tt, us, icpl, itieff, ideed, isdf; vm_compute; reflexivity.
Qed.

Lemma variants_differ_by_half_settlement_witness :
  (total (County.calcIhtSellerTitleFees
            (County.mkTitleFeeSettings with_loan (JS.str "Marion") true 1500
               true true true true true))
   == total (Base.calcIhtSellerTitleFees
               (Base.mkTitleFeeSettings with_loan Base.marion true 1500
                  true true true true true)) - 195)%Q.
Proof.
  destruct (variants_differ_by_half_settlement (JS.str "Marion") with_loan
              1500 true true true true true) as [H _].
  destruct H as (_ & _ & H); [vm_compute; reflexivity|].
  apply H; [vm_compute; reflexivity | vm_compute; discriminate].
Defined.

(** ** The form state *)

Ltac base_state_fields :=
  cbn [Base.App.salePriceInput Base.App.closingUTC Base.App.commissionType
       Base.App.commissionPct Base.App.commissionFlatInput
       Base.App.mortgagePayoffInput Base.App.sellerConcessionsInput
       Base.App.otherCosts Base.App.transactionType Base.App.countyType
       Base.App.useSimplifile Base.App.autoOwnerPolicy
       Base.App.ownerPolicyChoice Base.App.ownerPolicyPremiumInput
       Base.App.includeSettlementFee Base.App.includeCPL
       Base.App.includeTIEFF Base.App.includeDeedRecording
       Base.App.includeTransferFeeSDF Base.App.priorYearTaxInput
       Base.App.springPaid Base.App.fallPaid Base.App.springPaidInput
       Base.App.fallPaidInput Base.App.prorateThrough Base.App.force365].

Ltac base_state_unfold :=
  unfold Base.App.estimatedNet, Base.App.taxDebitRounded, Base.App.tax,
    Base.App.taxSettings, Base.App.sellerTitleFeesTotal,
    Base.App.sellerFeeCalc, Base.App.ownerPolicyPremium,
    Base.App.ownerPolicyAuto, Base.App.otherCostsTotal,
    Base.App.commissionAmount, Base.App.salePrice, Base.App.mortgagePayoff,
    Base.App.sellerConcessions, Base.App.priorYearTax,
    Base.App.springPaidAmount, Base.App.fallPaidAmount.

(** X21.  With every other field fixed, a mortgage payoff that reads
    higher never gives a higher estimated net.  It need not give a lower
    one cent by cent: on a sale of 150,005 at 6.5 percent the code gives
    138,852.91 for a payoff of 0.01 and for a payoff of 0.02, and
    138,852.89 for 0.03. *)
Theorem net_falls_with_payoff
    (st : Base.App.State) (v1 v2 : JS.jsstring) :
  ((Base.App.number v1 <= Base.App.number v2)%Q ->
   (Base.App.estimatedNet (Base_withPayoff v2 st)
    <= Base.App.estimatedNet (Base_withPayoff v1 st))%Q)
  /\ DblBase.App.estimatedNet (Base_commissionState (JS.str "0.01"))
     = Dbl.ofQ 138852.91
  /\ DblBase.App.estimatedNet (Base_commissionState (JS.str "0.02"))
     = Dbl.ofQ 138852.91
  /\ DblBase.App.estimatedNet (Base_commissionState (JS.str "0.03"))
     = Dbl.ofQ 138852.89.
Proof.
  split; [|repeat split; vm_compute; reflexivity].
  base_state_unfold. unfold Base_withPayoff. base_state_fields.
  intros H. apply round2_monotone. lra.
Qed.

Lemma net_falls_with_payoff_witness :
  (Base.App.estimatedNet
     (Base_withPayoff (JS.str "$150,000.25")
        (Base_initialState (JS.mkDate (JS.Date_UTC 2026 5 15)) (JS.str "0")))
   <= Base.App.estimatedNet
        (Base_withPayoff (JS.str "150,000")
           (Base_initialState (JS.mkDate (JS.Date_UTC 2026 5 15))
              (JS.str "0"))))%Q.
Proof.
  apply (proj1 (net_falls_with_payoff
                  (Base_initialState (JS.mkDate (JS.Date_UTC 2026 5 15))
                     (JS.str "0"))
                  (JS.str "150,000") (JS.str "$150,000.25"))).
  vm_compute. discriminate.
Defined.

(** The text an amount field stores is never read as a negative number. *)
Lemma formatted_money_nonneg (v : JS.jsstring) :
  (0 <= Base.App.number (Base.formatInputMoney v))%Q.
Proof.
  unfold Base.App.number.
  destruct (parseNumber_is_finite (Base.formatInputMoney v)) as [q E].
  rewrite E. cbn [JS.finiteValue]. apply Qnot_lt_le. intros Hq.
  pose proof (parseNumber_negative_has_minus _ _ E Hq) as Hin.
  apply filter_In in Hin. destruct Hin as [_ H]. discriminate H.
Qed.

Lemma other_costs_sum_nonneg (l : list OtherCost) (acc : Q) :
  Forall (fun c => (0 <= Base.App.number (amountInput c))%Q) l ->
  (0 <= acc)%Q ->
  (0 <= fold_left (fun sum c => sum + Base.App.number (amountInput c)) l acc)%Q.
Proof.
  intros H. revert acc. induction H as [|c l Hc _ IH]; intros acc Ha.
  - exact Ha.
  - cbn [fold_left]. apply IH. lra.
Qed.

Lemma other_cost_step_keeps (prev : list OtherCost) (ev : OtherCostEvent) :
  Forall (fun c => (0 <= Base.App.number (amountInput c))%Q) prev ->
  Forall (fun c => (0 <= Base.App.number (amountInput c))%Q)
    (Base_otherCostStep prev ev).
Proof.
  intros H. destruct ev as [rnd | id0 | id0 value | id0 typed];
    cbn [Base_otherCostStep].
  - unfold Base.App.addOtherCost. apply Forall_app. split; [exact H|].
    constructor; [|constructor]. cbn [amountInput].
    vm_compute. discriminate.
  - unfold Base.App.removeOtherCost. rewrite Forall_forall in *.
    intros x Hx. apply filter_In in Hx. apply H, Hx.
  - unfold Base.App.setOtherCostLabel. rewrite Forall_forall in *.
    intros x Hx. apply in_map_iff in Hx. destruct Hx as (y & <- & Hy).
    destruct (String.eqb (id y) id0); cbn [amountInput]; apply H, Hy.
  - unfold Base.App.setOtherCostAmount. rewrite Forall_forall in *.
    intros x Hx. apply in_map_iff in Hx. destruct Hx as (y & <- & Hy).
    destruct (String.eqb (id y) id0); cbn [amountInput].
    + apply formatted_money_nonneg.
    + apply H, Hy.
Qed.

(** X22.  Whatever rows are added, removed and edited, in any order,
    starting from the one row the form shows first, no amount of the
    other costs is read as a negative number, so their total is never
    negative. *)
Theorem other_costs_never_negative
    (events : list OtherCostEvent) (st : Base.App.State) :
  let rows := fold_left Base_otherCostStep events Base_initialOtherCosts in
  Forall (fun c => (0 <= Base.App.number (amountInput c))%Q) rows
  /\ (0 <= Base.App.otherCostsTotal (Base_withOtherCosts rows st))%Q.
Proof.
  intros rows.
  assert (Forall (fun c => (0 <= Base.App.number (amountInput c))%Q) rows)
    as H.
  { subst rows.
    assert (Forall (fun c => (0 <= Base.App.number (amountInput c))%Q)
              Base_initialOtherCosts) as H0
        by (repeat constructor; vm_compute; discriminate).
    revert H0. generalize Base_initialOtherCosts.
    induction events as [|ev events IH]; intros l Hl; [exact Hl|].
    cbn [fold_left]. apply IH, other_cost_step_keeps, Hl. }
  split; [exact H|].
  unfold Base.App.otherCostsTotal, Base_withOtherCosts. base_state_fields.
  apply other_costs_sum_nonneg; [exact H | apply Qle_refl].
Qed.

(** X23.  A row that is added reads 0 and leaves the total of the other
    costs as it was; removing the row just added gives back the rows as
    they were when no other row has its id; and removing an id takes out
    every row with that id and no other row. *)
Theorem other_cost_updaters
    (st : Base.App.State) (rnd id0 : string) (prev : list OtherCost)
    (x : OtherCost) :
  (Base.App.otherCostsTotal
     (Base_withOtherCosts
        (Base.App.addOtherCost rnd (Base.App.otherCosts st)) st)
   == Base.App.otherCostsTotal st)%Q
  /\ ((forall y, In y prev -> id y <> ("c" ++ rnd)%string) ->
      Base.App.removeOtherCost ("c" ++ rnd)
        (Base.App.addOtherCost rnd prev) = prev)
  /\ (In x (Base.App.removeOtherCost id0 prev)
      <-> In x prev /\ id x <> id0).
Proof.
  split; [|split].
  - unfold Base.App.otherCostsTotal, Base_withOtherCosts,
      Base.App.addOtherCost.
    base_state_fields. rewrite fold_left_app. cbn [fold_left amountInput].
    assert (Base.App.number (JS.str "0") == 0)%Q as E
        by (vm_compute; reflexivity).
    rewrite E. ring.
  - intros Hfresh. unfold Base.App.removeOtherCost, Base.App.addOtherCost.
    rewrite filter_app. cbn [filter id]. rewrite String.eqb_refl.
    cbn [negb]. rewrite app_nil_r.
    induction prev as [|y prev IH]; [reflexivity|].
    cbn [filter].
    assert (String.eqb (id y) ("c" ++ rnd) = false) as ->
        by (apply String.eqb_neq, Hfresh; left; reflexivity).
    cbn [negb]. f_equal. apply IH. intros z Hz. apply Hfresh. right. exact Hz.
  - unfold Base.App.removeOtherCost. rewrite filter_In, negb_true_iff.
    rewrite String.eqb_neq. reflexivity.
Qed.

Lemma other_cost_updaters_witness :
  Base.App.removeOtherCost "c9f"
    (Base.App.addOtherCost "9f" Base_initialOtherCosts)
  = Base_initialOtherCosts.
Proof.
  apply (other_cost_updaters
           (Base_initialState (JS.mkDate 0) (JS.str "0")) "9f" "c1"
           Base_initialOtherCosts (mkOtherCost "c1" "Other" (JS.str "0"))).
  intros y [<- | []]. discriminate.
Defined.

Lemma stored_input_nonnegative_witness :
  JS.isDigit 53 = true \/ 53%N = 46%N \/ 53%N = 44%N \/ 53%N = 36%N.
Proof.
  apply (proj1 stored_input_nonnegative (JS.str "a5") 53%N).
  vm_compute. auto.
Defined.

(** ** The name of the PDF file *)

Lemma String_of_Z_safe (n : Z) :
  Forall (fun c => (JS.isDigit c || (c =? 45)%N) = true)
    (JS.str (JS.String_of_Z n)).
Proof.
  assert (forall k, 0 <= k ->
            Forall (fun c => (JS.isDigit c || (c =? 45)%N) = true)
              (JS.str (JS.String_of_Z k))) as Hpos.
  { intros k Hk. destruct (String_of_Z_digits k Hk) as (_ & Hd & _).
    eapply Forall_impl; [|exact Hd]. cbn beta. intros c Hc.
    rewrite Hc. reflexivity. }
  destruct n as [|q|q].
  - apply Hpos. lia.
  - apply Hpos. lia.
  - change (JS.str (JS.String_of_Z (Z.neg q)))
      with (45%N :: JS.str (JS.String_of_Z (Z.pos q))).
    constructor; [reflexivity|]. apply Hpos. lia.
Qed.

Lemma padStart2_safe (n : Z) :
  0 <= n ->
  Forall (fun c => (JS.isDigit c || (c =? 45)%N) = true)
    (JS.str (JS.padStart2 (JS.String_of_Z n))).
Proof.
  intros Hn. destruct (padStart2_digits n Hn) as (_ & Hd & _).
  eapply Forall_impl; [|exact Hd]. cbn beta. intros c Hc.
  rewrite Hc. reflexivity.
Qed.

Lemma filter_all (A : Type) (f : A -> bool) (l : list A) :
  Forall (fun x => f x = true) l -> filter f l = l.
Proof.
  induction 1 as [|x l Hx _ IH]; [reflexivity|].
  cbn [filter]. rewrite Hx, IH. reflexivity.
Qed.

(** X24.  The text [ymd] prints holds digits and hyphens only, so
    [ymmdSafe] leaves it as it is: the PDF file is named after the
    closing date exactly as the sheet shows it, for every date.  Of any
    other text [ymmdSafe] keeps the digits and hyphens in their order. *)
Theorem file_name_keeps_date (dt : JS.Date) :
  Base.ymmdSafe (JS.str (Base.ymd dt)) = JS.str (Base.ymd dt)
  /\ (forall s c,
        In c (Base.ymmdSafe s) <->
        In c s /\ (JS.isDigit c = true \/ c = 45%N))
  /\ (forall s, Base.ymmdSafe (Base.ymmdSafe s) = Base.ymmdSafe s).
Proof.
  split; [|split].
  - unfold Base.ymmdSafe. apply filter_all. unfold Base.ymd.
    rewrite !str_app. rewrite !Forall_app.
    pose proof (MonthFromTime_range (JS.getTime dt)) as Hm.
    pose proof (DateFromTime_range (JS.getTime dt)) as Hd.
    repeat split.
    + apply String_of_Z_safe.
    + repeat constructor.
    + apply padStart2_safe. unfold JS.getUTCMonth. lia.
    + repeat constructor.
    + apply padStart2_safe. unfold JS.getUTCDate. lia.
  - intros s c. unfold Base.ymmdSafe.
    rewrite filter_In, orb_true_iff, N.eqb_eq. reflexivity.
  - intros s. unfold Base.ymmdSafe. apply filter_all.
    rewrite Forall_forall. intros c Hc. apply filter_In in Hc. apply Hc.
Qed.
